(** * flix.py: the Flix client of the Shotgun integration scripts

  A shallow embedding of [src/shotgun/flix.py] (class [flix]) and the
  properties of its credential handling, request signing, timeline
  mapping and export polling.

  Conventions of the embedding.
  - Python objects handled by the client are JSON-shaped; they are the
    inhabitants of [value].  Floating point numbers are left out.
  - A Python [str] is a [string] whose characters are read as the code
    points U+0000..U+00FF; [bytes] is [list byte].
  - A Python [dict] is an association list in insertion order (the order
    is observable: [json.dumps] and [for k in d] follow it).
  - A Python exception that leaves a method is [Raise e]; a method that
    returns is [Ok v]. *)

From Stdlib Require Import ZArith List String Ascii Bool Lia.
From Stdlib Require Import Strings.Byte.
From Stdlib Require Import DecimalString.
From Stdlib Require Import Sorted.
Import ListNotations.

Local Open Scope string_scope.
Local Open Scope list_scope.
Local Open Scope Z_scope.

(** ** Python values, exceptions, results *)

#[warnings="-register-all"] Inductive value : Type :=
| VNone
| VBool (b : bool)
| VInt (n : Z)
| VStr (s : string)
| VBytes (bs : list byte)
| VList (l : list value)
| VDict (d : list (string * value)).

Inductive exn : Type :=
| TypeError
| KeyError
| IndexError
| AttributeError
| ValueError.

Inductive result (A : Type) : Type :=
| Ok (a : A)
| Raise (e : exn).

Arguments Ok {A} a.
Arguments Raise {A} e.

Definition bind {A B} (r : result A) (k : A -> result B) : result B :=
match r with
| Ok a => k a
| Raise e => Raise e
end.

Declare Scope py_scope.
Delimit Scope py_scope with py.
Notation "x <- c1 ;; c2" := (bind c1 (fun x => c2))
(at level 61, c1 at next level, right associativity) : py_scope.
Local Open Scope py_scope.

(** ** The fragment of Python's object model that the client relies on *)

Module Py.

(** [d.get(k)] on an insertion-ordered dict. *)
Fixpoint lookup {A} (d : list (string * A)) (k : string) : option A :=
  match d with
  | [] => None
  | (k', v) :: d' => if String.eqb k' k then Some v else lookup d' k
  end.

(** [d[k] = v]: overwrite in place, or append a new key at the end. *)
Fixpoint store {A} (d : list (string * A)) (k : string) (v : A)
  : list (string * A) :=
  match d with
  | [] => [(k, v)]
  | (k', v') :: d' =>
      if String.eqb k' k then (k', v) :: d' else (k', v') :: store d' k v
  end.

(** [k in d]. *)
Definition contains {A} (d : list (string * A)) (k : string) : bool :=
  match lookup d k with Some _ => true | None => false end.

(** [x is None]. *)
Definition is_none (x : value) : bool :=
  match x with VNone => true | _ => false end.

(** [x.get(k)]: defined on dicts only. *)
Definition get (x : value) (k : string) : result value :=
  match x with
  | VDict d => Ok (match lookup d k with Some v => v | None => VNone end)
  | _ => Raise AttributeError
  end.

(** [x.get(k, dflt)]. *)
Definition get_default (x : value) (k : string) (dflt : value)
  : result value :=
  match x with
  | VDict d => Ok (match lookup d k with Some v => v | None => dflt end)
  | _ => Raise AttributeError
  end.

(** [x[k]] for a string key [k]. *)
Definition getitem (x : value) (k : string) : result value :=
  match x with
  | VDict d => match lookup d k with Some v => Ok v | None => Raise KeyError end
  | _ => Raise TypeError
  end.

(** [x[0]]. *)
Definition first (x : value) : result value :=
  match x with
  | VList (v :: _) => Ok v
  | VList [] => Raise IndexError
  | VStr (String c _) => Ok (VStr (String c EmptyString))
  | VStr EmptyString => Raise IndexError
  | VBytes (b :: _) => Ok (VInt (Z.of_N (Byte.to_N b)))
  | VBytes [] => Raise IndexError
  | VDict _ => Raise KeyError
  | VNone | VBool _ | VInt _ => Raise TypeError
  end.

(** [x == s] for a string literal [s]. *)
Definition eq_str (x : value) (s : string) : bool :=
  match x with VStr s' => String.eqb s' s | _ => false end.

(** [n + x] for an int [n]: ints and bools add, anything else is a
    [TypeError]. *)
Definition int_add (n : Z) (x : value) : result Z :=
  match x with
  | VInt m => Ok (n + m)
  | VBool b => Ok (n + (if b then 1 else 0))
  | _ => Raise TypeError
  end.

(** [a + b] where [a] is expected to be a [str]. *)
Definition str_add (a b : value) : result string :=
  match a, b with
  | VStr s, VStr t => Ok (s ++ t)%string
  | _, _ => Raise TypeError
  end.

(** [l[i]] on a list, negative indices counting from the end. *)
Definition index {A} (l : list A) (i : Z) : result A :=
  let n := Z.of_nat (List.length l) in
  let j := if i <? 0 then n + i else i in
  if (0 <=? j) && (j <? n) then
    match nth_error l (Z.to_nat j) with
    | Some a => Ok a
    | None => Raise IndexError
    end
  else Raise IndexError.

(** [bool(x)]. *)
Definition truthy (x : value) : bool :=
  match x with
  | VNone => false
  | VBool b => b
  | VInt n => negb (n =? 0)
  | VStr s => negb (String.eqb s "")
  | VBytes bs => match bs with [] => false | _ => true end
  | VList l => match l with [] => false | _ => true end
  | VDict d => match d with [] => false | _ => true end
  end.

End Py.

(** ** TimelineMapper: [format_panel_for_revision], [get_markers_per_panels] *)

Module Timeline.

(** [format_panel_for_revision(panel, pos)] (lines 581-588). *)
Definition format_panel_for_revision (panel : value) (pos : Z)
  : result value :=
  dialogue <- Py.get panel "dialogue" ;;
  duration <- Py.get panel "duration" ;;
  id <- Py.get panel "panel_id" ;;
  revision_number <- Py.get panel "revision_number" ;;
  asset <- Py.get panel "asset" ;;
  Ok (VDict [("dialogue", dialogue);
             ("duration", duration);
             ("id", id);
             ("revision_number", revision_number);
             ("asset", asset);
             ("pos", VInt pos)]).

(** The marker mapping built by [get_markers]: start -> name, an
    [OrderedDict] sorted by start. *)
Definition markers_t : Type := list (Z * string).

(** [markers[k]]. *)
Fixpoint markers_getitem (markers : markers_t) (k : Z) : result string :=
  match markers with
  | [] => Raise KeyError
  | (k', name) :: rest =>
      if k' =? k then Ok name else markers_getitem rest k
  end.

(** [panels_per_markers]: shot name -> list of formatted panels. *)
Definition groups_t : Type := list (string * list value).

(** [panels_per_markers[name].append(x)], the target looked up first. *)
Definition lookup_group (ppm : groups_t) (name : string)
  : result (list value) :=
  match Py.lookup ppm name with
  | Some l => Ok l
  | None => Raise KeyError
  end.

(** The loop state of [get_markers_per_panels]. *)
Record loop_state : Type := mkLoop {
  panels_per_markers : groups_t;
  panel_in : Z;
  marker_i : Z
}.

(** One iteration of the [for i, p in enumerate(panels)] loop
    (lines 606-620). *)
Definition step (markers : markers_t) (markers_keys : list Z)
    (i : Z) (p : value) (st : loop_state) : result loop_state :=
  let ppm := panels_per_markers st in
  let len := Z.of_nat (List.length markers_keys) in
  k <- Py.index markers_keys (marker_i st) ;;
  st1 <-
    (if k =? panel_in st then
       k1 <- Py.index markers_keys (marker_i st) ;;
       name <- markers_getitem markers k1 ;;
       let ppm1 := Py.store ppm name [] in
       k2 <- Py.index markers_keys (marker_i st) ;;
       name2 <- markers_getitem markers k2 ;;
       l <- lookup_group ppm1 name2 ;;
       fp <- format_panel_for_revision p i ;;
       let ppm2 := Py.store ppm1 name2 (l ++ [fp]) in
       Ok (mkLoop ppm2 (panel_in st)
             (if len >? marker_i st + 1 then marker_i st + 1
              else marker_i st))
     else
       k' <- Py.index markers_keys (marker_i st) ;;
       if k' >? panel_in st then
         kp <- Py.index markers_keys (marker_i st - 1) ;;
         name <- markers_getitem markers kp ;;
         l <- lookup_group ppm name ;;
         fp <- format_panel_for_revision p i ;;
         Ok (mkLoop (Py.store ppm name (l ++ [fp]))
               (panel_in st) (marker_i st))
       else if len - 1 =? marker_i st then
         k1 <- Py.index markers_keys (marker_i st) ;;
         name <- markers_getitem markers k1 ;;
         let ppm1 :=
           if negb (Py.contains ppm name) then Py.store ppm name []
           else ppm in
         k2 <- Py.index markers_keys (marker_i st) ;;
         name2 <- markers_getitem markers k2 ;;
         l <- lookup_group ppm1 name2 ;;
         fp <- format_panel_for_revision p i ;;
         Ok (mkLoop (Py.store ppm1 name2 (l ++ [fp]))
               (panel_in st) (marker_i st))
       else Ok st) ;;
  d <- Py.get p "duration" ;;
  pin <- Py.int_add (panel_in st1) d ;;
  Ok (mkLoop (panels_per_markers st1) pin (marker_i st1)).

(** The loop over [enumerate(panels)], from index [i]. *)
Fixpoint loop (markers : markers_t) (markers_keys : list Z)
    (i : Z) (panels : list value) (st : loop_state) : result loop_state :=
  match panels with
  | [] => Ok st
  | p :: rest =>
      st' <- step markers markers_keys i p st ;;
      loop markers markers_keys (i + 1) rest st'
  end.

(** [get_markers_per_panels(markers, panels)] (lines 601-621). *)
Definition get_markers_per_panels (markers : markers_t)
    (panels : list value) : result groups_t :=
  let markers_keys := map fst markers in
  st <- loop markers markers_keys 0 panels (mkLoop [] 0 0) ;;
  Ok (panels_per_markers st).

End Timeline.

(** ** ExportOrchestrator and per-shot media objects:
    [mo_per_shots], [get_mo_quicktime_export]

    The remote service is seen through the client's own request methods
    [get_asset], [get_chain] and [start_quicktime_export]; each returns a
    decoded JSON document, [None] after a failed request, or lets an
    exception escape.  The asset store is a function of the asset id; the
    status of a job changes between polls, so [get_chain] answers from a
    list of successive replies. *)

Module Orchestrator.

Import Timeline.

(** What the poll loop does that its caller and the service can see. *)
Inductive event : Type :=
| EStartExport (show_id seq_id seq_rev_number : value) (panels : list value)
    (episode_id : value) (include_dialogue : bool)
| EGetChain (chain_id : value)
| EOnRetry (retry : Z)
| ESleep (seconds : Z)
| EGetAsset (asset_id : value).

(** How a call of [get_mo_quicktime_export] ends.  [Pending]: the replies
    known to the model are used up and the loop is still polling. *)
Inductive outcome : Type :=
| Returned (v : value)
| Raised (e : exn)
| Pending.

Definition of_result (r : result value) : outcome :=
  match r with Ok v => Returned v | Raise e => Raised e end.

(** The value of [mo_per_shots[shot_name]]. *)
Record media_objects : Type := mkMedia {
  artwork : list value;
  thumbnails : list value
}.

Definition mo_map : Type := list (string * media_objects).

Section Service.

Variable get_asset : value -> result value.
Variable start_quicktime_export :
  value -> value -> value -> list value -> value -> bool -> result value.

(** [p.get('asset').get('asset_id')] (line 484). *)
Definition asset_id_of (p : value) : result value :=
  a <- Py.get p "asset" ;;
  Py.get a "asset_id".

(** [mo_per_shots[shot_name]], set at line 480 before any use. *)
Definition shot_entry (mo : mo_map) (shot_name : string)
  : result media_objects :=
  match Py.lookup mo shot_name with
  | Some e => Ok e
  | None => Raise KeyError
  end.

(** Lines 487-502: the two records appended for panel [p] and its
    [asset]. *)
Definition add_media_objects (shot_name : string) (p asset : value)
    (mo : mo_map) : result mo_map :=
  m <- Py.get_default asset "media_objects" (VDict []) ;;
  arts <- Py.get m "artwork" ;;
  artwork0 <- Py.first arts ;;
  e <- shot_entry mo shot_name ;;
  a_name <- Py.get artwork0 "name" ;;
  p_id <- Py.get p "id" ;;
  p_rev <- Py.get p "revision_number" ;;
  p_pos <- Py.get p "pos" ;;
  a_id <- Py.get artwork0 "id" ;;
  let mo1 :=
    Py.store mo shot_name
      (mkMedia (artwork e ++ [VDict [("name", a_name); ("id", p_id);
                                     ("revision_number", p_rev);
                                     ("pos", p_pos); ("mo", a_id)]])
               (thumbnails e)) in
  e1 <- shot_entry mo1 shot_name ;;
  m1 <- Py.get_default asset "media_objects" (VDict []) ;;
  th1 <- Py.get m1 "thumbnail" ;;
  t1 <- Py.first th1 ;;
  t_name <- Py.get t1 "name" ;;
  p_id' <- Py.get p "id" ;;
  p_rev' <- Py.get p "revision_number" ;;
  p_pos' <- Py.get p "pos" ;;
  m2 <- Py.get_default asset "media_objects" (VDict []) ;;
  th2 <- Py.get m2 "thumbnail" ;;
  t2 <- Py.first th2 ;;
  t_id <- Py.get t2 "id" ;;
  Ok (Py.store mo1 shot_name
        (mkMedia (artwork e1)
                 (thumbnails e1 ++ [VDict [("name", t_name); ("id", p_id');
                                           ("revision_number", p_rev');
                                           ("pos", p_pos'); ("mo", t_id)]]))).

(** [for p in panels] (lines 482-502).  [None] is the early
    [return None, False] of line 486. *)
Fixpoint panels_loop (shot_name : string) (panels : list value)
    (mo : mo_map) : result (option mo_map) :=
  match panels with
  | [] => Ok (Some mo)
  | p :: rest =>
      asset_id <- asset_id_of p ;;
      asset <- get_asset asset_id ;;
      if Py.is_none asset then Ok None
      else
        mo' <- add_media_objects shot_name p asset mo ;;
        panels_loop shot_name rest mo'
  end.

(** [for shot_name in panels_per_markers] (lines 479-502). *)
Fixpoint shots_loop (panels_per_markers : groups_t)
    (shot_names : list string) (mo : mo_map) : result (option mo_map) :=
  match shot_names with
  | [] => Ok (Some mo)
  | shot_name :: rest =>
      let mo1 := Py.store mo shot_name (mkMedia [] []) in
      panels <- lookup_group panels_per_markers shot_name ;;
      r <- panels_loop shot_name panels mo1 ;;
      match r with
      | None => Ok None
      | Some mo2 => shots_loop panels_per_markers rest mo2
      end
  end.

(** [mo_per_shots(panels_per_markers, show_id, seq_id, seq_rev_number,
    episode_id)] (lines 478-503); the result is the pair the method
    returns. *)
Definition mo_per_shots (panels_per_markers : groups_t)
    (show_id seq_id seq_rev_number episode_id : value)
  : result (option mo_map * bool) :=
  r <- shots_loop panels_per_markers (map fst panels_per_markers) [] ;;
  match r with
  | None => Ok (None, false)
  | Some mo => Ok (Some mo, true)
  end.

(** Lines 546-551: the [completed] branch. *)
Definition resolve_completed (res : value) : outcome * list event :=
  match (r <- Py.get_default res "results" (VDict []) ;;
         Py.get r "assetID") with
  | Raise e => (Raised e, [])
  | Ok asset_id =>
      (of_result
         (asset <- get_asset asset_id ;;
          if Py.is_none asset then Ok VNone
          else
            m <- Py.get_default asset "media_objects" (VDict []) ;;
            arts <- Py.get_default m "artwork" (VList []) ;;
            a0 <- Py.first arts ;;
            Py.get a0 "id"),
       [EGetAsset asset_id])
  end.

(** The [while True] loop (lines 535-551), one reply of [get_chain] per
    iteration.  [res.get('status')] is evaluated once here: it has no
    effect and the source's repeated evaluations agree. *)
Fixpoint poll (chain_id : value) (replies : list (result value))
    (retry : Z) : outcome * list event :=
  match replies with
  | [] => (Pending, [])
  | reply :: rest =>
      match reply with
      | Raise e => (Raised e, [EGetChain chain_id])
      | Ok res =>
          if Py.is_none res then (Returned VNone, [EGetChain chain_id])
          else
            match Py.get res "status" with
            | Raise e => (Raised e, [EGetChain chain_id])
            | Ok status =>
                if Py.eq_str status "errored"
                   || Py.eq_str status "timed out"
                then (Returned VNone, [EGetChain chain_id])
                else if Py.eq_str status "in progress" then
                  let (o, tr) := poll chain_id rest (retry + 1) in
                  (o, EGetChain chain_id :: EOnRetry retry :: ESleep 1 :: tr)
                else if Py.eq_str status "completed" then
                  let (o, tr) := resolve_completed res in
                  (o, EGetChain chain_id :: tr)
                else
                  let (o, tr) := poll chain_id rest retry in
                  (o, EGetChain chain_id :: tr)
            end
      end
  end.

(** [get_mo_quicktime_export(shot_name, panels, show_id, seq_id,
    seq_rev_number, episode_id, on_retry)] (lines 532-551).  The caller's
    [on_retry] is observed as the [EOnRetry] events. *)
Definition get_mo_quicktime_export (shot_name : string)
    (panels : list value) (show_id seq_id seq_rev_number episode_id : value)
    (chain_replies : list (result value)) : outcome * list event :=
  let ev :=
    EStartExport show_id seq_id seq_rev_number panels episode_id false in
  match start_quicktime_export show_id seq_id seq_rev_number panels
          episode_id false with
  | Raise e => (Raised e, [ev])
  | Ok chain_id =>
      let (o, tr) := poll chain_id chain_replies 0 in
      (o, ev :: tr)
  end.

(** A panel whose asset cannot be resolved: [get_asset] returns [None]. *)
Definition unresolved (p : value) : Prop :=
  exists asset_id,
    asset_id_of p = Ok asset_id /\ get_asset asset_id = Ok VNone.

(** An outcome of the loops of [mo_per_shots] that hands no mapping
    back. *)
Definition no_mapping (r : result (option mo_map)) : Prop :=
  r = Ok None \/ exists e, r = Raise e.

(** A reply of [get_chain] after which the loop polls again: a job
    document whose status is none of errored, timed out, completed. *)
Definition keeps_polling (reply : result value) : Prop :=
  exists res status,
    reply = Ok res
    /\ Py.get res "status" = Ok status
    /\ Py.eq_str status "errored" = false
    /\ Py.eq_str status "timed out" = false
    /\ Py.eq_str status "completed" = false.

(** A job document whose status is errored or timed out. *)
Definition failed_job (res : value) : Prop :=
  exists status,
    Py.get res "status" = Ok status
    /\ (Py.eq_str status "errored" = true
        \/ Py.eq_str status "timed out" = true).

(** The [EOnRetry] indices of a trace, in order. *)
Definition on_retry_calls (tr : list event) : list Z :=
  flat_map (fun e => match e with EOnRetry n => [n] | _ => [] end) tr.

End Service.

(** An asset store that knows asset 1 only, and a shot whose second panel
    refers to the unknown asset 2; used in the examples below. *)
Definition sample_assets (asset_id : value) : result value :=
  match asset_id with
  | VInt 1 =>
      Ok (VDict [("media_objects",
                  VDict [("artwork",
                          VList [VDict [("name", VStr "a.png");
                                        ("id", VInt 11)]]);
                         ("thumbnail",
                          VList [VDict [("name", VStr "t.png");
                                        ("id", VInt 12)]])])])
  | _ => Ok VNone
  end.

Definition sample_panel (asset_id pos : Z) : value :=
  VDict [("id", VInt (100 + pos)); ("revision_number", VInt 1);
         ("asset", VDict [("asset_id", VInt asset_id)]);
         ("pos", VInt pos)].

Definition sample_groups : groups_t :=
  [("A", [sample_panel 1 0; sample_panel 2 1])].

End Orchestrator.

(** ** Encodings used on the wire: UTF-8, hexadecimal, base64 *)

Module Codec.

Definition Z_of_byte (b : byte) : Z := Z.of_N (Byte.to_N b).

Definition byte_of_Z (z : Z) : byte :=
  match Byte.of_N (Z.to_N (z mod 256)) with
  | Some b => b
  | None => x00
  end.

Definition code_point (c : ascii) : Z := Z.of_N (N_of_ascii c).

(** [s.encode('utf-8')], for the code points below U+0100. *)
Fixpoint encode_utf8 (s : string) : list byte :=
  match s with
  | EmptyString => []
  | String c s' =>
      let n := code_point c in
      if n <? 128 then byte_of_Z n :: encode_utf8 s'
      else byte_of_Z (192 + Z.shiftr n 6)
             :: byte_of_Z (128 + Z.land n 63) :: encode_utf8 s'
  end.

(** [bs.decode('utf-8')] of ASCII bytes (base64 and hexadecimal text). *)
Definition decode_ascii (bs : list byte) : string := string_of_list_byte bs.

Definition hex_digit (n : Z) : byte :=
  byte_of_Z (if n <? 10 then 48 + n else 87 + n).

(** [binascii.hexlify(bs)]. *)
Fixpoint hexlify (bs : list byte) : list byte :=
  match bs with
  | [] => []
  | b :: rest =>
      hex_digit (Z.shiftr (Z_of_byte b) 4)
        :: hex_digit (Z.land (Z_of_byte b) 15) :: hexlify rest
  end.

Definition b64_alphabet : string :=
  "ABCDEFGHIJKLMNOPQRSTUVWXYZabcdefghijklmnopqrstuvwxyz0123456789+/".

Definition b64_char (i : Z) : byte :=
  match String.get (Z.to_nat i) b64_alphabet with
  | Some c => byte_of_ascii c
  | None => "="%byte
  end.

(** [base64.b64encode(bs)]. *)
Fixpoint b64encode (bs : list byte) : list byte :=
  match bs with
  | [] => []
  | [a] =>
      let n := Z.shiftl (Z_of_byte a) 16 in
      [b64_char (Z.shiftr n 18); b64_char (Z.land (Z.shiftr n 12) 63);
       "="%byte; "="%byte]
  | [a; b] =>
      let n := Z.lor (Z.shiftl (Z_of_byte a) 16) (Z.shiftl (Z_of_byte b) 8) in
      [b64_char (Z.shiftr n 18); b64_char (Z.land (Z.shiftr n 12) 63);
       b64_char (Z.land (Z.shiftr n 6) 63); "="%byte]
  | a :: b :: c :: rest =>
      let n := Z.lor (Z.lor (Z.shiftl (Z_of_byte a) 16)
                            (Z.shiftl (Z_of_byte b) 8)) (Z_of_byte c) in
      b64_char (Z.shiftr n 18) :: b64_char (Z.land (Z.shiftr n 12) 63)
        :: b64_char (Z.land (Z.shiftr n 6) 63) :: b64_char (Z.land n 63)
        :: b64encode rest
  end.

End Codec.

(** ** CredentialManager: [authenticate], [reset], [__get_token]

    Times are microseconds on the naive [datetime] axis.  The login
    request is answered by [requests_post]; [strptime] is
    [datetime.strptime(_, '%Y-%m-%dT%H:%M:%S')]. *)

Module Credential.

(** The fields of a [flix] object. *)
Record session : Type := mkSession {
  hostname : value;
  login : value;
  password : value;
  key : value;
  secret : value;
  expiry : option Z
}.

(** What [requests.post] followed by [json.loads(r.content)] can give:
    a [RequestException], or a response with its status code and its body
    ([None] when the body is not JSON). *)
Inductive http_outcome : Type :=
| RequestFailed
| Response (status_code : Z) (content : option value).

Inductive event : Type :=
| CallAuthenticate (hostname login password : value)
| HttpPost (url authorization : string).

Record world : Type := mkWorld {
  self : session;
  log : list event
}.

Definition M (A : Type) : Type := world -> result A * world.

Definition emit (e : event) (w : world) : world :=
  mkWorld (self w) (log w ++ [e]).

Definition update (f : session -> session) (w : world) : world :=
  mkWorld (f (self w)) (log w).

(** [reset()] (lines 448-453). *)
Definition reset (w : world) : world :=
  update (fun _ => mkSession VNone VNone VNone VNone VNone None) w.

(** [r.raise_for_status()]: [requests] raises [HTTPError] for the client
    and server error codes. *)
Definition raise_for_status (status_code : Z) : bool :=
  (400 <=? status_code) && (status_code <? 600).

(** [x.split('.')[0]]. *)
Fixpoint before_dot (s : string) : string :=
  match s with
  | EmptyString => EmptyString
  | String c s' =>
      if Ascii.eqb c "."%char then EmptyString else String c (before_dot s')
  end.

Definition split_dot_first (x : value) : result string :=
  match x with
  | VStr s => Ok (before_dot s)
  | VBytes _ => Raise TypeError
  | _ => Raise AttributeError
  end.

Definition hours (n : Z) : Z := n * 3600 * 1000000.

(** The [Authorization] header of the login request (lines 39-43). *)
Definition basic_authorization (login' password' : string) : string :=
  ("Basic "
     ++ Codec.decode_ascii
          (Codec.b64encode
             (Codec.encode_utf8 ((login' ++ ":") ++ password'))))%string.

(** The login request fails for the client: [requests.post] or
    [raise_for_status] raises a [RequestException]. *)
Definition login_rejected (o : http_outcome) : Prop :=
  match o with
  | RequestFailed => True
  | Response status_code _ => 400 <= status_code < 600
  end.

(** The login request fails in the words of section 4.2 of the
    specification: a network error or a status outside 200..299. *)
Definition spec_login_failed (o : http_outcome) : Prop :=
  match o with
  | RequestFailed => True
  | Response status_code _ => ~ (200 <= status_code < 300)
  end.

(** No usable credential is held: one of key, secret, expiry is [None]. *)
Definition no_credential (s : session) : Prop :=
  key s = VNone \/ secret s = VNone \/ expiry s = None.

(** The held credential expires less than two hours after [now]. *)
Definition expires_within_2h (now : Z) (s : session) : Prop :=
  exists e, expiry s = Some e /\ now + hours 2 > e.

(** Between [w] and [w'], [authenticate] was called with the stored
    hostname, login and password of [w]. *)
Definition reauthenticated (w w' : world) : Prop :=
  exists evs,
    log w' = log w ++ CallAuthenticate (hostname (self w)) (login (self w))
                        (password (self w)) :: evs.

Section Collaborators.

Variable requests_post : string -> string -> http_outcome.
Variable strptime : string -> result Z.

(** [authenticate(hostname, login, password)] (lines 39-61). *)
Definition authenticate (hostname' login' password' : value)
  : M value := fun w =>
  let w := emit (CallAuthenticate hostname' login' password') w in
  match (lp <- Py.str_add login' (VStr ":") ;;
         Py.str_add (VStr lp) password') with
  | Raise e => (Raise e, w)
  | Ok userpass =>
      let authdata := Codec.b64encode (Codec.encode_utf8 userpass) in
      let authorization := ("Basic " ++ Codec.decode_ascii authdata)%string in
      match Py.str_add hostname' (VStr "/authenticate") with
      | Raise e => (Raise e, w)
      | Ok url =>
          let w := emit (HttpPost url authorization) w in
          match requests_post url authorization with
          | RequestFailed => (Ok VNone, w)
          | Response status_code content =>
              if raise_for_status status_code then (Ok VNone, w)
              else
                match content with
                | None => (Raise ValueError, w)
                | Some response =>
                    let w :=
                      update (fun s => mkSession hostname' login' password'
                                         (key s) (secret s) (expiry s)) w in
                    match Py.getitem response "id" with
                    | Raise e => (Raise e, w)
                    | Ok id =>
                        let w :=
                          update (fun s => mkSession (hostname s) (login s)
                                     (password s) id (secret s) (expiry s))
                                 w in
                        match Py.getitem response "secret_access_key" with
                        | Raise e => (Raise e, w)
                        | Ok sk =>
                            let w :=
                              update (fun s => mkSession (hostname s)
                                         (login s) (password s) (key s) sk
                                         (expiry s)) w in
                            match (d <- Py.getitem response "expiry_date" ;;
                                   d0 <- split_dot_first d ;;
                                   strptime d0) with
                            | Raise e => (Raise e, w)
                            | Ok t =>
                                (Ok response,
                                 update (fun s => mkSession (hostname s)
                                            (login s) (password s) (key s)
                                            (secret s) (Some t)) w)
                            end
                        end
                    end
                end
          end
      end
  end.

(** The guard of [__get_token] (lines 630-631). *)
Definition must_refresh (now : Z) (s : session) : bool :=
  Py.is_none (key s)
  || Py.is_none (secret s)
  || match expiry s with
     | None => true
     | Some e => now + hours 2 >? e
     end.

(** [__get_token()] (lines 630-642); [now] is [datetime.now()]. *)
Definition get_token (now : Z) : M (value * value) := fun w =>
  if must_refresh now (self w) then
    let (r, w) :=
      authenticate (hostname (self w)) (login (self w)) (password (self w))
        w in
    match r with
    | Raise e => (Raise e, w)
    | Ok authentificationToken =>
        match (auth_id <- Py.getitem authentificationToken "id" ;;
               auth_secret_token <-
                 Py.getitem authentificationToken "secret_access_key" ;;
               d <- Py.getitem authentificationToken "expiry_date" ;;
               auth_expiry_date <- split_dot_first d ;;
               Ok (auth_id, auth_secret_token, auth_expiry_date)) with
        | Raise e => (Raise e, w)
        | Ok (auth_id, auth_secret_token, auth_expiry_date) =>
            let w :=
              update (fun s => mkSession (hostname s) (login s) (password s)
                                 auth_id auth_secret_token (expiry s)) w in
            match strptime auth_expiry_date with
            | Raise e => (Raise e, w)
            | Ok t =>
                let w :=
                  update (fun s => mkSession (hostname s) (login s)
                                     (password s) (key s) (secret s)
                                     (Some t)) w in
                (Ok (key (self w), secret (self w)), w)
            end
        end
    end
  else (Ok (key (self w), secret (self w)), w).

(** Section 4.2 of the specification on a failed login: the call reports
    failure and the session is as before. *)
Definition spec_failed_login_is_atomic (hostname' login' password' : string)
    (w : world) : Prop :=
  spec_login_failed
    (requests_post (hostname' ++ "/authenticate")%string
       (basic_authorization login' password')) ->
  fst (authenticate (VStr hostname') (VStr login') (VStr password') w)
  = Ok VNone
  /\ self (snd (authenticate (VStr hostname') (VStr login')
                  (VStr password') w))
     = self w.

End Collaborators.

(** A session logged in earlier, used in the examples below. *)
Definition logged_in (expiry : Z) : world :=
  mkWorld
    (mkSession (VStr "https://flix") (VStr "artist")
       (VStr "pw") (VStr "key-1") (VStr "secret-1") (Some expiry)) [].

(** A login service answering every request with the same document. *)
Definition answers (status_code : Z) : string -> string ->
                                       http_outcome :=
  fun _ _ =>
    Response status_code
      (Some (VDict [("id", VStr "key-2");
                    ("secret_access_key", VStr "secret-2");
                    ("expiry_date", VStr "2030-01-01T00:00:00.000Z")])).

End Credential.

(** ** [hashlib.md5]: the MD5 message digest (RFC 1321) *)

Module Md5.

Definition mask32 (x : Z) : Z := Z.land x 0xffffffff.

Definition rotl32 (x s : Z) : Z :=
  mask32 (Z.lor (Z.shiftl x s) (Z.shiftr x (32 - s))).

Definition not32 (x : Z) : Z := Z.lxor x 0xffffffff.

Definition shifts : list Z :=
  [7; 12; 17; 22; 7; 12; 17; 22; 7; 12; 17; 22; 7; 12; 17; 22;
   5; 9; 14; 20; 5; 9; 14; 20; 5; 9; 14; 20; 5; 9; 14; 20;
   4; 11; 16; 23; 4; 11; 16; 23; 4; 11; 16; 23; 4; 11; 16; 23;
   6; 10; 15; 21; 6; 10; 15; 21; 6; 10; 15; 21; 6; 10; 15; 21].

Definition sines : list Z :=
  [0xd76aa478; 0xe8c7b756; 0x242070db; 0xc1bdceee;
   0xf57c0faf; 0x4787c62a; 0xa8304613; 0xfd469501;
   0x698098d8; 0x8b44f7af; 0xffff5bb1; 0x895cd7be;
   0x6b901122; 0xfd987193; 0xa679438e; 0x49b40821;
   0xf61e2562; 0xc040b340; 0x265e5a51; 0xe9b6c7aa;
   0xd62f105d; 0x02441453; 0xd8a1e681; 0xe7d3fbc8;
   0x21e1cde6; 0xc33707d6; 0xf4d50d87; 0x455a14ed;
   0xa9e3e905; 0xfcefa3f8; 0x676f02d9; 0x8d2a4c8a;
   0xfffa3942; 0x8771f681; 0x6d9d6122; 0xfde5380c;
   0xa4beea44; 0x4bdecfa9; 0xf6bb4b60; 0xbebfbc70;
   0x289b7ec6; 0xeaa127fa; 0xd4ef3085; 0x04881d05;
   0xd9d4d039; 0xe6db99e5; 0x1fa27cf8; 0xc4ac5665;
   0xf4292244; 0x432aff97; 0xab9423a7; 0xfc93a039;
   0x655b59c3; 0x8f0ccc92; 0xffeff47d; 0x85845dd1;
   0x6fa87e4f; 0xfe2ce6e0; 0xa3014314; 0x4e0811a1;
   0xf7537e82; 0xbd3af235; 0x2ad7d2bb; 0xeb86d391].

(** The chaining variables A, B, C, D. *)
Record state : Type := mkState { sa : Z; sb : Z; sc : Z; sd : Z }.

Definition init : state :=
  mkState 0x67452301 0xefcdab89 0x98badcfe 0x10325476.

(** [n] as [k] little-endian bytes. *)
Fixpoint le_bytes (k : nat) (n : Z) : list Z :=
  match k with
  | O => []
  | S k' => Z.land n 255 :: le_bytes k' (Z.shiftr n 8)
  end.

(** Little-endian bytes as a number. *)
Fixpoint le_word (bs : list Z) : Z :=
  match bs with
  | [] => 0
  | b :: rest => b + 256 * le_word rest
  end.

(** The message followed by 0x80, zeros up to 56 mod 64, and the bit
    length on 64 bits. *)
Definition pad (msg : list Z) : list Z :=
  let len := Z.of_nat (List.length msg) in
  let zeros := Z.to_nat ((55 - len) mod 64) in
  msg ++ [128] ++ repeat 0 zeros ++ le_bytes 8 (Z.land (8 * len) (2 ^ 64 - 1)).

(** A list cut into pieces of [n] elements; [fuel] bounds their number. *)
Fixpoint chunks {A} (fuel n : nat) (l : list A) : list (list A) :=
  match fuel, l with
  | O, _ => []
  | _, [] => []
  | S fuel', _ => firstn n l :: chunks fuel' n (skipn n l)
  end.

(** Round [i] on the message words [m]. *)
Definition round (m : list Z) (st : state) (i : Z) : state :=
  let '(mkState a b c d) := st in
  let f :=
    if i <? 16 then Z.lor (Z.land b c) (Z.land (not32 b) d)
    else if i <? 32 then Z.lor (Z.land d b) (Z.land (not32 d) c)
    else if i <? 48 then Z.lxor (Z.lxor b c) d
    else Z.lxor c (Z.lor b (not32 d)) in
  let g :=
    if i <? 16 then i
    else if i <? 32 then (5 * i + 1) mod 16
    else if i <? 48 then (3 * i + 5) mod 16
    else (7 * i) mod 16 in
  let x := mask32 (f + a + nth (Z.to_nat i) sines 0 + nth (Z.to_nat g) m 0) in
  mkState d (mask32 (b + rotl32 x (nth (Z.to_nat i) shifts 0))) b c.

Definition rounds : list Z := map Z.of_nat (seq 0 64).

(** One 64-byte block folded into the chaining variables. *)
Definition block (st : state) (chunk : list Z) : state :=
  let m := map le_word (chunks 16 4 chunk) in
  let st' := fold_left (round m) rounds st in
  mkState (mask32 (sa st + sa st')) (mask32 (sb st + sb st'))
          (mask32 (sc st + sc st')) (mask32 (sd st + sd st')).

(** [hashlib.md5(bs).digest()]. *)
Definition digest (bs : list byte) : list byte :=
  let padded := pad (map Codec.Z_of_byte bs) in
  let st := fold_left block (chunks (List.length padded) 64 padded) init in
  map Codec.byte_of_Z
    (le_bytes 4 (sa st) ++ le_bytes 4 (sb st)
       ++ le_bytes 4 (sc st) ++ le_bytes 4 (sd st)).

(** [hashlib.md5(bs).hexdigest()]. *)
Definition hexdigest (bs : list byte) : string :=
  Codec.decode_ascii (Codec.hexlify (digest bs)).

End Md5.

(** ** [json.dumps] *)

Module Json.

Definition quote : string := String "034"%char EmptyString.

Definition backslash : string := String "092"%char EmptyString.

Definition hex_char (n : Z) : string :=
  String (ascii_of_byte (Codec.hex_digit n)) EmptyString.

(** The escape of one character under [ensure_ascii=True]. *)
Definition escape_char (c : ascii) : string :=
  let n := Codec.code_point c in
  if n =? 34 then backslash ++ quote
  else if n =? 92 then backslash ++ backslash
  else if n =? 10 then backslash ++ "n"
  else if n =? 13 then backslash ++ "r"
  else if n =? 9 then backslash ++ "t"
  else if n =? 8 then backslash ++ "b"
  else if n =? 12 then backslash ++ "f"
  else if (32 <=? n) && (n <=? 126) then String c EmptyString
  else backslash ++ "u00" ++ hex_char (Z.shiftr n 4)
         ++ hex_char (Z.land n 15).

Fixpoint escape (s : string) : string :=
  match s with
  | EmptyString => EmptyString
  | String c s' => escape_char c ++ escape s'
  end.

Definition dumps_str (s : string) : string := quote ++ escape s ++ quote.

(** [repr] of an int. *)
Definition dumps_int (n : Z) : string := NilZero.string_of_int (Z.to_int n).

Fixpoint join (sep : string) (l : list string) : string :=
  match l with
  | [] => EmptyString
  | [x] => x
  | x :: rest => x ++ sep ++ join sep rest
  end.

(** [json.dumps(v, separators=(item_sep, key_sep))]; [bytes] are not
    serializable. *)
Fixpoint dumps_with (item_sep key_sep : string) (v : value)
  : result string :=
  match v with
  | VNone => Ok "null"
  | VBool true => Ok "true"
  | VBool false => Ok "false"
  | VInt n => Ok (dumps_int n)
  | VStr s => Ok (dumps_str s)
  | VBytes _ => Raise TypeError
  | VList l =>
      items <-
        (fix go (l : list value) : result (list string) :=
           match l with
           | [] => Ok []
           | x :: rest =>
               sx <- dumps_with item_sep key_sep x ;;
               srest <- go rest ;;
               Ok (sx :: srest)
           end) l ;;
      Ok ("[" ++ join item_sep items ++ "]")
  | VDict d =>
      items <-
        (fix go (d : list (string * value)) : result (list string) :=
           match d with
           | [] => Ok []
           | (k, x) :: rest =>
               sx <- dumps_with item_sep key_sep x ;;
               srest <- go rest ;;
               Ok ((dumps_str k ++ key_sep ++ sx) :: srest)
           end) d ;;
      Ok ("{" ++ join item_sep items ++ "}")
  end%string.

(** [json.dumps(v)]: the default separators are [', '] and [': ']. *)
Definition dumps (v : value) : result string := dumps_with ", " ": " v.

(** The compact form, [separators=(',', ':')]. *)
Definition dumps_compact (v : value) : result string := dumps_with "," ":" v.

End Json.

(** ** Signer: [__fn_sign] *)

Module Signer.

Definition nl : string := String "010"%char EmptyString.

(** [c.upper()] on a character below U+0100: the letters a-z and the
    Latin-1 letters U+00E0..U+00FE (U+00F7, the division sign, apart)
    move down by 32, and U+00DF becomes ['SS'].  The capitals of U+00B5
    and U+00FF are U+039C and U+0178, beyond the characters a [string]
    holds here: these two are kept as they are. *)
Definition upper_char (c : ascii) : string :=
  let n := Codec.code_point c in
  if (97 <=? n) && (n <=? 122) then
    String (ascii_of_N (Z.to_N (n - 32))) EmptyString
  else if n =? 223 then "SS"
  else if (224 <=? n) && (n <=? 254) && negb (n =? 247) then
    String (ascii_of_N (Z.to_N (n - 32))) EmptyString
  else String c EmptyString.

(** [s.upper()] (line 675); the client passes ['GET'] and ['POST']. *)
Fixpoint upper (s : string) : string :=
  match s with
  | EmptyString => EmptyString
  | String c s' => (upper_char c ++ upper s')%string
  end.

(** [s.split(sep)[0]]. *)
Fixpoint before (sep : ascii) (s : string) : string :=
  match s with
  | EmptyString => EmptyString
  | String c s' =>
      if Ascii.eqb c sep then EmptyString else String c (before sep s')
  end.

(** Lines 676-685: [content_md5].  [hashlib.md5] accepts bytes only, so
    the [str] branch of line 679 raises. *)
Definition content_md5 (content : value) : result string :=
  if Py.truthy content then
    match content with
    | VStr _ => Raise TypeError
    | VBytes bs => Ok (Md5.hexdigest (Codec.hexlify bs))
    | VDict _ =>
        jsoned <- Json.dumps content ;;
        Ok (Md5.hexdigest (Codec.encode_utf8 jsoned))
    | _ => Ok EmptyString
    end
  else Ok EmptyString.

(** Lines 686-690: what the content adds to the canonical string. *)
Definition content_lines (content : value) (content_type : string)
  : result string :=
  md5 <- content_md5 content ;;
  if negb (String.eqb md5 "") then Ok (md5 ++ nl ++ content_type ++ nl)%string
  else Ok (nl ++ nl)%string.

(** Lines 675-694: [raw_string].  [dt_isoformat] is [dt.isoformat()]. *)
Definition raw_string (url : string) (content : value)
    (http_method content_type dt_isoformat : string) : result string :=
  lines <- content_lines content content_type ;;
  Ok (upper http_method ++ nl ++ lines
        ++ before "."%char dt_isoformat ++ "Z" ++ nl
        ++ before "?"%char url)%string.

Section Hmac.

(** [hmac.new(key, msg, digestmod=hashlib.sha256).digest()]. *)
Variable hmac_sha256 : list byte -> list byte -> list byte.

(** [__fn_sign(access_key_id, secret_access_key, url, content,
    http_method, content_type, dt)] (lines 675-702). *)
Definition fn_sign (access_key_id secret_access_key url : string)
    (content : value) (http_method content_type dt_isoformat : string)
  : result string :=
  raw <- raw_string url content http_method content_type dt_isoformat ;;
  if (String.length secret_access_key =? 0)%nat then Raise ValueError
  else
    let digest_created :=
      Codec.b64encode
        (hmac_sha256 (Codec.encode_utf8 secret_access_key)
                     (Codec.encode_utf8 raw)) in
    Ok ("FNAUTH " ++ access_key_id ++ ":"
          ++ Codec.decode_ascii digest_created)%string.

End Hmac.

(** The canonical string as section 4.1 of the specification words it:
    compact JSON for a dict, the string itself for a string, the
    hexadecimal text for bytes, two bare newlines for empty content. *)
Definition spec_content_lines (content : value) (content_type : string)
  : result string :=
  if Py.truthy content then
    match content with
    | VDict _ =>
        jsoned <- Json.dumps_compact content ;;
        Ok (Md5.hexdigest (Codec.encode_utf8 jsoned) ++ nl
              ++ content_type ++ nl)%string
    | VStr s =>
        Ok (Md5.hexdigest (Codec.encode_utf8 s) ++ nl
              ++ content_type ++ nl)%string
    | VBytes bs =>
        Ok (Md5.hexdigest (Codec.hexlify bs) ++ nl
              ++ content_type ++ nl)%string
    | _ => Ok (nl ++ nl)%string
    end
  else Ok (nl ++ nl)%string.

End Signer.

(** ** [get_markers] and the timeline read as segments *)

Module Markers.

Import Timeline.

(** [for m in x]: the items a loop over [x] visits. *)
Definition iterate (x : value) : result (list value) :=
  match x with
  | VList l => Ok l
  | VDict d => Ok (map (fun kv => VStr (fst kv)) d)
  | VStr s =>
      Ok (map (fun c => VStr (String c EmptyString)) (list_ascii_of_string s))
  | VBytes bs => Ok (map (fun b => VInt (Codec.Z_of_byte b)) bs)
  | VNone | VBool _ | VInt _ => Raise TypeError
  end.

(** [markers_mapping[k] = name]: overwrite in place, or append. *)
Fixpoint store_marker (mapping : markers_t) (k : Z) (name : string)
  : markers_t :=
  match mapping with
  | [] => [(k, name)]
  | (k', name') :: rest =>
      if k' =? k then (k', name) :: rest
      else (k', name') :: store_marker rest k name
  end.

(** The loop of lines 565-566.  The embedding follows markers whose
    [start] is an int and whose [name] is a str, as [markers_t] has them;
    [None] says that a marker of another shape was met. *)
Fixpoint fill (ms : list value) (mapping : markers_t)
  : option (result markers_t) :=
  match ms with
  | [] => Some (Ok mapping)
  | m :: rest =>
      match Py.get m "name" with
      | Raise e => Some (Raise e)
      | Ok name =>
          match Py.get m "start" with
          | Raise e => Some (Raise e)
          | Ok start =>
              match start, name with
              | VInt k, VStr n => fill rest (store_marker mapping k n)
              | _, _ => None
              end
          end
      end
  end.

(** One item put at its place in a list sorted by start. *)
Fixpoint insert_sorted (kv : Z * string) (l : markers_t) : markers_t :=
  match l with
  | [] => [kv]
  | kv' :: rest =>
      if fst kv <=? fst kv' then kv :: l else kv' :: insert_sorted kv rest
  end.

(** [sorted(markers_mapping.items())]: the starts of a dict are distinct,
    so the order of the pairs is the order of their starts. *)
Definition sorted_items (mapping : markers_t) : markers_t :=
  fold_right insert_sorted [] mapping.

(** [get_markers(sequence_revision)] (lines 563-567). *)
Definition get_markers (sequence_revision : value)
  : option (result markers_t) :=
  match (meta <- Py.get_default sequence_revision "meta_data" (VDict []) ;;
         markers <- Py.get_default meta "markers" (VList []) ;;
         iterate markers) with
  | Raise e => Some (Raise e)
  | Ok ms =>
      match fill ms [] with
      | Some (Ok mapping) => Some (Ok (sorted_items mapping))
      | other => other
      end
  end.

(** [doc] is a marker object with the start and the name of [kv]. *)
Definition is_marker (doc : value) (kv : Z * string) : Prop :=
  exists d,
    doc = VDict d
    /\ Py.lookup d "start" = Some (VInt (fst kv))
    /\ Py.lookup d "name" = Some (VStr (snd kv)).

(** The name of the last marker of [l] that starts at [k]. *)
Fixpoint last_name (l : list (Z * string)) (k : Z) : option string :=
  match l with
  | [] => None
  | kv :: rest =>
      match last_name rest k with
      | Some n => Some n
      | None => if fst kv =? k then Some (snd kv) else None
      end
  end.

(** The mapping after the loop over the markers [tl]. *)
Definition filled (tl : list (Z * string)) (mapping : markers_t)
  : markers_t :=
  fold_left (fun m kv => store_marker m (fst kv) (snd kv)) tl mapping.

(** The value [format_panel_for_revision] returns for a panel object. *)
Definition format_dict (d : list (string * value)) (pos : Z) : value :=
  let field k := match Py.lookup d k with Some v => v | None => VNone end in
  VDict [("dialogue", field "dialogue");
         ("duration", field "duration");
         ("id", field "panel_id");
         ("revision_number", field "revision_number");
         ("asset", field "asset");
         ("pos", VInt pos)].

(** A panel object of duration [n]. *)
Definition has_duration (n : Z) (d : list (string * value)) : Prop :=
  Py.lookup d "duration" = Some (VInt n).

(** A shot as the timeline lays it out: its marker and its panels. *)
Definition segment : Type := (Z * string) * list (list (string * value)).

(** The summed durations of panel objects. *)
Fixpoint total (panels : list (list (string * value))) : Z :=
  match panels with
  | [] => 0
  | d :: rest =>
      match Py.lookup d "duration" with
      | Some (VInt n) => n + total rest
      | _ => total rest
      end
  end.

(** From position [pos] on, every marker starts where its segment
    starts, and every segment has at least one panel, each of a positive
    duration. *)
Fixpoint aligned (pos : Z) (segs : list segment) : Prop :=
  match segs with
  | [] => True
  | (kv, panels) :: rest =>
      fst kv = pos
      /\ panels <> []
      /\ Forall (fun d => exists n, 0 < n /\ has_duration n d) panels
      /\ aligned (pos + total panels) rest
  end.

(** The panels of a segment formatted with their indices from [i] on. *)
Fixpoint format_from (i : Z) (panels : list (list (string * value)))
  : list value :=
  match panels with
  | [] => []
  | d :: rest => format_dict d i :: format_from (i + 1) rest
  end.

(** The segments stored under their names, one after the other. *)
Fixpoint stored (i : Z) (segs : list segment) (acc : groups_t) : groups_t :=
  match segs with
  | [] => acc
  | (kv, panels) :: rest =>
      stored (i + Z.of_nat (List.length panels)) rest
        (Py.store acc (snd kv) (format_from i panels))
  end.

(** All the panels of the segments, in timeline order. *)
Definition panels_of (segs : list segment) : list value :=
  map VDict (List.concat (map snd segs)).

End Markers.

(** ** The timeline of several segments *)

Module Segments.

Import Timeline Markers.

(** The summed durations of all the panels of the segments. *)
Definition span (segs : list segment) : Z :=
  total (List.concat (map snd segs)).

(** The number of panels of the segments. *)
Definition count (segs : list segment) : Z :=
  Z.of_nat (List.length (List.concat (map snd segs))).

(** A panel object with an int duration that is not negative. *)
Definition timed (d : list (string * value)) : Prop :=
  exists n, 0 <= n /\ has_duration n d.

(** The segments with one more panel put at the end of the last one. *)
Fixpoint extend_last (segs : list segment) (d : list (string * value))
  : list segment :=
  match segs with
  | [] => []
  | [(kv, panels)] => [(kv, panels ++ [d])]
  | s :: rest => s :: extend_last rest d
  end.

(** What the loop of [get_markers_per_panels] keeps true when the first
    marker does not start after 0: [marker_i] is an index of the key
    list, [panel_in] is not negative, and the group of the marker before
    [marker_i] exists. *)
Definition loop_invariant (markers : markers_t) (st : loop_state) : Prop :=
  0 <= panel_in st
  /\ (exists j k0,
         marker_i st = Z.of_nat j
         /\ (j < List.length markers)%nat
         /\ nth_error (map fst markers) 0 = Some k0 /\ k0 <= 0)
  /\ (0 < marker_i st ->
      exists kp name l,
        Py.index (map fst markers) (marker_i st - 1) = Ok kp
        /\ markers_getitem markers kp = Ok name
        /\ Py.lookup (panels_per_markers st) name = Some l).

End Segments.

(** ** Panels whose assets resolve *)

Module Shots.

Import Timeline Orchestrator.

(** [d.get(k)] on the fields of an object. *)
Definition field (d : list (string * value)) (k : string) : value :=
  match Py.lookup d k with Some v => v | None => VNone end.

(** The record lines 488-502 build for a panel and a media object. *)
Definition media_record (panel mo : list (string * value)) : value :=
  VDict [("name", field mo "name");
         ("id", field panel "id");
         ("revision_number", field panel "revision_number");
         ("pos", field panel "pos");
         ("mo", field mo "id")].

Section Resolved.

Variable get_asset : value -> result value.

(** [resolves p art thumb]: the asset of panel [p] is fetched, and its
    first artwork and first thumbnail give the records [art] and
    [thumb]. *)
Inductive resolves : value -> value -> value -> Prop :=
| resolves_intro (pd ad asset media a0 t0 : list (string * value))
    (arts thumbs : list value) :
    Py.lookup pd "asset" = Some (VDict ad) ->
    get_asset (field ad "asset_id") = Ok (VDict asset) ->
    Py.lookup asset "media_objects" = Some (VDict media) ->
    Py.lookup media "artwork" = Some (VList (VDict a0 :: arts)) ->
    Py.lookup media "thumbnail" = Some (VList (VDict t0 :: thumbs)) ->
    resolves (VDict pd) (media_record pd a0) (media_record pd t0).

(** A shot whose panels all resolve: each panel with its two records. *)
Definition resolved_shot : Type := string * list (value * (value * value)).

Definition all_resolve (shot : resolved_shot) : Prop :=
  Forall (fun t => resolves (fst t) (fst (snd t)) (snd (snd t))) (snd shot).

(** The group [get_markers_per_panels] made for the shot. *)
Definition group_of (shot : resolved_shot) : string * list value :=
  (fst shot, map fst (snd shot)).

(** The entry of the shot in the result of [mo_per_shots]. *)
Definition entry_of (shot : resolved_shot) : string * media_objects :=
  (fst shot,
   mkMedia (map (fun t => fst (snd t)) (snd shot))
           (map (fun t => snd (snd t)) (snd shot))).

End Resolved.

End Shots.

(** ** The signed requests: [__get_headers] and the request methods

    Ids are ints, as the signatures annotate them; [episode_id] may be
    [None].  [requests_get] and [requests_post] answer a request from
    its URL, its headers and, for a POST, its body. *)

Module Requests.

Import Credential.

(** How a request method ends.  [ThrowUnboundLocalError]: the handler of
    a method reads [r] although [requests.get] or [requests.post] raised
    before binding it. *)
Inductive outcome : Type :=
| Return (v : value)
| Throw (e : exn)
| ThrowUnboundLocalError.

(** The dict that [__get_headers] returns. *)
Record headers : Type := mkHeaders {
  authorization : string;
  content_type : string;
  date : string
}.

(** The clock readings of one call of [__get_headers]: [dt.isoformat()]
    and [dt.strftime('%a, %d %b %Y %H:%M:%S GMT')] of
    [dt = datetime.utcnow()], and the [datetime.now()] of
    [__get_token]. *)
Record clock : Type := mkClock {
  dt_isoformat : string;
  dt_date : string;
  now : Z
}.

(** [len(x)]. *)
Definition len (x : value) : result nat :=
  match x with
  | VStr s => Ok (String.length s)
  | VBytes bs => Ok (List.length bs)
  | VList l => Ok (List.length l)
  | VDict d => Ok (List.length d)
  | VNone | VBool _ | VInt _ => Raise TypeError
  end.

(** ['{0}'.format(n)] for an int. *)
Definition fmt (n : Z) : string := Json.dumps_int n.

Section Service.

Variable requests_login : string -> string -> http_outcome.
Variable strptime : string -> result Z.
Variable hmac_sha256 : list byte -> list byte -> list byte.
Variable requests_get : string -> headers -> http_outcome.
Variable requests_post : string -> headers -> string -> http_outcome.

(** [__fn_sign] (lines 675-702) on the key and the secret that
    [__get_token] hands over, whatever their types. *)
Definition fn_sign (access_key_id secret_access_key : value) (url : string)
    (content : value) (http_method content_type dt_isoformat : string)
  : result string :=
  raw <- Signer.raw_string url content http_method content_type
           dt_isoformat ;;
  n <- len secret_access_key ;;
  if (n =? 0)%nat then Raise ValueError
  else
    match secret_access_key with
    | VStr secret =>
        let digest_created :=
          Codec.b64encode
            (hmac_sha256 (Codec.encode_utf8 secret)
                         (Codec.encode_utf8 raw)) in
        match access_key_id with
        | VStr k =>
            Ok ("FNAUTH " ++ k ++ ":"
                  ++ Codec.decode_ascii digest_created)%string
        | _ => Raise TypeError
        end
    | _ => Raise AttributeError
    end.

(** [__get_headers(content, url, method)] (lines 719-732). *)
Definition get_headers (content : value) (url method : string)
    (clk : clock) : M headers := fun w =>
  let (r, w) := get_token requests_login strptime (now clk) w in
  match r with
  | Raise e => (Raise e, w)
  | Ok (key, secret) =>
      match fn_sign key secret url content method "application/json"
              (dt_isoformat clk) with
      | Raise e => (Raise e, w)
      | Ok token =>
          (Ok (mkHeaders token "application/json" (dt_date clk)), w)
      end
  end.

(** The body shared by the GET methods: sign, send, decode.
    [check_status] says whether the method calls [r.raise_for_status()];
    [pick] is the key it reads from the answer, if any. *)
Definition fetch (check_status : bool) (pick : option string)
    (url : string) (clk : clock) : world -> outcome * world := fun w =>
  let (r, w) := get_headers VNone url "GET" clk w in
  match r with
  | Raise e => (Throw e, w)
  | Ok hd =>
      match Py.str_add (hostname (self w)) (VStr url) with
      | Raise e => (Throw e, w)
      | Ok full_url =>
          match requests_get full_url hd with
          | RequestFailed => (ThrowUnboundLocalError, w)
          | Response status_code content =>
              if check_status && raise_for_status status_code
              then (Return VNone, w)
              else
                match content with
                | None => (Throw ValueError, w)
                | Some response =>
                    match pick with
                    | None => (Return response, w)
                    | Some k =>
                        match Py.get response k with
                        | Ok v => (Return v, w)
                        | Raise e => (Throw e, w)
                        end
                    end
                end
          end
      end
  end.

(** [get_shows()] (lines 69-83). *)
Definition get_shows : clock -> world -> outcome * world :=
  fetch true (Some "shows") "/shows".

(** [get_asset(asset_id)] (lines 94-109). *)
Definition get_asset (asset_id : Z) : clock -> world -> outcome * world :=
  fetch true None ("/asset/" ++ fmt asset_id).

(** [get_episodes(show_id)] (lines 120-135). *)
Definition get_episodes (show_id : Z) : clock -> world -> outcome * world :=
  fetch true (Some "episodes") ("/show/" ++ fmt show_id ++ "/episodes").

(** [get_sequences(show_id, episode_id)] (lines 148-165). *)
Definition get_sequences (show_id : Z) (episode_id : option Z)
  : clock -> world -> outcome * world :=
  fetch false (Some "sequences")
    match episode_id with
    | None => "/show/" ++ fmt show_id ++ "/sequences"
    | Some e =>
        "/show/" ++ fmt show_id ++ "/episode/" ++ fmt e ++ "/sequences"
    end.

(** [get_panels(show_id, sequence_id, rev_number)] (lines 181-196). *)
Definition get_panels (show_id sequence_id rev_number : Z)
  : clock -> world -> outcome * world :=
  fetch false (Some "panels")
    ("/show/" ++ fmt show_id ++ "/sequence/" ++ fmt sequence_id
       ++ "/revision/" ++ fmt rev_number ++ "/panels").

(** [get_dialogues(show_id, sequence_id, rev_number)] (lines 212-227). *)
Definition get_dialogues (show_id sequence_id rev_number : Z)
  : clock -> world -> outcome * world :=
  fetch false (Some "dialogues")
    ("/show/" ++ fmt show_id ++ "/sequence/" ++ fmt sequence_id
       ++ "/revision/" ++ fmt rev_number ++ "/dialogues").

(** [get_sequence_rev(show_id, sequence_id, revision_number)]
    (lines 243-257). *)
Definition get_sequence_rev (show_id sequence_id revision_number : Z)
  : clock -> world -> outcome * world :=
  fetch false None
    ("/show/" ++ fmt show_id ++ "/sequence/" ++ fmt sequence_id
       ++ "/revision/" ++ fmt revision_number).

(** [get_chain(chain_id)] (lines 345-358). *)
Definition get_chain (chain_id : Z) : clock -> world -> outcome * world :=
  fetch false None ("/chain/" ++ fmt chain_id).

(** The body shared by the POST methods: sign the content, send its
    [json.dumps], decode the answer.  None of them checks the status. *)
Definition submit (url : string) (content : value) (clk : clock)
  : world -> outcome * world := fun w =>
  let (r, w) := get_headers content url "POST" clk w in
  match r with
  | Raise e => (Throw e, w)
  | Ok hd =>
      match Py.str_add (hostname (self w)) (VStr url) with
      | Raise e => (Throw e, w)
      | Ok full_url =>
          match Json.dumps content with
          | Raise e => (Throw e, w)
          | Ok data =>
              match requests_post full_url hd data with
              | RequestFailed => (ThrowUnboundLocalError, w)
              | Response status_code body =>
                  match body with
                  | None => (Throw ValueError, w)
                  | Some response => (Return response, w)
                  end
              end
          end
      end
  end.

(** [start_quicktime_export(show_id, sequence_id, seq_rev_number,
    panel_revisions, episode_id, include_dialogue)] (lines 312-334). *)
Definition start_quicktime_export (show_id sequence_id seq_rev_number : Z)
    (panel_revisions : list value) (episode_id : option Z)
    (include_dialogue : bool) : clock -> world -> outcome * world :=
  submit
    match episode_id with
    | None =>
        "/show/" ++ fmt show_id ++ "/sequence/" ++ fmt sequence_id
          ++ "/revision/" ++ fmt seq_rev_number ++ "/export/quicktime"
    | Some e =>
        "/show/" ++ fmt show_id ++ "/episode/" ++ fmt e ++ "/sequence/"
          ++ fmt sequence_id ++ "/revision/" ++ fmt seq_rev_number
          ++ "/export/quicktime"
    end
    (VDict [("include_dialogue", VBool include_dialogue);
            ("panel_revisions", VList panel_revisions)]).

(** [new_sequence_revision(show_id, sequence_id, revisioned_panels,
    markers, comment)] (lines 382-406). *)
Definition new_sequence_revision (show_id sequence_id : Z)
    (revisioned_panels markers : list value) (comment : string)
  : clock -> world -> outcome * world :=
  submit
    ("/show/" ++ fmt show_id ++ "/sequence/" ++ fmt sequence_id
       ++ "/revision")
    (VDict [("comment", VStr comment);
            ("imported", VBool false);
            ("meta_data",
             VDict [("annotations", VList []);
                    ("audio_timings", VList []);
                    ("highlights", VList []);
                    ("markers", VList markers)]);
            ("revisioned_panels", VList revisioned_panels)]).

(** [new_panel(show_id, sequence_id, asset_id, duration)]
    (lines 425-443). *)
Definition new_panel (show_id sequence_id : Z) (asset_id : option Z)
    (duration : Z) : clock -> world -> outcome * world :=
  submit
    ("/show/" ++ fmt show_id ++ "/sequence/" ++ fmt sequence_id ++ "/panel")
    (VDict (("duration", VInt duration)
              :: match asset_id with
                 | None => []
                 | Some a => [("asset", VDict [("asset_id", VInt a)])]
                 end)).

(** The headers of a request signed with the key [k] and the secret
    [s]. *)
Definition headers_for (k s url : string) (content : value)
    (method : string) (clk : clock) : result headers :=
  token <- Signer.fn_sign hmac_sha256 k s url content method
             "application/json" (dt_isoformat clk) ;;
  Ok (mkHeaders token "application/json" (dt_date clk)).

(** A credential that [__get_token] hands out as it is, with a str key
    and a non-empty str secret, on an object that knows its host. *)
Definition usable (clk : clock) (w : world) (h k s : string) : Prop :=
  must_refresh (now clk) (self w) = false
  /\ hostname (self w) = VStr h
  /\ key (self w) = VStr k
  /\ secret (self w) = VStr s
  /\ s <> EmptyString.

End Service.

End Requests.

(** ** Sample services and inputs for the examples *)

Module Samples.

(** A login service whose answer has no credential in it. *)
Definition empty_answer : string -> string -> Credential.http_outcome :=
  fun _ _ => Credential.Response 200 (Some (VDict [("message", VStr "ok")])).

(** A login service whose answer has a key, but no secret. *)
Definition key_only_answer : string -> string -> Credential.http_outcome :=
  fun _ _ => Credential.Response 200 (Some (VDict [("id", VStr "key-2")])).

(** A stand-in for HMAC-SHA256 in the examples. *)
Definition toy_mac (key msg : list byte) : list byte :=
  Md5.digest (key ++ msg).

Definition noon : Requests.clock :=
  Requests.mkClock "2020-01-02T12:00:00.250000"
    "Thu, 02 Jan 2020 12:00:00 GMT" 1000.

(** A service that answers every GET with 503 and an error document. *)
Definition unavailable : string -> Requests.headers ->
                         Credential.http_outcome :=
  fun _ _ =>
    Credential.Response 503 (Some (VDict [("message", VStr "busy")])).

(** A service that answers every POST with a job document. *)
Definition accepts : string -> Requests.headers -> string ->
                     Credential.http_outcome :=
  fun _ _ _ =>
    Credential.Response 200 (Some (VDict [("id", VInt 7);
                                          ("status", VStr "in progress")])).

(** The fields of the first sample panel and of its asset. *)
Definition panel_fields : list (string * value) :=
  [("id", VInt 100); ("revision_number", VInt 1);
   ("asset", VDict [("asset_id", VInt 1)]); ("pos", VInt 0)].

Definition artwork_fields : list (string * value) :=
  [("name", VStr "a.png"); ("id", VInt 11)].

Definition thumbnail_fields : list (string * value) :=
  [("name", VStr "t.png"); ("id", VInt 12)].

Definition resolved_shots : list Shots.resolved_shot :=
  [("A", [(VDict panel_fields,
           (Shots.media_record panel_fields artwork_fields,
            Shots.media_record panel_fields thumbnail_fields))]);
   ("B", [])].

End Samples.

(** ** Replies that leave a job waiting *)

Module Waiting.

(** A reply of [get_chain] whose status is none of the four the loop
    knows (a queued job, say). *)
Definition unknown_status (reply : result value) : Prop :=
  exists res status,
    reply = Ok res
    /\ Py.get res "status" = Ok status
    /\ Py.eq_str status "errored" = false
    /\ Py.eq_str status "timed out" = false
    /\ Py.eq_str status "in progress" = false
    /\ Py.eq_str status "completed" = false.

(** Content that is neither [str], [bytes] nor [dict]. *)
Definition unhashed (content : value) : Prop :=
  match content with
  | VStr _ | VBytes _ | VDict _ => False
  | _ => True
  end.

End Waiting.

(** * Properties *)

(** ** The library models on known values *)

(** RFC 1321, appendix A.5. *)
Example md5_empty :
  Md5.hexdigest [] = "d41d8cd98f00b204e9800998ecf8427e".
Proof. vm_compute. reflexivity. Qed.

Example md5_abc :
  Md5.hexdigest (Codec.encode_utf8 "abc")
  = "900150983cd24fb0d6963f7d28e17f72".
Proof. vm_compute. reflexivity. Qed.

(** RFC 4648, section 10. *)
Example b64encode_foobar :
  map (fun s => Codec.decode_ascii (Codec.b64encode (Codec.encode_utf8 s)))
    ["f"; "fo"; "foo"; "foob"; "fooba"; "foobar"]
  = ["Zg=="; "Zm8="; "Zm9v"; "Zm9vYg=="; "Zm9vYmE="; "Zm9vYmFy"].
Proof. vm_compute. reflexivity. Qed.

(** [json.dumps({"a": 1, "b": [True, None, -5], "c": {}})]. *)
Example dumps_default_separators :
  Json.dumps (VDict [("a", VInt 1);
                     ("b", VList [VBool true; VNone; VInt (-5)]);
                     ("c", VDict [])])
  = Ok ("{" ++ Json.quote ++ "a" ++ Json.quote ++ ": 1, "
          ++ Json.quote ++ "b" ++ Json.quote ++ ": [true, null, -5], "
          ++ Json.quote ++ "c" ++ Json.quote ++ ": {}}")%string.
Proof. vm_compute. reflexivity. Qed.

(** ['p\u00f6st\u00df\u00f7\u00fe\u00e0'.upper()], by code points. *)
Example upper_latin1 :
  map Codec.code_point
    (list_ascii_of_string
       (Signer.upper
          (string_of_list_ascii
             (map ascii_of_N [112; 246; 115; 116; 223; 247; 254; 224]%N))))
  = [80; 214; 83; 84; 83; 83; 247; 222; 192].
Proof. vm_compute. reflexivity. Qed.

(** ** TimelineMapper *)

Section TimelineProperties.

Import Timeline.

(** [panel.get(k)] on a JSON object never raises. *)
Lemma get_dict (d : list (string * value)) (k : string) :
  Py.get (VDict d) k
  = Ok (match Py.lookup d k with Some v => v | None => VNone end).
Proof. reflexivity. Qed.

(** C9.  For every panel object [d] and every integer [pos],
    [format_panel_for_revision(panel, pos)] returns an object with exactly
    the keys dialogue, duration, id, revision_number, asset and pos; its
    [pos] is the argument, and each other field is the field of the
    source panel it is read from ([id] is read from the panel's
    [panel_id]), unchanged. *)
Theorem format_panel_for_revision_passthrough
    (d : list (string * value)) (pos : Z) :
  exists out,
    format_panel_for_revision (VDict d) pos = Ok (VDict out)
    /\ map fst out
       = ["dialogue"; "duration"; "id"; "revision_number"; "asset"; "pos"]
    /\ Py.get (VDict out) "pos" = Ok (VInt pos)
    /\ Py.get (VDict out) "dialogue" = Py.get (VDict d) "dialogue"
    /\ Py.get (VDict out) "duration" = Py.get (VDict d) "duration"
    /\ Py.get (VDict out) "id" = Py.get (VDict d) "panel_id"
    /\ Py.get (VDict out) "revision_number"
       = Py.get (VDict d) "revision_number"
    /\ Py.get (VDict out) "asset" = Py.get (VDict d) "asset".
Proof.
  eexists. split.
  - unfold format_panel_for_revision. rewrite !get_dict. cbn [bind].
    reflexivity.
  - cbn. repeat split; reflexivity.
Qed.

(** The first iteration evaluates [markers_keys[0]] before anything else. *)
Lemma step_no_marker (markers : markers_t) (i : Z) (p : value)
    (ppm : groups_t) (pin : Z) :
  step markers [] i p (mkLoop ppm pin 0) = Raise IndexError.
Proof. reflexivity. Qed.

(** C10.  With an empty marker mapping and at least one panel,
    [get_markers_per_panels] raises [IndexError] (the lookup
    [markers_keys[marker_i]] on the empty key list) and returns no
    mapping. *)
Theorem get_markers_per_panels_requires_marker
    (p : value) (ps : list value) :
  get_markers_per_panels [] (p :: ps) = Raise IndexError
  /\ forall groups, get_markers_per_panels [] (p :: ps) <> Ok groups.
Proof.
  assert (E : get_markers_per_panels [] (p :: ps) = Raise IndexError).
  { unfold get_markers_per_panels. cbn [map loop].
    rewrite step_no_marker. reflexivity. }
  split; [exact E | intros groups H; rewrite E in H; discriminate].
Qed.

(** C4.  Markers [{0: "A", 3: "B"}] and five panels of duration 1: the
    panels at timeline positions 0, 1, 2 go to group "A" and those at
    positions 3, 4 to group "B", in order.  Every entry is the object
    [format_panel_for_revision] builds from its panel: it carries as
    [pos] the panel's index in the full sequence and as [id] the panel's
    [panel_id]. *)
Theorem get_markers_per_panels_two_shots
    (d0 d1 d2 d3 d4 : list (string * value)) :
  Py.lookup d0 "duration" = Some (VInt 1) ->
  Py.lookup d1 "duration" = Some (VInt 1) ->
  Py.lookup d2 "duration" = Some (VInt 1) ->
  Py.lookup d3 "duration" = Some (VInt 1) ->
  Py.lookup d4 "duration" = Some (VInt 1) ->
  exists f0 f1 f2 f3 f4,
    get_markers_per_panels [(0, "A"); (3, "B")]
      [VDict d0; VDict d1; VDict d2; VDict d3; VDict d4]
    = Ok [("A", [f0; f1; f2]); ("B", [f3; f4])]
    /\ [f0; f1; f2; f3; f4]
       = [Markers.format_dict d0 0; Markers.format_dict d1 1;
          Markers.format_dict d2 2; Markers.format_dict d3 3;
          Markers.format_dict d4 4]
    /\ map (fun f => Py.get f "pos") [f0; f1; f2; f3; f4]
       = [Ok (VInt 0); Ok (VInt 1); Ok (VInt 2); Ok (VInt 3); Ok (VInt 4)]
    /\ map (fun f => Py.get f "id") [f0; f1; f2; f3; f4]
       = map (fun d => Py.get (VDict d) "panel_id") [d0; d1; d2; d3; d4]
    /\ map Ok [f0; f1; f2; f3; f4]
       = [format_panel_for_revision (VDict d0) 0;
          format_panel_for_revision (VDict d1) 1;
          format_panel_for_revision (VDict d2) 2;
          format_panel_for_revision (VDict d3) 3;
          format_panel_for_revision (VDict d4) 4].
Proof.
  intros H0 H1 H2 H3 H4.
  assert (F : forall d i,
             format_panel_for_revision (VDict d) i
             = Ok (Markers.format_dict d i)).
  { intros d i. unfold format_panel_for_revision, Markers.format_dict.
    rewrite !get_dict. reflexivity. }
  exists (Markers.format_dict d0 0), (Markers.format_dict d1 1),
    (Markers.format_dict d2 2), (Markers.format_dict d3 3),
    (Markers.format_dict d4 4).
  split; [| split; [reflexivity | split; [reflexivity | split]]].
  - unfold get_markers_per_panels. cbn [map fst loop].
    unfold step at 1. cbn -[format_panel_for_revision Py.get].
    rewrite F, get_dict, H0. cbn -[format_panel_for_revision Py.get].
    unfold step at 1. cbn -[format_panel_for_revision Py.get].
    rewrite F, get_dict, H1. cbn -[format_panel_for_revision Py.get].
    unfold step at 1. cbn -[format_panel_for_revision Py.get].
    rewrite F, get_dict, H2. cbn -[format_panel_for_revision Py.get].
    unfold step at 1. cbn -[format_panel_for_revision Py.get].
    rewrite F, get_dict, H3. cbn -[format_panel_for_revision Py.get].
    unfold step at 1. cbn -[format_panel_for_revision Py.get].
    rewrite F, get_dict, H4. cbn -[format_panel_for_revision Py.get].
    reflexivity.
  - cbn [map]. rewrite !get_dict. reflexivity.
  - cbn [map]. rewrite !F. reflexivity.
Qed.

(** C4 at five concrete panels. *)
Lemma get_markers_per_panels_two_shots_witness :
  exists f0 f1 f2 f3 f4,
    get_markers_per_panels [(0, "A"); (3, "B")]
      [VDict [("panel_id", VInt 10); ("duration", VInt 1)];
       VDict [("panel_id", VInt 11); ("duration", VInt 1)];
       VDict [("panel_id", VInt 12); ("duration", VInt 1)];
       VDict [("panel_id", VInt 13); ("duration", VInt 1)];
       VDict [("panel_id", VInt 14); ("duration", VInt 1)]]
    = Ok [("A", [f0; f1; f2]); ("B", [f3; f4])]
    /\ [f0; f1; f2; f3; f4]
       = [Markers.format_dict [("panel_id", VInt 10); ("duration", VInt 1)] 0;
          Markers.format_dict [("panel_id", VInt 11); ("duration", VInt 1)] 1;
          Markers.format_dict [("panel_id", VInt 12); ("duration", VInt 1)] 2;
          Markers.format_dict [("panel_id", VInt 13); ("duration", VInt 1)] 3;
          Markers.format_dict [("panel_id", VInt 14); ("duration", VInt 1)] 4]
    /\ map (fun f => Py.get f "pos") [f0; f1; f2; f3; f4]
       = [Ok (VInt 0); Ok (VInt 1); Ok (VInt 2); Ok (VInt 3); Ok (VInt 4)]
    /\ map (fun f => Py.get f "id") [f0; f1; f2; f3; f4]
       = [Ok (VInt 10); Ok (VInt 11); Ok (VInt 12); Ok (VInt 13);
          Ok (VInt 14)]
    /\ map Ok [f0; f1; f2; f3; f4]
       = [format_panel_for_revision
            (VDict [("panel_id", VInt 10); ("duration", VInt 1)]) 0;
          format_panel_for_revision
            (VDict [("panel_id", VInt 11); ("duration", VInt 1)]) 1;
          format_panel_for_revision
            (VDict [("panel_id", VInt 12); ("duration", VInt 1)]) 2;
          format_panel_for_revision
            (VDict [("panel_id", VInt 13); ("duration", VInt 1)]) 3;
          format_panel_for_revision
            (VDict [("panel_id", VInt 14); ("duration", VInt 1)]) 4].
Proof.
  apply (get_markers_per_panels_two_shots
           [("panel_id", VInt 10); ("duration", VInt 1)]
           [("panel_id", VInt 11); ("duration", VInt 1)]
           [("panel_id", VInt 12); ("duration", VInt 1)]
           [("panel_id", VInt 13); ("duration", VInt 1)]
           [("panel_id", VInt 14); ("duration", VInt 1)]); reflexivity.
Defined.

(** [markers_keys[-1]] exists as soon as there is one marker. *)
Lemma index_minus_one {A} (a : A) (l : list A) :
  exists x, Py.index (a :: l) (-1) = Ok x /\ In x (a :: l).
Proof.
  unfold Py.index.
  set (n := Z.of_nat (List.length (a :: l))).
  assert (Hn : 1 <= n) by (unfold n; cbn [List.length]; lia).
  replace (-1 <? 0) with true by reflexivity.
  replace ((0 <=? n + -1) && (n + -1 <? n)) with true
    by (symmetry; apply andb_true_intro; split;
        [apply Z.leb_le | apply Z.ltb_lt]; lia).
  destruct (nth_error (a :: l) (Z.to_nat (n + -1))) as [x|] eqn:E.
  - exists x. split; [reflexivity | eapply nth_error_In; exact E].
  - apply nth_error_None in E. unfold n in *. lia.
Qed.

(** [markers[k]] succeeds on every key of [markers]. *)
Lemma markers_getitem_key (markers : markers_t) (k : Z) :
  In k (map fst markers) -> exists name, markers_getitem markers k = Ok name.
Proof.
  induction markers as [|[k' name'] rest IH]; cbn [map fst In markers_getitem].
  - intros [].
  - intros [E | H].
    + subst k'. rewrite Z.eqb_refl. eauto.
    + destruct (k' =? k); eauto.
Qed.

(** C5 on the code.  When the first marker starts after position 0, the
    first panel (at position 0) takes the branch of line 613 with
    [marker_i = 0]: [markers_keys[-1]] is the last key, and its group is
    looked up in the still empty mapping.  The call raises [KeyError];
    no mapping is returned. *)
Theorem get_markers_per_panels_before_first_marker
    (start : Z) (name : string) (rest : markers_t)
    (p : value) (ps : list value) :
  0 < start ->
  get_markers_per_panels ((start, name) :: rest) (p :: ps) = Raise KeyError.
Proof.
  intros Hpos.
  unfold get_markers_per_panels. cbn [map fst loop].
  assert (E : step ((start, name) :: rest) (start :: map fst rest) 0 p
                (mkLoop [] 0 0) = Raise KeyError).
  { unfold step.
    cbn [marker_i panel_in panels_per_markers].
    replace (Py.index (start :: map fst rest) 0) with (Ok start)
      by reflexivity.
    cbn [bind].
    replace (start =? 0) with false by (symmetry; apply Z.eqb_neq; lia).
    replace (start >? 0) with true
      by (symmetry; apply Z.gtb_lt; lia).
    replace (0 - 1) with (-1) by reflexivity.
    destruct (index_minus_one start (map fst rest)) as (k & Ek & Hin).
    rewrite Ek. cbn [bind].
    destruct (markers_getitem_key ((start, name) :: rest) k Hin)
      as (nm & En).
    rewrite En. reflexivity. }
  rewrite E. reflexivity.
Qed.

(** C5 at the markers [{2: "A"}] and three panels of duration 1. *)
Lemma get_markers_per_panels_before_first_marker_witness :
  get_markers_per_panels [(2, "A")]
    [VDict [("panel_id", VInt 10); ("duration", VInt 1)];
     VDict [("panel_id", VInt 11); ("duration", VInt 1)];
     VDict [("panel_id", VInt 12); ("duration", VInt 1)]]
  = Raise KeyError.
Proof.
  apply (get_markers_per_panels_before_first_marker 2 "A" []). lia.
Defined.

End TimelineProperties.

(** ** Per-shot media objects and the export poll loop *)

Section OrchestratorProperties.

Import Timeline Orchestrator.

Variable get_asset : value -> result value.
Variable start_quicktime_export :
  value -> value -> value -> list value -> value -> bool -> result value.

Lemma panels_loop_unresolved (shot_name : string) (panels : list value) :
  (exists p, In p panels /\ unresolved get_asset p) ->
  forall mo, no_mapping (panels_loop get_asset shot_name panels mo).
Proof.
  induction panels as [|q rest IH]; intros (p & Hin & Hp) mo.
  - destruct Hin.
  - cbn [panels_loop].
    destruct Hin as [-> | Hin].
    + destruct Hp as (aid & Ea & Eg). rewrite Ea. cbn [bind].
      rewrite Eg. cbn [bind Py.is_none]. left. reflexivity.
    + destruct (asset_id_of q) as [aid|e]; cbn [bind];
        [|right; eauto].
      destruct (get_asset aid) as [asset|e]; cbn [bind]; [|right; eauto].
      destruct (Py.is_none asset); [left; reflexivity|].
      destruct (add_media_objects shot_name q asset mo) as [mo'|e];
        cbn [bind]; [|right; eauto].
      apply IH. eauto.
Qed.

Lemma shots_loop_unresolved (ppm : groups_t) (shot_names : list string) :
  (exists shot_name panels p,
      In shot_name shot_names
      /\ Py.lookup ppm shot_name = Some panels
      /\ In p panels /\ unresolved get_asset p) ->
  forall mo, no_mapping (shots_loop get_asset ppm shot_names mo).
Proof.
  induction shot_names as [|s rest IH];
    intros (shot_name & panels & p & Hin & Hl & Hp & Hu) mo.
  - destruct Hin.
  - cbn [shots_loop]. unfold lookup_group.
    destruct Hin as [-> | Hin].
    + rewrite Hl. cbn [bind].
      destruct (panels_loop_unresolved shot_name panels
                  (ex_intro _ p (conj Hp Hu))
                  (Py.store mo shot_name (mkMedia [] [])))
        as [E | (e & E)]; rewrite E; cbn [bind];
        [left; reflexivity | right; eauto].
    + destruct (Py.lookup ppm s) as [ps|]; cbn [bind]; [|right; eauto].
      destruct (panels_loop get_asset s ps
                  (Py.store mo s (mkMedia [] []))) as [[mo2|]|e];
        cbn [bind]; [|left; reflexivity|right; eauto].
      apply IH. exists shot_name, panels, p. auto.
Qed.

(** C6.  If the asset of any panel of any shot group cannot be resolved,
    [mo_per_shots] returns [(None, False)] or lets an exception escape:
    in no case does the caller receive a mapping, partial or not. *)
Theorem mo_per_shots_all_or_nothing (ppm : groups_t)
    (show_id seq_id seq_rev_number episode_id : value) :
  (exists shot_name panels p,
      In shot_name (map fst ppm)
      /\ Py.lookup ppm shot_name = Some panels
      /\ In p panels /\ unresolved get_asset p) ->
  (mo_per_shots get_asset ppm show_id seq_id seq_rev_number episode_id
   = Ok (None, false)
   \/ exists e,
       mo_per_shots get_asset ppm show_id seq_id seq_rev_number episode_id
       = Raise e)
  /\ forall mo ok,
       mo_per_shots get_asset ppm show_id seq_id seq_rev_number episode_id
       <> Ok (Some mo, ok).
Proof.
  intros H. unfold mo_per_shots.
  destruct (shots_loop_unresolved ppm (map fst ppm) H []) as [E | (e & E)];
    rewrite E; cbn [bind].
  - split; [left; reflexivity | intros mo ok; discriminate].
  - split; [right; eauto | intros mo ok; discriminate].
Qed.

Lemma get_not_none (res : value) (k : string) (v : value) :
  Py.get res k = Ok v -> Py.is_none res = false.
Proof. destruct res; cbn; congruence. Qed.

(** The poll that meets a failed job adds one [EGetChain] to what the
    loop did on the replies before it, and returns [None]. *)
Lemma poll_failed_job (chain_id : value) (pre : list (result value))
    (res : value) (rest : list (result value)) :
  Forall keeps_polling pre ->
  failed_job res ->
  forall retry,
    poll get_asset chain_id (pre ++ Ok res :: rest) retry
    = (Returned VNone,
       snd (poll get_asset chain_id pre retry) ++ [EGetChain chain_id])
    /\ fst (poll get_asset chain_id pre retry) = Pending
    /\ forall asset_id,
         ~ In (EGetAsset asset_id) (snd (poll get_asset chain_id pre retry)).
Proof.
  intros Hpre (status & Hs & Hfail).
  induction Hpre as [|reply pre Hk Hpre IH]; intros retry.
  - cbn [app poll]. rewrite (get_not_none _ _ _ Hs), Hs.
    replace (Py.eq_str status "errored" || Py.eq_str status "timed out")
      with true
      by (destruct Hfail as [-> | ->]; [|rewrite orb_true_r]; reflexivity).
    cbn. repeat split. intros ? [].
  - destruct Hk as (r & st & -> & Hst & He & Ht & Hc).
    cbn [app poll]. rewrite (get_not_none _ _ _ Hst), Hst, He, Ht, Hc.
    cbn [orb].
    destruct (Py.eq_str st "in progress").
    + destruct (IH (retry + 1)) as (E & Ef & Ha). rewrite E.
      destruct (poll get_asset chain_id pre (retry + 1)) as [o tr].
      cbn [fst snd] in *. repeat split; [exact Ef|].
      intros a [C | [C | [C | C]]]; try discriminate. exact (Ha a C).
    + destruct (IH retry) as (E & Ef & Ha). rewrite E.
      destruct (poll get_asset chain_id pre retry) as [o tr].
      cbn [fst snd] in *. repeat split; [exact Ef|].
      intros a [C | C]; try discriminate. exact (Ha a C).
Qed.

(** C7.  When a poll returns a job whose status is errored or timed out
    (the polls before it having kept the loop going), the call returns
    [None] at that poll.  That poll contributes the single event
    [EGetChain]: no [on_retry] call, and the whole trace holds no
    [EGetAsset]. *)
Theorem export_poll_failed_job (shot_name : string) (panels : list value)
    (show_id seq_id seq_rev_number episode_id chain_id : value)
    (pre : list (result value)) (res : value) (rest : list (result value)) :
  start_quicktime_export show_id seq_id seq_rev_number panels episode_id
    false = Ok chain_id ->
  Forall keeps_polling pre ->
  failed_job res ->
  exists tr,
    poll get_asset chain_id pre 0 = (Pending, tr)
    /\ get_mo_quicktime_export get_asset start_quicktime_export shot_name
         panels show_id seq_id seq_rev_number episode_id
         (pre ++ Ok res :: rest)
       = (Returned VNone,
          EStartExport show_id seq_id seq_rev_number panels episode_id false
            :: tr ++ [EGetChain chain_id])
    /\ on_retry_calls (tr ++ [EGetChain chain_id]) = on_retry_calls tr
    /\ forall asset_id,
         ~ In (EGetAsset asset_id)
              (EStartExport show_id seq_id seq_rev_number panels episode_id
                 false :: tr ++ [EGetChain chain_id]).
Proof.
  intros Hstart Hpre Hfail.
  destruct (poll_failed_job chain_id pre res rest Hpre Hfail 0)
    as (E & Ef & Ha).
  destruct (poll get_asset chain_id pre 0) as [o tr] eqn:Ep.
  cbn [fst snd] in *. subst o.
  exists tr. split; [reflexivity|]. split.
  - unfold get_mo_quicktime_export. rewrite Hstart, E. reflexivity.
  - split.
    + unfold on_retry_calls. rewrite flat_map_app. cbn. apply app_nil_r.
    + intros a [C | C]; [discriminate|].
      apply in_app_or in C. destruct C as [C | [C | []]];
        [exact (Ha a C) | discriminate].
Qed.

(** C3.  Replies in progress, in progress, completed: [on_retry] is called
    with 0 and then 1, a sleep of 1 following each call; the asset named
    by the completed job's [results.assetID] is fetched once, and the
    call returns the [id] of the first entry of its
    [media_objects.artwork]. *)
Theorem export_poll_two_retries_then_completed
    (shot_name : string) (panels : list value)
    (show_id seq_id seq_rev_number episode_id chain_id : value)
    (r1 r2 r3 asset_id : value) (rest : list (result value))
    (asset media results artwork0 : list (string * value))
    (artworks : list value) :
  start_quicktime_export show_id seq_id seq_rev_number panels episode_id
    false = Ok chain_id ->
  Py.get r1 "status" = Ok (VStr "in progress") ->
  Py.get r2 "status" = Ok (VStr "in progress") ->
  Py.get r3 "status" = Ok (VStr "completed") ->
  Py.get r3 "results" = Ok (VDict results) ->
  Py.get (VDict results) "assetID" = Ok asset_id ->
  get_asset asset_id = Ok (VDict asset) ->
  Py.lookup asset "media_objects" = Some (VDict media) ->
  Py.lookup media "artwork" = Some (VList (VDict artwork0 :: artworks)) ->
  exists media_object_id,
    Py.get (VDict artwork0) "id" = Ok media_object_id
    /\ get_mo_quicktime_export get_asset start_quicktime_export shot_name
         panels show_id seq_id seq_rev_number episode_id
         (Ok r1 :: Ok r2 :: Ok r3 :: rest)
       = (Returned media_object_id,
          [EStartExport show_id seq_id seq_rev_number panels episode_id
             false;
           EGetChain chain_id; EOnRetry 0; ESleep 1;
           EGetChain chain_id; EOnRetry 1; ESleep 1;
           EGetChain chain_id; EGetAsset asset_id])
    /\ on_retry_calls
         (snd (get_mo_quicktime_export get_asset start_quicktime_export
                 shot_name panels show_id seq_id seq_rev_number episode_id
                 (Ok r1 :: Ok r2 :: Ok r3 :: rest)))
       = [0; 1].
Proof.
  intros Hstart H1 H2 H3 Hres Haid Hasset Hmedia Hart.
  assert (Hres' : Py.get_default r3 "results" (VDict []) = Ok (VDict results)).
  { destruct r3; try discriminate. cbn in Hres |- *.
    destruct (Py.lookup d "results"); [exact Hres | discriminate]. }
  assert (E : get_mo_quicktime_export get_asset start_quicktime_export
                shot_name panels show_id seq_id seq_rev_number episode_id
                (Ok r1 :: Ok r2 :: Ok r3 :: rest)
              = (Returned (match Py.lookup artwork0 "id" with
                           | Some v => v
                           | None => VNone
                           end),
                 [EStartExport show_id seq_id seq_rev_number panels
                    episode_id false;
                  EGetChain chain_id; EOnRetry 0; ESleep 1;
                  EGetChain chain_id; EOnRetry 1; ESleep 1;
                  EGetChain chain_id; EGetAsset asset_id])).
  { unfold get_mo_quicktime_export. rewrite Hstart.
    cbn [poll].
    rewrite (get_not_none _ _ _ H1), H1.
    rewrite (get_not_none _ _ _ H2), H2.
    rewrite (get_not_none _ _ _ H3), H3.
    cbn [Py.eq_str String.eqb Ascii.eqb Bool.eqb orb].
    unfold resolve_completed.
    rewrite Hres'. cbn [bind]. rewrite Haid, Hasset.
    cbn [bind Py.is_none Py.get_default]. rewrite Hmedia.
    cbn [bind Py.get_default]. rewrite Hart.
    reflexivity. }
  eexists. split; [reflexivity|]. split; [exact E|].
  rewrite E. reflexivity.
Qed.

End OrchestratorProperties.

(** C6 on a shot whose second panel has an unknown asset. *)
Lemma mo_per_shots_all_or_nothing_witness :
  (Orchestrator.mo_per_shots Orchestrator.sample_assets
     Orchestrator.sample_groups (VInt 1) (VInt 2) (VInt 3) VNone
   = Ok (None, false)
   \/ exists e,
       Orchestrator.mo_per_shots Orchestrator.sample_assets
         Orchestrator.sample_groups (VInt 1) (VInt 2) (VInt 3) VNone
       = Raise e)
  /\ forall mo ok,
       Orchestrator.mo_per_shots Orchestrator.sample_assets
         Orchestrator.sample_groups (VInt 1) (VInt 2) (VInt 3) VNone
       <> Ok (Some mo, ok).
Proof.
  apply (mo_per_shots_all_or_nothing Orchestrator.sample_assets
           Orchestrator.sample_groups (VInt 1) (VInt 2) (VInt 3) VNone).
  exists "A", [Orchestrator.sample_panel 1 0; Orchestrator.sample_panel 2 1],
    (Orchestrator.sample_panel 2 1).
  split; [simpl; auto|]. split; [reflexivity|]. split; [simpl; auto|].
  exists (VInt 2). split; reflexivity.
Defined.

(** C7 with one retry before an errored job. *)
Lemma export_poll_failed_job_witness :
  exists tr,
    Orchestrator.poll (fun _ => Ok VNone) (VInt 7)
      [Ok (VDict [("status", VStr "in progress")])] 0
    = (Orchestrator.Pending, tr)
    /\ Orchestrator.get_mo_quicktime_export (fun _ => Ok VNone)
         (fun _ _ _ _ _ _ => Ok (VInt 7)) "A" []
         (VInt 1) (VInt 2) (VInt 3) VNone
         ([Ok (VDict [("status", VStr "in progress")])]
            ++ Ok (VDict [("status", VStr "errored")]) :: [])
       = (Orchestrator.Returned VNone,
          Orchestrator.EStartExport (VInt 1) (VInt 2) (VInt 3) [] VNone false
            :: tr ++ [Orchestrator.EGetChain (VInt 7)])
    /\ Orchestrator.on_retry_calls (tr ++ [Orchestrator.EGetChain (VInt 7)])
       = Orchestrator.on_retry_calls tr
    /\ forall asset_id,
         ~ In (Orchestrator.EGetAsset asset_id)
              (Orchestrator.EStartExport (VInt 1) (VInt 2) (VInt 3) [] VNone
                 false :: tr ++ [Orchestrator.EGetChain (VInt 7)]).
Proof.
  apply (export_poll_failed_job (fun _ => Ok VNone)
           (fun _ _ _ _ _ _ => Ok (VInt 7)) "A" []
           (VInt 1) (VInt 2) (VInt 3) VNone (VInt 7)).
  - reflexivity.
  - constructor; [|constructor].
    exists (VDict [("status", VStr "in progress")]), (VStr "in progress").
    repeat split; reflexivity.
  - exists (VStr "errored"). split; [reflexivity | left; reflexivity].
Defined.

(** C3 on a job that completes with asset 42, whose first artwork is the
    media object 99. *)
Lemma export_poll_two_retries_then_completed_witness :
  exists media_object_id,
    Py.get (VDict [("id", VInt 99)]) "id" = Ok media_object_id
    /\ Orchestrator.get_mo_quicktime_export
         (fun _ =>
            Ok (VDict [("media_objects",
                        VDict [("artwork",
                                VList [VDict [("id", VInt 99)]])])]))
         (fun _ _ _ _ _ _ => Ok (VInt 7)) "A" []
         (VInt 1) (VInt 2) (VInt 3) VNone
         [Ok (VDict [("status", VStr "in progress")]);
          Ok (VDict [("status", VStr "in progress")]);
          Ok (VDict [("status", VStr "completed");
                     ("results", VDict [("assetID", VInt 42)])])]
       = (Orchestrator.Returned media_object_id,
          [Orchestrator.EStartExport (VInt 1) (VInt 2) (VInt 3) [] VNone
             false;
           Orchestrator.EGetChain (VInt 7); Orchestrator.EOnRetry 0;
           Orchestrator.ESleep 1;
           Orchestrator.EGetChain (VInt 7); Orchestrator.EOnRetry 1;
           Orchestrator.ESleep 1;
           Orchestrator.EGetChain (VInt 7);
           Orchestrator.EGetAsset (VInt 42)])
    /\ Orchestrator.on_retry_calls
         (snd (Orchestrator.get_mo_quicktime_export
                 (fun _ =>
                    Ok (VDict [("media_objects",
                                VDict [("artwork",
                                        VList [VDict [("id", VInt 99)]])])]))
                 (fun _ _ _ _ _ _ => Ok (VInt 7)) "A" []
                 (VInt 1) (VInt 2) (VInt 3) VNone
                 [Ok (VDict [("status", VStr "in progress")]);
                  Ok (VDict [("status", VStr "in progress")]);
                  Ok (VDict [("status", VStr "completed");
                             ("results", VDict [("assetID", VInt 42)])])]))
       = [0; 1].
Proof.
  apply (export_poll_two_retries_then_completed
           (fun _ =>
              Ok (VDict [("media_objects",
                          VDict [("artwork",
                                  VList [VDict [("id", VInt 99)]])])]))
           (fun _ _ _ _ _ _ => Ok (VInt 7)) "A" []
           (VInt 1) (VInt 2) (VInt 3) VNone (VInt 7)
           (VDict [("status", VStr "in progress")])
           (VDict [("status", VStr "in progress")])
           (VDict [("status", VStr "completed");
                   ("results", VDict [("assetID", VInt 42)])])
           (VInt 42) []
           [("media_objects",
             VDict [("artwork", VList [VDict [("id", VInt 99)]])])]
           [("artwork", VList [VDict [("id", VInt 99)]])]
           [("assetID", VInt 42)]
           [("id", VInt 99)] []); reflexivity.
Defined.

(** ** CredentialManager *)

Section CredentialProperties.

Import Credential.

Variable requests_post : string -> string -> http_outcome.
Variable strptime : string -> result Z.

Lemma is_none_true (x : value) : Py.is_none x = true <-> x = VNone.
Proof. destruct x; cbn; split; congruence. Qed.

(** The guard of [__get_token], read as a proposition. *)
Lemma must_refresh_spec (now : Z) (s : session) :
  must_refresh now s = true <-> no_credential s \/ expires_within_2h now s.
Proof.
  unfold must_refresh, no_credential, expires_within_2h.
  rewrite !orb_true_iff, !is_none_true.
  destruct (expiry s) as [e|].
  - rewrite Z.gtb_gt. split.
    + intros [[H | H] | H]; auto. right. exists e. auto.
    + intros [[H | [H | H]] | (e' & E & H)]; auto; try discriminate.
      assert (e = e') by congruence. subst e'. auto.
  - split; auto.
Qed.

(** [authenticate] records its call first, and only adds to the log. *)
Lemma authenticate_log (h l p : value) (w : world) :
  exists evs,
    log (snd (authenticate requests_post strptime h l p w))
    = log w ++ CallAuthenticate h l p :: evs.
Proof.
  unfold authenticate.
  repeat match goal with
         | |- context [match ?x with _ => _ end] => destruct x
         end;
    cbn [snd log emit update self];
    rewrite <- ?app_assoc; cbn [app]; eexists; reflexivity.
Qed.

(** After the call of [authenticate], [__get_token] touches the session
    fields only. *)
Lemma get_token_log (now : Z) (w : world) :
  must_refresh now (self w) = true ->
  log (snd (get_token requests_post strptime now w))
  = log (snd (authenticate requests_post strptime (hostname (self w))
                (login (self w)) (password (self w)) w)).
Proof.
  intros H. unfold get_token. rewrite H.
  destruct (authenticate requests_post strptime (hostname (self w))
              (login (self w)) (password (self w)) w) as [r w1].
  cbn [snd].
  repeat match goal with
         | |- context [match ?x with _ => _ end] => destruct x
         end;
    reflexivity.
Qed.

Lemma get_token_fresh (now : Z) (w : world) :
  must_refresh now (self w) = false ->
  get_token requests_post strptime now w
  = (Ok (key (self w), secret (self w)), w).
Proof. intros H. unfold get_token. rewrite H. reflexivity. Qed.

(** C1.  [__get_token] calls [authenticate] if and only if no credential
    is held or [now + 2h > expiry]; otherwise it returns the held key and
    secret and leaves the object as it is.  A credential expiring at
    [now + 1h] is refreshed, one expiring at [now + 3h] is returned
    as-is. *)
Theorem get_token_refresh_iff (now : Z) (w : world) :
  (reauthenticated w (snd (get_token requests_post strptime now w))
   <-> no_credential (self w) \/ expires_within_2h now (self w))
  /\ (~ (no_credential (self w) \/ expires_within_2h now (self w)) ->
      get_token requests_post strptime now w
      = (Ok (key (self w), secret (self w)), w))
  /\ (expiry (self w) = Some (now + hours 1) ->
      reauthenticated w (snd (get_token requests_post strptime now w)))
  /\ (key (self w) <> VNone -> secret (self w) <> VNone ->
      expiry (self w) = Some (now + hours 3) ->
      get_token requests_post strptime now w
      = (Ok (key (self w), secret (self w)), w)).
Proof.
  assert (Hcall : must_refresh now (self w) = true ->
                  reauthenticated w
                    (snd (get_token requests_post strptime now w))).
  { intros E. unfold reauthenticated. rewrite (get_token_log now w E).
    apply authenticate_log. }
  assert (Hiff : reauthenticated w
                   (snd (get_token requests_post strptime now w))
                 <-> must_refresh now (self w) = true).
  { split; [|exact Hcall].
    destruct (must_refresh now (self w)) eqn:E; [reflexivity|].
    rewrite (get_token_fresh now w E). intros (evs & Hl). cbn [snd] in Hl.
    apply (f_equal (@List.length event)) in Hl.
    rewrite length_app in Hl. cbn [List.length] in Hl. lia. }
  split; [rewrite Hiff; apply must_refresh_spec|].
  split.
  { intros Hn. apply get_token_fresh.
    destruct (must_refresh now (self w)) eqn:E; [|reflexivity].
    exfalso. apply Hn. apply must_refresh_spec. exact E. }
  split.
  { intros He. apply Hcall. apply must_refresh_spec. right.
    exists (now + hours 1). split; [exact He | unfold hours; lia]. }
  intros Hk Hs He. apply get_token_fresh.
  destruct (must_refresh now (self w)) eqn:E; [|reflexivity].
  exfalso. apply must_refresh_spec in E.
  destruct E as [[E | [E | E]] | (e & E & Hlt)]; try congruence.
  rewrite He in E. assert (e = now + hours 3) by congruence. subst e.
  unfold hours in Hlt. lia.
Qed.

(** C8, amended.  When the login request raises a [RequestException]
    (a transport error, or a 4xx or 5xx status at [raise_for_status]),
    [authenticate] returns [None] and hostname, login, password, key,
    secret and expiry are as before the call. *)
Theorem authenticate_rejected_keeps_session
    (hostname' login' password' : string) (w : world) :
  login_rejected
    (requests_post (hostname' ++ "/authenticate")%string
       (basic_authorization login' password')) ->
  fst (authenticate requests_post strptime (VStr hostname') (VStr login')
         (VStr password') w) = Ok VNone
  /\ self (snd (authenticate requests_post strptime (VStr hostname')
                  (VStr login') (VStr password') w)) = self w.
Proof.
  unfold authenticate, basic_authorization, login_rejected.
  cbn [Py.str_add bind].
  destruct (requests_post _ _) as [|status_code content].
  - intros _. split; reflexivity.
  - intros [Hlo Hhi]. unfold raise_for_status.
    replace (400 <=? status_code) with true
      by (symmetry; apply Z.leb_le; exact Hlo).
    replace (status_code <? 600) with true
      by (symmetry; apply Z.ltb_lt; exact Hhi).
    split; reflexivity.
Qed.

End CredentialProperties.

(** C1 on a credential that expires three hours from now. *)
Lemma get_token_refresh_iff_witness :
  Credential.get_token (Credential.answers 200) (fun _ => Ok 0) 1000
    (Credential.logged_in (1000 + Credential.hours 3))
  = (Ok (VStr "key-1", VStr "secret-1"),
     Credential.logged_in (1000 + Credential.hours 3)).
Proof.
  apply (proj2 (proj2 (proj2
           (get_token_refresh_iff (Credential.answers 200) (fun _ => Ok 0) 1000
              (Credential.logged_in (1000 + Credential.hours 3)))))).
  - discriminate.
  - discriminate.
  - reflexivity.
Defined.

(** C8 as stated fails on a 304 answer that carries a credential: the
    status is not 2xx, yet [authenticate] returns the document and
    replaces key, secret and expiry. *)
Lemma authenticate_non_2xx_counterexample :
  ~ Credential.spec_failed_login_is_atomic (Credential.answers 304) (fun _ => Ok 0)
      "https://flix" "artist" "pw" (Credential.logged_in 0).
Proof.
  unfold Credential.spec_failed_login_is_atomic.
  intros H.
  assert (P : Credential.spec_login_failed
                (Credential.answers 304 ("https://flix" ++ "/authenticate")%string
                   (Credential.basic_authorization "artist" "pw"))).
  { cbn. lia. }
  destruct (H P) as [H1 _].
  vm_compute in H1. discriminate H1.
Qed.

(** What [authenticate] does on the 304 answer of the counterexample. *)
Example authenticate_304_replaces_credential :
  Credential.authenticate (Credential.answers 304) (fun _ => Ok 0)
    (VStr "https://flix") (VStr "artist") (VStr "pw")
    (Credential.logged_in 0)
  = (Ok (VDict [("id", VStr "key-2");
                ("secret_access_key", VStr "secret-2");
                ("expiry_date", VStr "2030-01-01T00:00:00.000Z")]),
     Credential.mkWorld
       (Credential.mkSession (VStr "https://flix") (VStr "artist")
          (VStr "pw") (VStr "key-2") (VStr "secret-2") (Some 0))
       [Credential.CallAuthenticate (VStr "https://flix") (VStr "artist")
          (VStr "pw");
        Credential.HttpPost "https://flix/authenticate"
          "Basic YXJ0aXN0OnB3"]).
Proof. vm_compute. reflexivity. Qed.

(** The amended C8 on a 401 answer. *)
Lemma authenticate_rejected_keeps_session_witness :
  fst (Credential.authenticate (Credential.answers 401) (fun _ => Ok 0)
         (VStr "https://flix") (VStr "artist") (VStr "pw") (Credential.logged_in 0))
  = Ok VNone
  /\ Credential.self
       (snd (Credential.authenticate (Credential.answers 401) (fun _ => Ok 0)
               (VStr "https://flix") (VStr "artist") (VStr "pw")
               (Credential.logged_in 0)))
     = Credential.self (Credential.logged_in 0).
Proof.
  apply (authenticate_rejected_keeps_session (Credential.answers 401) (fun _ => Ok 0)
           "https://flix" "artist" "pw" (Credential.logged_in 0)).
  cbn. lia.
Defined.

(** ** Signer *)

Section SignerProperties.

Import Signer.

(** An MD5 digest in hexadecimal is never the empty string, so the test
    of line 686 tells whether a digest was computed. *)
Lemma hexdigest_not_empty (bs : list byte) : Md5.hexdigest bs <> "".
Proof.
  unfold Md5.hexdigest, Md5.digest.
  set (st := fold_left Md5.block _ Md5.init).
  cbn [Md5.le_bytes app map Codec.hexlify Codec.decode_ascii
       string_of_list_byte].
  discriminate.
Qed.

Lemma hexdigest_eqb (bs : list byte) :
  String.eqb (Md5.hexdigest bs) "" = false.
Proof. apply String.eqb_neq. apply hexdigest_not_empty. Qed.

(** C2 as stated fails on the dict [{"a": 1}]: the digest in the
    canonical string is that of [json.dumps]' default output, which
    separates with a comma and a space and a colon and a space, not that
    of the compact form. *)
Lemma content_lines_compact_json_counterexample :
  content_lines (VDict [("a", VInt 1)]) "application/json"
  <> spec_content_lines (VDict [("a", VInt 1)]) "application/json".
Proof. vm_compute. discriminate. Qed.

(** C2, amended.  In the canonical string, a non-empty dict contributes
    the hexadecimal MD5 digest of the UTF-8 bytes of [json.dumps(content)]
    (default separators), then a newline, the content type and a newline;
    non-empty bytes contribute the digest of their hexadecimal text in
    the same way; empty content contributes two bare newlines, with no
    digest and no content type. *)
Theorem raw_string_content (url : string) (content : value)
    (http_method content_type dt_isoformat : string) :
  (forall d jsoned,
      content = VDict d -> d <> [] -> Json.dumps content = Ok jsoned ->
      raw_string url content http_method content_type dt_isoformat
      = Ok (upper http_method ++ nl
              ++ (Md5.hexdigest (Codec.encode_utf8 jsoned) ++ nl
                    ++ content_type ++ nl)
              ++ before "."%char dt_isoformat ++ "Z" ++ nl
              ++ before "?"%char url)%string)
  /\ (forall bs,
         content = VBytes bs -> bs <> [] ->
         raw_string url content http_method content_type dt_isoformat
         = Ok (upper http_method ++ nl
                 ++ (Md5.hexdigest (Codec.hexlify bs) ++ nl
                       ++ content_type ++ nl)
                 ++ before "."%char dt_isoformat ++ "Z" ++ nl
                 ++ before "?"%char url)%string)
  /\ (Py.truthy content = false ->
      raw_string url content http_method content_type dt_isoformat
      = Ok (upper http_method ++ nl
              ++ (nl ++ nl)
              ++ before "."%char dt_isoformat ++ "Z" ++ nl
              ++ before "?"%char url)%string).
Proof.
  unfold raw_string, content_lines, content_md5.
  split; [|split].
  - intros d jsoned -> Hd Hj.
    destruct d as [|kv d]; [contradiction|].
    cbn [Py.truthy]. rewrite Hj. cbn [bind].
    rewrite hexdigest_eqb. reflexivity.
  - intros bs -> Hbs.
    destruct bs as [|b bs]; [contradiction|].
    cbn [Py.truthy bind]. rewrite hexdigest_eqb. reflexivity.
  - intros ->. reflexivity.
Qed.

(** Line 679 on a non-empty [str]: [hashlib.md5] refuses it, and no
    canonical string is built. *)
Lemma raw_string_str_content_raises (url : string) (c : ascii) (s : string)
    (http_method content_type dt_isoformat : string) :
  raw_string url (VStr (String c s)) http_method content_type dt_isoformat
  = Raise TypeError.
Proof. reflexivity. Qed.

End SignerProperties.

(** The amended C2 on the body [{"a": 1}] of a POST. *)
Lemma raw_string_content_witness :
  Signer.raw_string "/show/1/sequence/2/panel?x=1"
    (VDict [("a", VInt 1)]) "post" "application/json"
    "2020-01-02T03:04:05.678901"
  = Ok (Signer.upper "post" ++ Signer.nl
          ++ (Md5.hexdigest
                (Codec.encode_utf8
                   ("{" ++ Json.quote ++ "a" ++ Json.quote ++ ": 1}"))
                ++ Signer.nl ++ "application/json" ++ Signer.nl)
          ++ Signer.before "."%char "2020-01-02T03:04:05.678901"
          ++ "Z" ++ Signer.nl
          ++ Signer.before "?"%char "/show/1/sequence/2/panel?x=1")%string.
Proof.
  apply (proj1 (raw_string_content "/show/1/sequence/2/panel?x=1"
                  (VDict [("a", VInt 1)]) "post" "application/json"
                  "2020-01-02T03:04:05.678901") [("a", VInt 1)]).
  - reflexivity.
  - discriminate.
  - reflexivity.
Defined.

(** ** [get_markers] *)

Section MarkersProperties.

Import Timeline Markers.

Lemma getitem_store_marker (m : markers_t) (k : Z) (n : string) (k' : Z) :
  markers_getitem (store_marker m k n) k'
  = if k =? k' then Ok n else markers_getitem m k'.
Proof.
  induction m as [|[k0 n0] rest IH]; cbn [store_marker markers_getitem].
  - reflexivity.
  - destruct (k0 =? k) eqn:E0; cbn [markers_getitem].
    + apply Z.eqb_eq in E0. subst k0. destruct (k =? k'); reflexivity.
    + rewrite IH. destruct (k0 =? k') eqn:E1; [|reflexivity].
      apply Z.eqb_eq in E1. subst k0.
      rewrite Z.eqb_sym, E0. reflexivity.
Qed.

Lemma keys_store_marker (m : markers_t) (k : Z) (n : string) (k' : Z) :
  In k' (map fst (store_marker m k n)) <-> k' = k \/ In k' (map fst m).
Proof.
  induction m as [|[k0 n0] rest IH]; cbn [store_marker map fst In].
  - intuition.
  - destruct (k0 =? k) eqn:E0; cbn [map fst In].
    + apply Z.eqb_eq in E0. subst k0. intuition.
    + rewrite IH. intuition.
Qed.

Lemma NoDup_store_marker (m : markers_t) (k : Z) (n : string) :
  NoDup (map fst m) -> NoDup (map fst (store_marker m k n)).
Proof.
  induction m as [|[k0 n0] rest IH]; cbn [store_marker map fst]; intros H.
  - constructor; [intros [] | constructor].
  - inversion H as [|? ? Hnin Hnd]; subst.
    destruct (k0 =? k) eqn:E0; cbn [map fst].
    + constructor; assumption.
    + constructor; [|apply IH; assumption].
      rewrite keys_store_marker. intros [-> | Hin]; [|contradiction].
      rewrite Z.eqb_refl in E0. discriminate.
Qed.

Lemma fill_markers (docs : list value) (tl : list (Z * string)) :
  Forall2 is_marker docs tl ->
  forall mapping, fill docs mapping = Some (Ok (filled tl mapping)).
Proof.
  induction 1 as [|doc kv docs tl (d & -> & Hs & Hn) _ IH]; intros mapping.
  - reflexivity.
  - cbn [fill Py.get]. rewrite Hs, Hn. apply IH.
Qed.

Lemma getitem_filled (tl : list (Z * string)) :
  forall mapping k,
    markers_getitem (filled tl mapping) k
    = match last_name tl k with
      | Some n => Ok n
      | None => markers_getitem mapping k
      end.
Proof.
  induction tl as [|[k0 n0] tl IH]; intros mapping k; cbn [filled fold_left].
  - reflexivity.
  - fold (filled tl (store_marker mapping k0 n0)). rewrite IH.
    cbn [last_name fst snd].
    destruct (last_name tl k); [reflexivity|].
    rewrite getitem_store_marker. destruct (k0 =? k); reflexivity.
Qed.

Lemma NoDup_filled (tl : list (Z * string)) :
  forall mapping,
    NoDup (map fst mapping) -> NoDup (map fst (filled tl mapping)).
Proof.
  induction tl as [|[k0 n0] tl IH]; intros mapping H; cbn [filled fold_left].
  - exact H.
  - apply IH. apply NoDup_store_marker. exact H.
Qed.

Lemma keys_insert_sorted (kv : Z * string) (l : markers_t) (k : Z) :
  In k (map fst (insert_sorted kv l)) <-> k = fst kv \/ In k (map fst l).
Proof.
  induction l as [|kv' rest IH]; cbn [insert_sorted map In].
  - intuition.
  - destruct (fst kv <=? fst kv'); cbn [map In]; [|rewrite IH]; intuition.
Qed.

Lemma getitem_insert_sorted (kv : Z * string) (l : markers_t) (k : Z) :
  ~ In (fst kv) (map fst l) ->
  markers_getitem (insert_sorted kv l) k
  = if fst kv =? k then Ok (snd kv) else markers_getitem l k.
Proof.
  destruct kv as [k0 n0]. cbn [fst snd].
  induction l as [|[k1 n1] rest IH]; cbn [insert_sorted map fst In];
    intros Hnin.
  - reflexivity.
  - destruct (k0 <=? k1); cbn [markers_getitem]; [reflexivity|].
    rewrite IH by tauto.
    destruct (k1 =? k) eqn:E1; [|reflexivity].
    apply Z.eqb_eq in E1. subst k1.
    destruct (k0 =? k) eqn:E0; [|reflexivity].
    apply Z.eqb_eq in E0. subst k0. tauto.
Qed.

Lemma sorted_insert_sorted (kv : Z * string) (l : markers_t) :
  ~ In (fst kv) (map fst l) ->
  StronglySorted Z.lt (map fst l) ->
  StronglySorted Z.lt (map fst (insert_sorted kv l)).
Proof.
  induction l as [|kv' rest IH]; cbn [insert_sorted map In];
    intros Hnin Hs.
  - constructor; constructor.
  - apply StronglySorted_inv in Hs. destruct Hs as [Hs Hall].
    destruct (fst kv <=? fst kv') eqn:E; cbn [map].
    + apply Z.leb_le in E.
      assert (Hlt : fst kv < fst kv') by (assert (fst kv' <> fst kv) by tauto; lia).
      constructor; [constructor; assumption|].
      constructor; [exact Hlt|].
      eapply Forall_impl; [|exact Hall]. cbn. intros; lia.
    + apply Z.leb_gt in E.
      constructor; [apply IH; tauto|].
      apply Forall_forall. intros k Hk.
      apply keys_insert_sorted in Hk. destruct Hk as [-> | Hk]; [exact E|].
      rewrite Forall_forall in Hall. auto.
Qed.

Lemma sorted_items_spec (m : markers_t) :
  NoDup (map fst m) ->
  StronglySorted Z.lt (map fst (sorted_items m))
  /\ (forall k, In k (map fst (sorted_items m)) <-> In k (map fst m))
  /\ forall k, markers_getitem (sorted_items m) k = markers_getitem m k.
Proof.
  induction m as [|[k0 n0] rest IH]; cbn [map fst]; intros Hnd.
  - repeat split; auto. constructor.
  - inversion Hnd as [|? ? Hnin Hnd']; subst.
    destruct (IH Hnd') as (Hs & Hk & Hg).
    change (sorted_items ((k0, n0) :: rest))
      with (insert_sorted (k0, n0) (sorted_items rest)).
    assert (Hfresh : ~ In (fst (k0, n0)) (map fst (sorted_items rest)))
      by (rewrite Hk; exact Hnin).
    split; [apply sorted_insert_sorted; assumption|]. split.
    + intros k. rewrite keys_insert_sorted, Hk. cbn [In fst]. intuition.
    + intros k. rewrite getitem_insert_sorted by exact Hfresh.
      cbn [markers_getitem fst snd]. rewrite Hg. reflexivity.
Qed.

(** X1.  On a sequence revision whose markers have int starts and str
    names, [get_markers] returns a mapping whose starts are strictly
    increasing, and the name found under a start is that of the last
    marker of the revision with this start; a start no marker has is a
    [KeyError]. *)
Theorem get_markers_sorted_last_wins
    (rev meta : list (string * value)) (docs : list value)
    (tl : list (Z * string)) :
  Py.lookup rev "meta_data" = Some (VDict meta) ->
  Py.lookup meta "markers" = Some (VList docs) ->
  Forall2 is_marker docs tl ->
  exists ms,
    get_markers (VDict rev) = Some (Ok ms)
    /\ StronglySorted Z.lt (map fst ms)
    /\ forall k,
         markers_getitem ms k
         = match last_name tl k with
           | Some n => Ok n
           | None => Raise KeyError
           end.
Proof.
  intros Hmeta Hmarkers Hdocs.
  exists (sorted_items (filled tl [])).
  assert (Hnd : NoDup (map fst (filled tl [])))
    by (apply NoDup_filled; constructor).
  destruct (sorted_items_spec _ Hnd) as (Hs & _ & Hg).
  split; [|split].
  - unfold get_markers. cbn [Py.get_default]. rewrite Hmeta.
    cbn [bind Py.get_default]. rewrite Hmarkers. cbn [bind iterate].
    rewrite (fill_markers docs tl Hdocs []). reflexivity.
  - exact Hs.
  - intros k. rewrite Hg, getitem_filled. reflexivity.
Qed.

End MarkersProperties.

(** X1 on two markers sent out of order, the second start given twice. *)
Lemma get_markers_sorted_last_wins_witness :
  exists ms,
    Markers.get_markers
      (VDict [("meta_data",
               VDict [("markers",
                       VList [VDict [("start", VInt 3); ("name", VStr "B")];
                              VDict [("name", VStr "A"); ("start", VInt 0)];
                              VDict [("start", VInt 3);
                                     ("name", VStr "C")]])])])
    = Some (Ok ms)
    /\ StronglySorted Z.lt (map fst ms)
    /\ forall k,
         Timeline.markers_getitem ms k
         = match Markers.last_name [(3, "B"); (0, "A"); (3, "C")] k with
           | Some n => Ok n
           | None => Raise KeyError
           end.
Proof.
  apply (get_markers_sorted_last_wins
           [("meta_data",
             VDict [("markers",
                     VList [VDict [("start", VInt 3); ("name", VStr "B")];
                            VDict [("name", VStr "A"); ("start", VInt 0)];
                            VDict [("start", VInt 3);
                                   ("name", VStr "C")]])])]
           [("markers",
             VList [VDict [("start", VInt 3); ("name", VStr "B")];
                    VDict [("name", VStr "A"); ("start", VInt 0)];
                    VDict [("start", VInt 3); ("name", VStr "C")]])]
           [VDict [("start", VInt 3); ("name", VStr "B")];
            VDict [("name", VStr "A"); ("start", VInt 0)];
            VDict [("start", VInt 3); ("name", VStr "C")]]
           [(3, "B"); (0, "A"); (3, "C")]).
  - reflexivity.
  - reflexivity.
  - repeat constructor; eexists; repeat split; reflexivity.
Defined.

(** ** [get_markers_per_panels], branch by branch *)

Section StepProperties.

Import Timeline Markers.

Lemma index_nat {A} (l : list A) (n : nat) (a : A) :
  nth_error l n = Some a -> Py.index l (Z.of_nat n) = Ok a.
Proof.
  intros H. unfold Py.index.
  assert (Hlt : (n < List.length l)%nat)
    by (apply nth_error_Some; congruence).
  replace (Z.of_nat n <? 0) with false by (symmetry; apply Z.ltb_ge; lia).
  replace ((0 <=? Z.of_nat n) && (Z.of_nat n <? Z.of_nat (List.length l)))
    with true
    by (symmetry; apply andb_true_intro; split;
        [apply Z.leb_le | apply Z.ltb_lt]; lia).
  rewrite Nat2Z.id, H. reflexivity.
Qed.

Lemma lookup_store_same {A} (d : list (string * A)) (k : string) (v : A) :
  Py.lookup (Py.store d k v) k = Some v.
Proof.
  induction d as [|[k' v'] d IH]; cbn [Py.store Py.lookup].
  - rewrite String.eqb_refl. reflexivity.
  - destruct (String.eqb k' k) eqn:E; cbn [Py.lookup]; rewrite E;
      [reflexivity | exact IH].
Qed.

Lemma store_store {A} (d : list (string * A)) (k : string) (v v' : A) :
  Py.store (Py.store d k v) k v' = Py.store d k v'.
Proof.
  induction d as [|[k0 v0] d IH]; cbn [Py.store].
  - rewrite String.eqb_refl. reflexivity.
  - destruct (String.eqb k0 k) eqn:E; cbn [Py.store]; rewrite E;
      [reflexivity | rewrite IH; reflexivity].
Qed.

Lemma store_same {A} (d : list (string * A)) (k : string) (v : A) :
  Py.lookup d k = Some v -> Py.store d k v = d.
Proof.
  induction d as [|[k0 v0] d IH]; cbn [Py.store Py.lookup].
  - discriminate.
  - destruct (String.eqb k0 k) eqn:E.
    + intros H. injection H as ->. reflexivity.
    + intros H. rewrite (IH H). reflexivity.
Qed.

Lemma format_panel_ok (d : list (string * value)) (i : Z) :
  format_panel_for_revision (VDict d) i = Ok (format_dict d i).
Proof. reflexivity. Qed.

Lemma get_duration (n : Z) (d : list (string * value)) :
  has_duration n d -> Py.get (VDict d) "duration" = Ok (VInt n).
Proof. unfold has_duration. intros H. cbn [Py.get]. rewrite H. reflexivity. Qed.

Variable markers : markers_t.
Variable markers_keys : list Z.

(** Line 606: the panel starts where marker [marker_i] starts. *)
Lemma step_at_marker (i : Z) (d : list (string * value)) (n : Z)
    (ppm : groups_t) (pin mi : Z) (name : string) :
  Py.index markers_keys mi = Ok pin ->
  markers_getitem markers pin = Ok name ->
  has_duration n d ->
  step markers markers_keys i (VDict d) (mkLoop ppm pin mi)
  = Ok (mkLoop (Py.store ppm name [format_dict d i]) (pin + n)
          (if Z.of_nat (List.length markers_keys) >? mi + 1 then mi + 1
           else mi)).
Proof.
  intros Hk Hname Hd. unfold step.
  cbn [marker_i panel_in panels_per_markers].
  rewrite Hk. cbn [bind]. rewrite Z.eqb_refl, Hname. cbn [bind].
  unfold lookup_group. rewrite lookup_store_same. cbn [bind].
  rewrite format_panel_ok. cbn [bind app].
  rewrite store_store, (get_duration n d Hd).
  cbn [bind Py.int_add panel_in panels_per_markers marker_i].
  reflexivity.
Qed.

(** Line 612: the panel starts before marker [marker_i] does. *)
Lemma step_before_marker (i : Z) (d : list (string * value)) (n : Z)
    (ppm : groups_t) (pin mi k kp : Z) (name : string) (l : list value) :
  Py.index markers_keys mi = Ok k ->
  pin < k ->
  Py.index markers_keys (mi - 1) = Ok kp ->
  markers_getitem markers kp = Ok name ->
  Py.lookup ppm name = Some l ->
  has_duration n d ->
  step markers markers_keys i (VDict d) (mkLoop ppm pin mi)
  = Ok (mkLoop (Py.store ppm name (l ++ [format_dict d i])) (pin + n) mi).
Proof.
  intros Hk Hlt Hkp Hname Hl Hd. unfold step.
  cbn [marker_i panel_in panels_per_markers].
  rewrite Hk. cbn [bind].
  replace (k =? pin) with false by (symmetry; apply Z.eqb_neq; lia).
  replace (k >? pin) with true by (symmetry; apply Z.gtb_lt; lia).
  rewrite Hkp. cbn [bind]. rewrite Hname. cbn [bind].
  unfold lookup_group. rewrite Hl. cbn [bind].
  rewrite format_panel_ok. cbn [bind].
  rewrite (get_duration n d Hd).
  cbn [bind Py.int_add panel_in panels_per_markers marker_i].
  reflexivity.
Qed.

(** Line 615: the panel starts after the last marker. *)
Lemma step_after_last (i : Z) (d : list (string * value)) (n : Z)
    (ppm : groups_t) (pin mi k : Z) (name : string) :
  Py.index markers_keys mi = Ok k ->
  k < pin ->
  Z.of_nat (List.length markers_keys) - 1 = mi ->
  markers_getitem markers k = Ok name ->
  has_duration n d ->
  step markers markers_keys i (VDict d) (mkLoop ppm pin mi)
  = Ok (mkLoop
          (Py.store ppm name
             (match Py.lookup ppm name with Some l => l | None => [] end
                ++ [format_dict d i]))
          (pin + n) mi).
Proof.
  intros Hk Hlt Hlast Hname Hd. unfold step.
  cbn [marker_i panel_in panels_per_markers].
  rewrite Hk. cbn [bind].
  replace (k =? pin) with false by (symmetry; apply Z.eqb_neq; lia).
  replace (k >? pin) with false
    by (symmetry; rewrite Z.gtb_ltb; apply Z.ltb_ge; lia).
  rewrite Hlast, Z.eqb_refl, Hname. cbn [bind].
  unfold lookup_group, Py.contains.
  destruct (Py.lookup ppm name) as [l|] eqn:El; cbn [negb].
  - rewrite El. cbn [bind]. rewrite format_panel_ok. cbn [bind].
    rewrite (get_duration n d Hd).
    cbn [bind Py.int_add panel_in panels_per_markers marker_i].
    reflexivity.
  - rewrite lookup_store_same. cbn [bind]. rewrite format_panel_ok.
    cbn [bind]. rewrite store_store, (get_duration n d Hd).
    cbn [bind Py.int_add panel_in panels_per_markers marker_i app].
    reflexivity.
Qed.

(** No branch: the panel starts after marker [marker_i], which is not
    the last one.  Only [panel_in] moves. *)
Lemma step_skipped (i : Z) (d : list (string * value)) (n : Z)
    (ppm : groups_t) (pin mi k : Z) :
  Py.index markers_keys mi = Ok k ->
  k < pin ->
  Z.of_nat (List.length markers_keys) - 1 <> mi ->
  has_duration n d ->
  step markers markers_keys i (VDict d) (mkLoop ppm pin mi)
  = Ok (mkLoop ppm (pin + n) mi).
Proof.
  intros Hk Hlt Hlast Hd. unfold step.
  cbn [marker_i panel_in panels_per_markers].
  rewrite Hk. cbn [bind].
  replace (k =? pin) with false by (symmetry; apply Z.eqb_neq; lia).
  replace (k >? pin) with false
    by (symmetry; rewrite Z.gtb_ltb; apply Z.ltb_ge; lia).
  replace (Z.of_nat (List.length markers_keys) - 1 =? mi) with false
    by (symmetry; apply Z.eqb_neq; exact Hlast).
  cbn [bind]. rewrite (get_duration n d Hd).
  cbn [bind Py.int_add panel_in panels_per_markers marker_i].
  reflexivity.
Qed.

End StepProperties.

(** ** [get_markers_per_panels] on whole segments *)

Section SegmentProperties.

Import Timeline Markers Segments.

Variable markers : markers_t.

Variable markers_keys : list Z.

Lemma total_cons (n : Z) (d : list (string * value))
    (ds : list (list (string * value))) :
  has_duration n d -> total (d :: ds) = n + total ds.
Proof. unfold has_duration. intros H. cbn [total]. rewrite H. reflexivity. Qed.

Lemma total_nonneg (ds : list (list (string * value))) :
  Forall timed ds -> 0 <= total ds.
Proof.
  induction 1 as [|d ds (n & Hn & Hd) _ IH]; [cbn; lia|].
  rewrite (total_cons n d ds Hd). lia.
Qed.

Lemma positive_timed (ds : list (list (string * value))) :
  Forall (fun d => exists n, 0 < n /\ has_duration n d) ds ->
  Forall timed ds.
Proof.
  apply Forall_impl. intros d (n & Hn & Hd). exists n. split; [lia | exact Hd].
Qed.

Lemma total_app (ds es : list (list (string * value))) :
  total (ds ++ es) = total ds + total es.
Proof.
  induction ds as [|d ds IH]; cbn [app total]; [reflexivity|].
  rewrite IH. destruct (Py.lookup d "duration") as [[| | n | | | |]|]; lia.
Qed.

(** The panels that follow the first one of a segment, up to the next
    marker. *)
Lemma loop_tail_before_marker (mi knext kprev : Z) (name : string)
    (more : list value) (ds : list (list (string * value))) :
  Py.index markers_keys mi = Ok knext ->
  Py.index markers_keys (mi - 1) = Ok kprev ->
  markers_getitem markers kprev = Ok name ->
  Forall (fun d => exists n, 0 < n /\ has_duration n d) ds ->
  forall i l pin ppm,
    pin + total ds <= knext ->
    Py.lookup ppm name = Some l ->
    loop markers markers_keys i (map VDict ds ++ more) (mkLoop ppm pin mi)
    = loop markers markers_keys (i + Z.of_nat (List.length ds)) more
        (mkLoop (Py.store ppm name (l ++ format_from i ds))
           (pin + total ds) mi).
Proof.
  intros Hk Hkp Hname Hds.
  induction Hds as [|d ds (n & Hn & Hd) Hds IH]; intros i l pin ppm Hle Hl.
  - cbn [map app List.length total format_from].
    rewrite app_nil_r, (store_same _ _ _ Hl), !Z.add_0_r. reflexivity.
  - pose proof (total_nonneg ds (positive_timed ds Hds)) as Hnn.
    rewrite (total_cons n d ds Hd) in Hle |- *.
    cbn [map app loop].
    rewrite (step_before_marker markers markers_keys i d n ppm pin mi
               knext kprev name l Hk ltac:(lia) Hkp Hname Hl Hd).
    cbn [bind].
    rewrite (IH (i + 1) (l ++ [format_dict d i]) (pin + n)
               (Py.store ppm name (l ++ [format_dict d i]))
               ltac:(lia) (lookup_store_same _ _ _)).
    rewrite store_store, <- app_assoc. cbn [app format_from List.length].
    f_equal; [lia|]. f_equal. lia.
Qed.

(** The panels that follow the first one of the last segment. *)
Lemma loop_tail_after_last (mi k : Z) (name : string)
    (more : list value) (ds : list (list (string * value))) :
  Py.index markers_keys mi = Ok k ->
  Z.of_nat (List.length markers_keys) - 1 = mi ->
  markers_getitem markers k = Ok name ->
  Forall (fun d => exists n, 0 < n /\ has_duration n d) ds ->
  forall i l pin ppm,
    k < pin ->
    Py.lookup ppm name = Some l ->
    loop markers markers_keys i (map VDict ds ++ more) (mkLoop ppm pin mi)
    = loop markers markers_keys (i + Z.of_nat (List.length ds)) more
        (mkLoop (Py.store ppm name (l ++ format_from i ds))
           (pin + total ds) mi).
Proof.
  intros Hk Hlast Hname Hds.
  induction Hds as [|d ds (n & Hn & Hd) Hds IH]; intros i l pin ppm Hlt Hl.
  - cbn [map app List.length total format_from].
    rewrite app_nil_r, (store_same _ _ _ Hl), !Z.add_0_r. reflexivity.
  - rewrite (total_cons n d ds Hd).
    cbn [map app loop].
    rewrite (step_after_last markers markers_keys i d n ppm pin mi
               k name Hk Hlt Hlast Hname Hd).
    rewrite Hl. cbn [bind].
    rewrite (IH (i + 1) (l ++ [format_dict d i]) (pin + n)
               (Py.store ppm name (l ++ [format_dict d i]))
               ltac:(lia) (lookup_store_same _ _ _)).
    rewrite store_store, <- app_assoc. cbn [app format_from List.length].
    f_equal; [lia|]. f_equal. lia.
Qed.

(** A whole segment whose marker is followed by another marker. *)
Lemma loop_segment (mi k knext : Z) (name : string) (more : list value)
    (d : list (string * value)) (ds : list (list (string * value)))
    (i : Z) (ppm : groups_t) :
  Py.index markers_keys mi = Ok k ->
  markers_getitem markers k = Ok name ->
  Py.index markers_keys (mi + 1) = Ok knext ->
  Z.of_nat (List.length markers_keys) > mi + 1 ->
  Forall (fun d => exists n, 0 < n /\ has_duration n d) (d :: ds) ->
  k + total (d :: ds) <= knext ->
  loop markers markers_keys i (map VDict (d :: ds) ++ more)
    (mkLoop ppm k mi)
  = loop markers markers_keys (i + Z.of_nat (List.length (d :: ds))) more
      (mkLoop (Py.store ppm name (format_from i (d :: ds)))
         (k + total (d :: ds)) (mi + 1)).
Proof.
  intros Hk Hname Hnext Hlen Hall Hle.
  inversion Hall as [|? ? (n & Hn & Hd) Hds]; subst.
  rewrite (total_cons n d ds Hd) in Hle |- *.
  cbn [map app loop].
  rewrite (step_at_marker markers markers_keys i d n ppm k mi name
             Hk Hname Hd).
  cbn [bind].
  replace (Z.of_nat (List.length markers_keys) >? mi + 1) with true
    by (symmetry; apply Z.gtb_lt; lia).
  rewrite (loop_tail_before_marker (mi + 1) knext k name more ds Hnext
             ltac:(replace (mi + 1 - 1) with mi by lia; exact Hk) Hname Hds
             (i + 1) [format_dict d i] (k + n)
             (Py.store ppm name [format_dict d i])
             ltac:(lia) (lookup_store_same _ _ _)).
  rewrite store_store. cbn [app format_from List.length].
  f_equal; [lia|]. f_equal. lia.
Qed.

(** A whole segment whose marker is the last one. *)
Lemma loop_last_segment (mi k : Z) (name : string) (more : list value)
    (d : list (string * value)) (ds : list (list (string * value)))
    (i : Z) (ppm : groups_t) :
  Py.index markers_keys mi = Ok k ->
  markers_getitem markers k = Ok name ->
  Z.of_nat (List.length markers_keys) - 1 = mi ->
  Forall (fun d => exists n, 0 < n /\ has_duration n d) (d :: ds) ->
  loop markers markers_keys i (map VDict (d :: ds) ++ more)
    (mkLoop ppm k mi)
  = loop markers markers_keys (i + Z.of_nat (List.length (d :: ds))) more
      (mkLoop (Py.store ppm name (format_from i (d :: ds)))
         (k + total (d :: ds)) mi).
Proof.
  intros Hk Hname Hlast Hall.
  inversion Hall as [|? ? (n & Hn & Hd) Hds]; subst.
  rewrite (total_cons n d ds Hd).
  cbn [map app loop].
  rewrite (step_at_marker markers markers_keys i d n ppm k
             (Z.of_nat (List.length markers_keys) - 1) name Hk Hname Hd).
  cbn [bind].
  replace (Z.of_nat (List.length markers_keys)
           >? Z.of_nat (List.length markers_keys) - 1 + 1) with false
    by (symmetry; rewrite Z.gtb_ltb; apply Z.ltb_ge; lia).
  rewrite (loop_tail_after_last (Z.of_nat (List.length markers_keys) - 1)
             k name more ds Hk eq_refl Hname Hds
             (i + 1) [format_dict d i] (k + n)
             (Py.store ppm name [format_dict d i])
             ltac:(lia) (lookup_store_same _ _ _)).
  rewrite store_store. cbn [app format_from List.length].
  f_equal; [lia|]. f_equal. lia.
Qed.

(** Panels met while marker [marker_i], not the last one, lies behind:
    none is assigned. *)
Lemma loop_skipped (mi k : Z) (ds : list (list (string * value))) :
  Py.index markers_keys mi = Ok k ->
  Z.of_nat (List.length markers_keys) - 1 <> mi ->
  Forall timed ds ->
  forall i ppm pin,
    k < pin ->
    loop markers markers_keys i (map VDict ds) (mkLoop ppm pin mi)
    = Ok (mkLoop ppm (pin + total ds) mi).
Proof.
  intros Hk Hlast Hds.
  induction Hds as [|d ds (n & Hn & Hd) Hds IH]; intros i ppm pin Hlt.
  - cbn [map loop total]. rewrite Z.add_0_r. reflexivity.
  - rewrite (total_cons n d ds Hd). cbn [map loop].
    rewrite (step_skipped markers markers_keys i d n ppm pin mi k
               Hk Hlt Hlast Hd).
    cbn [bind]. rewrite (IH (i + 1) ppm (pin + n) ltac:(lia)).
    f_equal. f_equal. lia.
Qed.

End SegmentProperties.

Section TimelineRuns.

Import Timeline Markers Segments.

Lemma total_positive (ds : list (list (string * value))) :
  ds <> [] ->
  Forall (fun d => exists n, 0 < n /\ has_duration n d) ds ->
  0 < total ds.
Proof.
  intros Hne Hall. destruct Hall as [|d ds (n & Hn & Hd) Hds];
    [contradiction|].
  rewrite (total_cons n d ds Hd).
  pose proof (total_nonneg ds (positive_timed ds Hds)). lia.
Qed.

Lemma getitem_nth (markers : markers_t) :
  NoDup (map fst markers) ->
  forall j k name,
    nth_error markers j = Some (k, name) ->
    markers_getitem markers k = Ok name.
Proof.
  induction markers as [|[k0 n0] rest IH]; cbn [map fst]; intros Hnd j k name.
  - destruct j; discriminate.
  - inversion Hnd as [|? ? Hnin Hnd']; subst.
    destruct j as [|j]; cbn [nth_error markers_getitem].
    + intros H. injection H as -> ->. rewrite Z.eqb_refl. reflexivity.
    + intros H. destruct (k0 =? k) eqn:E.
      * apply Z.eqb_eq in E. subst k0. exfalso. apply Hnin.
        apply nth_error_In in H. apply (in_map fst) in H. exact H.
      * eapply IH; eassumption.
Qed.

Lemma nth_error_map_middle {A B} (f : A -> B) (pre : list A) (a : A)
    (rest : list A) :
  nth_error (map f (pre ++ a :: rest)) (List.length pre) = Some (f a).
Proof. induction pre as [|b pre IH]; [reflexivity | exact IH]. Qed.

Lemma nth_error_map_next {A B} (f : A -> B) (pre : list A) (a b : A)
    (rest : list A) :
  nth_error (map f (pre ++ a :: b :: rest)) (S (List.length pre))
  = Some (f b).
Proof. induction pre as [|c pre IH]; [reflexivity | exact IH]. Qed.

Lemma span_cons (s : segment) (rest : list segment) :
  span (s :: rest) = total (snd s) + span rest.
Proof. unfold span. cbn [map List.concat]. apply total_app. Qed.

Lemma count_cons (s : segment) (rest : list segment) :
  count (s :: rest) = Z.of_nat (List.length (snd s)) + count rest.
Proof.
  unfold count. cbn [map List.concat]. rewrite length_app. lia.
Qed.

Lemma panels_of_cons (s : segment) (rest : list segment) :
  panels_of (s :: rest) = map VDict (snd s) ++ panels_of rest.
Proof. unfold panels_of. cbn [map List.concat]. apply map_app. Qed.

(** The loop over aligned segments: each is stored under its name, and
    the loop goes on with the marker that follows them, or stays on the
    last marker. *)
Lemma loop_segments (markers later : markers_t) (more : list value) :
  NoDup (map fst markers) ->
  forall (suf pre : list segment) (i : Z) (acc : groups_t) (pin : Z),
    markers = map fst (pre ++ suf) ++ later ->
    aligned pin suf ->
    suf <> [] ->
    match later with
    | [] => True
    | kv :: _ => pin + span suf <= fst kv
    end ->
    loop markers (map fst markers) i (panels_of suf ++ more)
      (mkLoop acc pin (Z.of_nat (List.length pre)))
    = loop markers (map fst markers) (i + count suf) more
        (mkLoop (stored i suf acc) (pin + span suf)
           (Z.of_nat (List.length pre) + Z.of_nat (List.length suf)
            - match later with [] => 1 | _ :: _ => 0 end)).
Proof.
  intros Hnd.
  induction suf as [|[[k name] ps] rest IH];
    intros pre i acc pin Em Hal Hne Hlater; [contradiction|].
  cbn [aligned fst] in Hal. destruct Hal as (-> & Hps & Hpos & Hal).
  destruct ps as [|d ds]; [contradiction|].
  assert (Hnth : nth_error markers (List.length pre) = Some (pin, name)).
  { rewrite Em. rewrite nth_error_app1.
    - apply (nth_error_map_middle fst pre ((pin, name), d :: ds) rest).
    - rewrite length_map, length_app. cbn [List.length]. lia. }
  assert (Hk : Py.index (map fst markers) (Z.of_nat (List.length pre))
               = Ok pin).
  { apply index_nat. apply (map_nth_error fst _ _ Hnth). }
  assert (Hname : markers_getitem markers pin = Ok name)
    by (eapply getitem_nth; eassumption).
  assert (Hlen : List.length (map fst markers)
                 = (List.length pre + S (List.length rest)
                    + List.length later)%nat).
  { rewrite Em.
    rewrite !length_map, !length_app, length_map, length_app.
    cbn [List.length]. lia. }
  rewrite panels_of_cons, span_cons, count_cons. cbn [snd stored].
  rewrite <- app_assoc.
  destruct rest as [|s' rest'].
  - (* the last of the segments *)
    rewrite span_cons in Hlater. cbn [snd] in Hlater.
    change (span []) with 0 in *. change (count []) with 0.
    change (panels_of []) with (@nil value).
    cbn [app stored]. rewrite !Z.add_0_r. rewrite Z.add_0_r in Hlater.
    destruct later as [|kv later'].
    + rewrite (loop_last_segment markers (map fst markers)
                 (Z.of_nat (List.length pre)) pin name more d ds i acc
                 Hk Hname ltac:(rewrite Hlen; cbn [List.length]; lia) Hpos).
      f_equal. f_equal. cbn [List.length]. lia.
    + assert (Hnext : Py.index (map fst markers)
                        (Z.of_nat (List.length pre) + 1) = Ok (fst kv)).
      { replace (Z.of_nat (List.length pre) + 1)
          with (Z.of_nat (S (List.length pre))) by lia.
        apply index_nat. apply map_nth_error. rewrite Em.
        rewrite nth_error_app2
          by (rewrite length_map, length_app; cbn [List.length]; lia).
        rewrite length_map, length_app. cbn [List.length].
        replace (S (List.length pre) - (List.length pre + 1))%nat
          with O by lia.
        reflexivity. }
      rewrite (loop_segment markers (map fst markers)
                 (Z.of_nat (List.length pre)) pin (fst kv) name more d ds
                 i acc Hk Hname Hnext
                 ltac:(rewrite Hlen; cbn [List.length]; lia) Hpos Hlater).
      f_equal. f_equal. cbn [List.length]. lia.
  - (* another segment follows *)
    destruct s' as [[k' name'] ps'].
    pose proof Hal as Hal'. cbn [aligned fst] in Hal'.
    destruct Hal' as (Hk' & _).
    assert (Hnext : Py.index (map fst markers)
                      (Z.of_nat (List.length pre) + 1) = Ok k').
    { replace (Z.of_nat (List.length pre) + 1)
        with (Z.of_nat (S (List.length pre))) by lia.
      apply index_nat. apply (map_nth_error fst _ _ (d := (k', name'))).
      rewrite Em. rewrite nth_error_app1
        by (rewrite length_map, length_app; cbn [List.length]; lia).
      apply (nth_error_map_next fst pre ((pin, name), d :: ds)
               ((k', name'), ps') rest'). }
    eapply eq_trans.
    { apply (loop_segment markers (map fst markers)
               (Z.of_nat (List.length pre)) pin k' name
               (panels_of (((k', name'), ps') :: rest') ++ more) d ds
               i acc Hk Hname Hnext).
      - rewrite Hlen. cbn [List.length]. lia.
      - exact Hpos.
      - lia. }
    specialize (IH (pre ++ [((pin, name), d :: ds)])
                  (i + Z.of_nat (List.length (d :: ds)))
                  (Py.store acc name (format_from i (d :: ds)))
                  (pin + total (d :: ds))).
    replace (Z.of_nat (List.length (pre ++ [((pin, name), d :: ds)])))
      with (Z.of_nat (List.length pre) + 1) in IH
      by (rewrite length_app, Nat2Z.inj_add; reflexivity).
    eapply eq_trans.
    { apply IH.
      - rewrite Em, <- app_assoc. reflexivity.
      - exact Hal.
      - discriminate.
      - destruct later as [|kv later']; [exact I|].
        rewrite span_cons in Hlater. cbn [snd] in Hlater. lia. }
    f_equal; [lia|]. f_equal; [lia|].
    cbn [List.length]. rewrite !Nat2Z.inj_succ. lia.
Qed.

End TimelineRuns.

Section TimelineTheorems.

Import Timeline Markers Segments.

(** [lia] after the type alias of segments is unfolded. *)
Local Ltac seglia := unfold segment in *; lia.

Lemma aligned_keys (segs : list segment) :
  forall pos,
    aligned pos segs ->
    Forall (fun k => pos <= k) (map fst (map fst segs))
    /\ NoDup (map fst (map fst segs)).
Proof.
  induction segs as [|[[k name] ps] rest IH]; intros pos Hal; cbn [map fst].
  - split; constructor.
  - cbn [aligned fst] in Hal. destruct Hal as (-> & Hne & Hpos & Hal).
    destruct (IH _ Hal) as (Hge & Hnd).
    pose proof (total_positive ps Hne Hpos) as Htot.
    split.
    + constructor; [lia|]. eapply Forall_impl; [|exact Hge].
      cbn. intros; lia.
    + constructor; [|exact Hnd].
      intros Hin. rewrite Forall_forall in Hge.
      specialize (Hge _ Hin). lia.
Qed.

(** X2.  When every marker starts exactly where its first panel starts
    (the first one at 0) and every panel has a positive duration,
    [get_markers_per_panels] stores each segment, formatted with the
    indices of its panels in the whole sequence, under the name of its
    marker, in timeline order: a name used by two markers keeps the
    panels of the later one only. *)
Theorem get_markers_per_panels_aligned (segs : list segment) :
  aligned 0 segs ->
  get_markers_per_panels (map fst segs) (panels_of segs)
  = Ok (stored 0 segs []).
Proof.
  intros Hal. unfold get_markers_per_panels.
  destruct segs as [|s rest]; [reflexivity|].
  destruct (aligned_keys _ _ Hal) as [_ Hnd].
  assert (E : loop (map fst (s :: rest)) (map fst (map fst (s :: rest))) 0
                (panels_of (s :: rest) ++ []) (mkLoop [] 0 (Z.of_nat 0))
              = Ok (mkLoop (stored 0 (s :: rest) [])
                      (0 + span (s :: rest))
                      (Z.of_nat 0 + Z.of_nat (List.length (s :: rest)) - 1))).
  { apply (loop_segments (map fst (s :: rest)) [] [] Hnd (s :: rest) []
             0 [] 0).
    - cbn [app]. rewrite app_nil_r. reflexivity.
    - exact Hal.
    - discriminate.
    - exact I. }
  rewrite app_nil_r in E. change (Z.of_nat 0) with 0 in E.
  rewrite E. reflexivity.
Qed.

Lemma format_from_app (ps : list (list (string * value)))
    (d : list (string * value)) :
  forall i,
    format_from i (ps ++ [d])
    = format_from i ps ++ [format_dict d (i + Z.of_nat (List.length ps))].
Proof.
  induction ps as [|p ps IH]; intros i; cbn [app format_from List.length].
  - rewrite Z.add_0_r. reflexivity.
  - rewrite IH.
    replace (i + 1 + Z.of_nat (List.length ps))
      with (i + Z.of_nat (S (List.length ps))) by lia.
    reflexivity.
Qed.

(** The group of the last segment, and what appending one panel to it
    gives. *)
Lemma stored_last (d : list (string * value)) (segs : list segment) :
  segs <> [] ->
  forall i acc,
  exists k name ps l,
    nth_error segs (List.length segs - 1) = Some ((k, name), ps)
    /\ Py.lookup (stored i segs acc) name = Some l
    /\ Py.store (stored i segs acc) name
         (l ++ [format_dict d (i + count segs)])
       = stored i (extend_last segs d) acc.
Proof.
  induction segs as [|[[k name] ps] rest IH]; intros Hne i acc;
    [contradiction|].
  destruct rest as [|s2 rest].
  - exists k, name, ps, (format_from i ps).
    cbn [List.length Nat.sub nth_error stored extend_last].
    split; [reflexivity|]. split; [apply lookup_store_same|].
    rewrite store_store, format_from_app.
    unfold count. cbn [map List.concat snd]. rewrite app_nil_r.
    reflexivity.
  - destruct (IH ltac:(discriminate) (i + Z.of_nat (List.length ps))
                (Py.store acc name (format_from i ps)))
      as (k' & name' & ps' & l & Hnth & Hl & Hs).
    exists k', name', ps', l.
    split.
    { cbn [List.length] in Hnth |- *.
      rewrite Nat.sub_succ, Nat.sub_0_r in Hnth |- *. exact Hnth. }
    split; [exact Hl|].
    change (extend_last (((k, name), ps) :: s2 :: rest) d)
      with (((k, name), ps) :: extend_last (s2 :: rest) d).
    cbn [stored snd]. rewrite <- Hs.
    rewrite (count_cons ((k, name), ps) (s2 :: rest)). cbn [snd].
    rewrite Z.add_assoc. reflexivity.
Qed.

(** X3.  When a marker that is not the last one starts strictly inside a
    panel, that panel still joins the segment before it, and every later
    panel is left out of the mapping: the result is the one of the
    timeline cut after that panel. *)
Theorem get_markers_per_panels_marker_inside_panel
    (segs : list segment) (s : Z) (b : string) (m' : Z * string)
    (ms : markers_t) (d : list (string * value)) (n : Z)
    (ds : list (list (string * value))) :
  segs <> [] ->
  aligned 0 segs ->
  NoDup (map fst (map fst segs ++ (s, b) :: m' :: ms)) ->
  has_duration n d ->
  span segs < s < span segs + n ->
  Forall timed ds ->
  get_markers_per_panels (map fst segs ++ (s, b) :: m' :: ms)
    (panels_of segs ++ VDict d :: map VDict ds)
  = Ok (stored 0 (extend_last segs d) []).
Proof.
  intros Hne Hal Hnd Hd [Hlo Hhi] Hds.
  unfold get_markers_per_panels.
  set (markers := map fst segs ++ (s, b) :: m' :: ms) in *.
  eapply eq_trans.
  { apply f_equal2; [|reflexivity].
    apply (loop_segments markers ((s, b) :: m' :: ms)
             (VDict d :: map VDict ds) Hnd segs [] 0 [] 0).
    - reflexivity.
    - exact Hal.
    - exact Hne.
    - cbn [fst]. seglia. }
  cbn [List.length]. change (Z.of_nat 0) with 0.
  rewrite !Z.add_0_l, Z.sub_0_r.
  destruct (stored_last d segs Hne 0 [])
    as (k & name & ps & l & Hnth & Hl & Hs).
  assert (Hlen : List.length (map fst markers)
                 = (List.length segs + 2 + List.length ms)%nat).
  { unfold markers. rewrite length_map, length_app, length_map.
    cbn [List.length]. seglia. }
  assert (Hsegs : (0 < List.length segs)%nat)
    by (destruct segs; [contradiction | cbn [List.length]; seglia]).
  assert (Hk : Py.index (map fst markers) (Z.of_nat (List.length segs))
               = Ok s).
  { apply index_nat. apply (map_nth_error fst _ _ (d := (s, b))).
    unfold markers. rewrite nth_error_app2 by (rewrite length_map; seglia).
    rewrite length_map, Nat.sub_diag. reflexivity. }
  assert (Hprev : nth_error markers (List.length segs - 1)
                  = Some (k, name)).
  { unfold markers. rewrite nth_error_app1 by (rewrite length_map; seglia).
    apply (map_nth_error fst _ _ Hnth). }
  assert (Hkp : Py.index (map fst markers)
                  (Z.of_nat (List.length segs) - 1) = Ok k).
  { replace (Z.of_nat (List.length segs) - 1)
      with (Z.of_nat (List.length segs - 1)) by seglia.
    apply index_nat. apply (map_nth_error fst _ _ Hprev). }
  assert (Hname : markers_getitem markers k = Ok name)
    by (eapply getitem_nth; eassumption).
  cbn [loop].
  rewrite (step_before_marker markers (map fst markers) (count segs) d n
             (stored 0 segs []) (span segs) (Z.of_nat (List.length segs))
             s k name l Hk Hlo Hkp Hname Hl Hd).
  cbn [bind].
  rewrite (loop_skipped markers (map fst markers)
             (Z.of_nat (List.length segs)) s ds Hk
             ltac:(rewrite Hlen; seglia) Hds).
  - cbn [bind panels_per_markers]. rewrite <- Hs.
    rewrite Z.add_0_l. reflexivity.
  - seglia.
Qed.

End TimelineTheorems.

(** X2 on three shots, the third under the name of the first. *)
Lemma get_markers_per_panels_aligned_witness :
  Timeline.get_markers_per_panels
    (map fst
       [((0, "A"), [[("panel_id", VInt 1); ("duration", VInt 2)];
                    [("panel_id", VInt 2); ("duration", VInt 1)]]);
        ((3, "B"), [[("panel_id", VInt 3); ("duration", VInt 4)]]);
        ((7, "A"), [[("panel_id", VInt 4); ("duration", VInt 1)];
                    [("panel_id", VInt 5); ("duration", VInt 1)]])])
    (Markers.panels_of
       [((0, "A"), [[("panel_id", VInt 1); ("duration", VInt 2)];
                    [("panel_id", VInt 2); ("duration", VInt 1)]]);
        ((3, "B"), [[("panel_id", VInt 3); ("duration", VInt 4)]]);
        ((7, "A"), [[("panel_id", VInt 4); ("duration", VInt 1)];
                    [("panel_id", VInt 5); ("duration", VInt 1)]])])
  = Ok (Markers.stored 0
          [((0, "A"), [[("panel_id", VInt 1); ("duration", VInt 2)];
                       [("panel_id", VInt 2); ("duration", VInt 1)]]);
           ((3, "B"), [[("panel_id", VInt 3); ("duration", VInt 4)]]);
           ((7, "A"), [[("panel_id", VInt 4); ("duration", VInt 1)];
                       [("panel_id", VInt 5); ("duration", VInt 1)]])] []).
Proof.
  apply (get_markers_per_panels_aligned
           [((0, "A"), [[("panel_id", VInt 1); ("duration", VInt 2)];
                        [("panel_id", VInt 2); ("duration", VInt 1)]]);
            ((3, "B"), [[("panel_id", VInt 3); ("duration", VInt 4)]]);
            ((7, "A"), [[("panel_id", VInt 4); ("duration", VInt 1)];
                        [("panel_id", VInt 5); ("duration", VInt 1)]])]).
  cbn [Markers.aligned fst Markers.total Py.lookup String.eqb Ascii.eqb
       Bool.eqb].
  repeat split; try discriminate;
    repeat constructor;
    try (eexists; split; [|reflexivity]; lia).
Defined.

(** X3 on markers at 0, 3 and 5 over panels of duration 2. *)
Lemma get_markers_per_panels_marker_inside_panel_witness :
  Timeline.get_markers_per_panels
    (map fst [((0, "A"), [[("panel_id", VInt 1); ("duration", VInt 2)]])]
       ++ (3, "B") :: (5, "C") :: [])
    (Markers.panels_of
       [((0, "A"), [[("panel_id", VInt 1); ("duration", VInt 2)]])]
       ++ VDict [("panel_id", VInt 2); ("duration", VInt 2)]
       :: map VDict [[("panel_id", VInt 3); ("duration", VInt 2)];
                     [("panel_id", VInt 4); ("duration", VInt 2)]])
  = Ok (Markers.stored 0
          (Segments.extend_last
             [((0, "A"), [[("panel_id", VInt 1); ("duration", VInt 2)]])]
             [("panel_id", VInt 2); ("duration", VInt 2)]) []).
Proof.
  apply (get_markers_per_panels_marker_inside_panel
           [((0, "A"), [[("panel_id", VInt 1); ("duration", VInt 2)]])]
           3 "B" (5, "C") []
           [("panel_id", VInt 2); ("duration", VInt 2)] 2
           [[("panel_id", VInt 3); ("duration", VInt 2)];
            [("panel_id", VInt 4); ("duration", VInt 2)]]).
  - discriminate.
  - cbn. repeat split; try discriminate.
    repeat constructor. exists 2. split; [lia | reflexivity].
  - cbn. repeat constructor; cbn; intuition discriminate.
  - reflexivity.
  - cbn. lia.
  - repeat constructor; exists 2; (split; [lia | reflexivity]).
Defined.

(** ** [mo_per_shots] when every asset resolves *)

Section ShotsProperties.

Import Timeline Orchestrator Shots.

Variable get_asset : value -> result value.

Lemma store_fresh {A} (d : list (string * A)) (k : string) (v : A) :
  Py.lookup d k = None -> Py.store d k v = d ++ [(k, v)].
Proof.
  induction d as [|[k0 v0] d IH]; cbn [Py.lookup Py.store app].
  - reflexivity.
  - destruct (String.eqb k0 k); [discriminate|].
    intros H. rewrite (IH H). reflexivity.
Qed.

Lemma store_at_end {A} (d : list (string * A)) (k : string) (v v' : A) :
  Py.lookup d k = None -> Py.store (d ++ [(k, v)]) k v' = d ++ [(k, v')].
Proof.
  intros H. rewrite <- (store_fresh d k v H), store_store.
  apply store_fresh. exact H.
Qed.

Lemma lookup_at_end {A} (d : list (string * A)) (k : string) (v : A) :
  Py.lookup d k = None -> Py.lookup (d ++ [(k, v)]) k = Some v.
Proof.
  intros H. rewrite <- (store_fresh d k v H). apply lookup_store_same.
Qed.

Lemma lookup_not_in {A} (d : list (string * A)) (k : string) :
  ~ In k (map fst d) -> Py.lookup d k = None.
Proof.
  induction d as [|[k0 v0] d IH]; cbn [map fst In Py.lookup]; intros H.
  - reflexivity.
  - destruct (String.eqb k0 k) eqn:E.
    + apply String.eqb_eq in E. tauto.
    + apply IH. tauto.
Qed.

Lemma lookup_middle {A} (pre : list (string * A)) (k : string) (v : A)
    (rest : list (string * A)) :
  ~ In k (map fst pre) -> Py.lookup (pre ++ (k, v) :: rest) k = Some v.
Proof.
  induction pre as [|[k0 v0] pre IH]; cbn [map fst In Py.lookup app];
    intros H.
  - rewrite String.eqb_refl. reflexivity.
  - destruct (String.eqb k0 k) eqn:E.
    + apply String.eqb_eq in E. tauto.
    + apply IH. tauto.
Qed.

Lemma add_media_objects_resolved (shot_name : string)
    (p art thumb : value) (mo : mo_map) (e : media_objects) :
  resolves get_asset p art thumb ->
  Py.lookup mo shot_name = Some e ->
  exists asset_id asset,
    asset_id_of p = Ok asset_id
    /\ get_asset asset_id = Ok asset
    /\ Py.is_none asset = false
    /\ add_media_objects shot_name p asset mo
       = Ok (Py.store mo shot_name
               (mkMedia (artwork e ++ [art]) (thumbnails e ++ [thumb]))).
Proof.
  intros [pd ad asset media a0 t0 arts thumbs Hasset Hget Hmedia Hart Hth]
    Hl.
  exists (field ad "asset_id"), (VDict asset).
  split.
  { unfold asset_id_of. cbn [Py.get]. rewrite Hasset. reflexivity. }
  split; [exact Hget|]. split; [reflexivity|].
  unfold add_media_objects, shot_entry.
  cbn [Py.get_default]. rewrite Hmedia. cbn [bind Py.get].
  rewrite Hart, Hth. cbn [bind Py.first Py.get]. rewrite Hl. cbn [bind].
  rewrite lookup_store_same. cbn [bind artwork thumbnails].
  rewrite store_store. reflexivity.
Qed.

Lemma panels_loop_resolved (shot_name : string)
    (ts : list (value * (value * value))) :
  Forall (fun t => resolves get_asset (fst t) (fst (snd t)) (snd (snd t)))
    ts ->
  forall mo e,
    Py.lookup mo shot_name = Some e ->
    panels_loop get_asset shot_name (map fst ts) mo
    = Ok (Some (Py.store mo shot_name
                  (mkMedia
                     (artwork e ++ map (fun t => fst (snd t)) ts)
                     (thumbnails e ++ map (fun t => snd (snd t)) ts)))).
Proof.
  induction 1 as [|[p [art thumb]] ts Hr _ IH]; intros mo e Hl.
  - cbn [map panels_loop]. rewrite !app_nil_r.
    destruct e as [a t]. cbn [artwork thumbnails].
    rewrite (store_same _ _ _ Hl). reflexivity.
  - cbn [fst snd] in Hr.
    destruct (add_media_objects_resolved shot_name p art thumb mo e Hr Hl)
      as (aid & asset & Ha & Hg & Hn & Hadd).
    cbn [map panels_loop fst snd]. rewrite Ha. cbn [bind].
    rewrite Hg. cbn [bind]. rewrite Hn, Hadd. cbn [bind].
    rewrite (IH _ _ (lookup_store_same _ _ _)).
    cbn [artwork thumbnails]. rewrite store_store, <- !app_assoc.
    reflexivity.
Qed.

Lemma shots_loop_resolved (rs : list resolved_shot) :
  NoDup (map fst rs) ->
  Forall (all_resolve get_asset) rs ->
  forall suf pre,
    rs = pre ++ suf ->
    shots_loop get_asset (map group_of rs) (map fst suf) (map entry_of pre)
    = Ok (Some (map entry_of rs)).
Proof.
  intros Hnd Hall.
  induction suf as [|[name ts] suf IH]; intros pre E.
  - rewrite app_nil_r in E. subst pre. reflexivity.
  - cbn [map fst shots_loop].
    assert (Hfresh : ~ In name (map fst pre)).
    { rewrite E, map_app in Hnd. cbn [map fst] in Hnd.
      apply NoDup_remove_2 in Hnd. intros Hin. apply Hnd.
      apply in_or_app. left. exact Hin. }
    assert (Hgroup : Py.lookup (map group_of rs) name = Some (map fst ts)).
    { rewrite E, map_app. cbn [map].
      apply (lookup_middle (map group_of pre) name (map fst ts)).
      rewrite map_map. cbn [group_of fst]. exact Hfresh. }
    unfold lookup_group. rewrite Hgroup. cbn [bind].
    assert (Hnone : Py.lookup (map entry_of pre) name = None).
    { apply lookup_not_in. rewrite map_map. cbn [entry_of fst].
      exact Hfresh. }
    rewrite (store_fresh _ _ _ Hnone).
    assert (Hts : all_resolve get_asset (name, ts)).
    { rewrite Forall_forall in Hall. apply Hall. rewrite E.
      apply in_or_app. right. left. reflexivity. }
    rewrite (panels_loop_resolved name ts Hts _ _
               (lookup_at_end _ _ _ Hnone)).
    cbn [bind artwork thumbnails app].
    rewrite (store_at_end _ _ _ _ Hnone).
    specialize (IH (pre ++ [(name, ts)])).
    rewrite map_app in IH. cbn [map] in IH. apply IH.
    rewrite E, <- app_assoc. reflexivity.
Qed.

(** X4.  When the shot names are distinct and the asset of every panel
    resolves to an object with a first artwork and a first thumbnail,
    [mo_per_shots] returns [True] with one entry per shot, in the order
    of the shots, holding one artwork record and one thumbnail record
    per panel, in the order of the panels. *)
Theorem mo_per_shots_resolved (rs : list resolved_shot)
    (show_id seq_id seq_rev_number episode_id : value) :
  NoDup (map fst rs) ->
  Forall (all_resolve get_asset) rs ->
  mo_per_shots get_asset (map group_of rs) show_id seq_id seq_rev_number
    episode_id
  = Ok (Some (map entry_of rs), true).
Proof.
  intros Hnd Hall. unfold mo_per_shots.
  assert (E : shots_loop get_asset (map group_of rs)
                (map fst (map group_of rs)) []
              = Ok (Some (map entry_of rs))).
  { replace (map fst (map group_of rs)) with (map fst rs)
      by (rewrite map_map; reflexivity).
    apply (shots_loop_resolved rs Hnd Hall rs [] eq_refl). }
  rewrite E. reflexivity.
Qed.

End ShotsProperties.

(** ** The trace of the export poll loop *)

Section PollTraceProperties.

Import Orchestrator.

Variable get_asset : value -> result value.
Variable start_quicktime_export :
  value -> value -> value -> list value -> value -> bool -> result value.

Lemma consecutive_cons (retry : Z) (n : nat) :
  retry :: map (fun k => retry + 1 + Z.of_nat k) (seq 0 n)
  = map (fun k => retry + Z.of_nat k) (seq 0 (S n)).
Proof.
  cbn [seq map]. rewrite Z.add_0_r. f_equal.
  rewrite <- seq_shift, map_map. apply map_ext. intros k. lia.
Qed.

Lemma resolve_completed_trace (res : value) :
  snd (resolve_completed get_asset res) = []
  \/ exists asset_id,
      snd (resolve_completed get_asset res) = [EGetAsset asset_id].
Proof.
  unfold resolve_completed.
  destruct (r <- Py.get_default res "results" (VDict []) ;;
            Py.get r "assetID") as [asset_id|e];
    [right; exists asset_id; reflexivity | left; reflexivity].
Qed.

(** The retry indices of the loop are consecutive from its counter. *)
Lemma poll_retries (chain_id : value) (replies : list (result value)) :
  forall retry,
    on_retry_calls (snd (poll get_asset chain_id replies retry))
    = map (fun k => retry + Z.of_nat k)
        (seq 0 (List.length
                  (on_retry_calls
                     (snd (poll get_asset chain_id replies retry))))).
Proof.
  induction replies as [|reply rest IH]; intros retry; cbn [poll].
  - reflexivity.
  - destruct reply as [res|e]; [|reflexivity].
    destruct (Py.is_none res); [reflexivity|].
    destruct (Py.get res "status") as [status|e]; [|reflexivity].
    destruct (Py.eq_str status "errored" || Py.eq_str status "timed out");
      [reflexivity|].
    destruct (Py.eq_str status "in progress").
    + specialize (IH (retry + 1)).
      destruct (poll get_asset chain_id rest (retry + 1)) as [o tr].
      cbn [snd] in *. cbn [on_retry_calls flat_map app].
      fold (on_retry_calls tr). cbn [List.length].
      rewrite <- consecutive_cons. f_equal. exact IH.
    + destruct (Py.eq_str status "completed").
      * destruct (resolve_completed_trace res) as [E | (a & E)];
          destruct (resolve_completed get_asset res) as [o tr];
          cbn [snd] in *; subst tr; reflexivity.
      * specialize (IH retry).
        destruct (poll get_asset chain_id rest retry) as [o tr].
        cbn [snd] in *. cbn [on_retry_calls flat_map app].
        fold (on_retry_calls tr). exact IH.
Qed.

(** An asset is fetched at most once, as the last thing the loop does. *)
Lemma poll_asset_last (chain_id : value) (replies : list (result value)) :
  forall retry asset_id,
    In (EGetAsset asset_id) (snd (poll get_asset chain_id replies retry)) ->
    exists tr0,
      snd (poll get_asset chain_id replies retry)
      = tr0 ++ [EGetAsset asset_id]
      /\ (forall a, ~ In (EGetAsset a) tr0)
      /\ fst (poll get_asset chain_id replies retry) <> Pending.
Proof.
  induction replies as [|reply rest IH]; intros retry asset_id; cbn [poll].
  - intros [].
  - destruct reply as [res|e]; [|intros [C | []]; discriminate].
    destruct (Py.is_none res); [intros [C | []]; discriminate|].
    destruct (Py.get res "status") as [status|e];
      [|intros [C | []]; discriminate].
    destruct (Py.eq_str status "errored" || Py.eq_str status "timed out");
      [intros [C | []]; discriminate|].
    destruct (Py.eq_str status "in progress").
    + specialize (IH (retry + 1) asset_id).
      destruct (poll get_asset chain_id rest (retry + 1)) as [o tr].
      cbn [fst snd] in *.
      intros [C | [C | [C | C]]]; try discriminate.
      destruct (IH C) as (tr0 & -> & Hno & Hp).
      exists (EGetChain chain_id :: EOnRetry retry :: ESleep 1 :: tr0).
      split; [reflexivity|]. split; [|exact Hp].
      intros a [D | [D | [D | D]]]; try discriminate. exact (Hno a D).
    + destruct (Py.eq_str status "completed").
      * unfold resolve_completed.
        destruct (r <- Py.get_default res "results" (VDict []) ;;
                  Py.get r "assetID") as [aid|e]; cbn [fst snd].
        -- intros [C | [C | []]]; [discriminate|].
           injection C as <-.
           exists [EGetChain chain_id]. split; [reflexivity|]. split.
           ++ intros a [D | []]. discriminate.
           ++ destruct (asset <- get_asset aid ;; _); discriminate.
        -- intros [C | []]. discriminate.
      * specialize (IH retry asset_id).
        destruct (poll get_asset chain_id rest retry) as [o tr].
        cbn [fst snd] in *.
        intros [C | C]; [discriminate|].
        destruct (IH C) as (tr0 & -> & Hno & Hp).
        exists (EGetChain chain_id :: tr0).
        split; [reflexivity|]. split; [|exact Hp].
        intros a [D | D]; [discriminate | exact (Hno a D)].
Qed.

(** X5.  Whatever the service answers, [get_mo_quicktime_export] calls
    [on_retry] with 0, 1, 2, ... in this order, and it fetches an asset
    at most once: as its last action, after which it has returned or
    raised. *)
Theorem export_trace_shape (shot_name : string) (panels : list value)
    (show_id seq_id seq_rev_number episode_id : value)
    (chain_replies : list (result value)) :
  let run :=
    get_mo_quicktime_export get_asset start_quicktime_export shot_name
      panels show_id seq_id seq_rev_number episode_id chain_replies in
  on_retry_calls (snd run)
  = map Z.of_nat (seq 0 (List.length (on_retry_calls (snd run))))
  /\ forall asset_id,
       In (EGetAsset asset_id) (snd run) ->
       exists tr0,
         snd run = tr0 ++ [EGetAsset asset_id]
         /\ (forall a, ~ In (EGetAsset a) tr0)
         /\ fst run <> Pending.
Proof.
  cbn zeta. unfold get_mo_quicktime_export.
  destruct (start_quicktime_export show_id seq_id seq_rev_number panels
              episode_id false) as [chain_id|e].
  - pose proof (poll_retries chain_id chain_replies 0) as Hr.
    pose proof (poll_asset_last chain_id chain_replies 0) as Ha.
    destruct (poll get_asset chain_id chain_replies 0) as [o tr].
    cbn [fst snd] in *. split.
    + cbn [on_retry_calls flat_map app]. fold (on_retry_calls tr).
      rewrite Hr at 1. apply map_ext. intros k. lia.
    + intros a [C | C]; [discriminate|].
      destruct (Ha a C) as (tr0 & -> & Hno & Hp).
      exists (EStartExport show_id seq_id seq_rev_number panels episode_id
                false :: tr0).
      split; [reflexivity|]. split; [|exact Hp].
      intros b [D | D]; [discriminate | exact (Hno b D)].
  - cbn [fst snd]. split; [reflexivity|].
    intros a [C | []]. discriminate.
Qed.

End PollTraceProperties.

(** ** Logging in, refreshing, logging out *)

Section SessionProperties.

Import Credential.

Variable requests_post : string -> string -> http_outcome.
Variable strptime : string -> result Z.

(** The two events of one login request. *)
Lemma login_events (h l p : string) (w : world) :
  log (emit (HttpPost (h ++ "/authenticate") (basic_authorization l p))
         (emit (CallAuthenticate (VStr h) (VStr l) (VStr p)) w))
  = log w ++ [CallAuthenticate (VStr h) (VStr l) (VStr p);
              HttpPost (h ++ "/authenticate") (basic_authorization l p)].
Proof. cbn [emit log]. rewrite <- app_assoc. reflexivity. Qed.

Lemma authenticate_accepted (h l p : string) (w : world)
    (status_code : Z) (resp : list (string * value)) (id sk : value)
    (ed : string) (t : Z) :
  requests_post (h ++ "/authenticate") (basic_authorization l p)
  = Response status_code (Some (VDict resp)) ->
  raise_for_status status_code = false ->
  Py.lookup resp "id" = Some id ->
  Py.lookup resp "secret_access_key" = Some sk ->
  Py.lookup resp "expiry_date" = Some (VStr ed) ->
  strptime (before_dot ed) = Ok t ->
  authenticate requests_post strptime (VStr h) (VStr l) (VStr p) w
  = (Ok (VDict resp),
     mkWorld (mkSession (VStr h) (VStr l) (VStr p) id sk (Some t))
       (log w ++ [CallAuthenticate (VStr h) (VStr l) (VStr p);
                  HttpPost (h ++ "/authenticate")
                    (basic_authorization l p)])).
Proof.
  intros Hpost Hst Hid Hsk Hed Ht.
  rewrite <- login_events.
  unfold authenticate. cbn [Py.str_add bind].
  fold (basic_authorization l p). rewrite Hpost, Hst.
  cbn [Py.getitem]. rewrite Hid, Hsk, Hed.
  cbn [bind split_dot_first]. rewrite Ht.
  reflexivity.
Qed.

(** X6.  After a login that the service accepts, the object holds the
    three arguments and the credential of the answer, and [__get_token]
    hands that credential out without another login for as long as
    [now + 2h <= expiry]. *)
Theorem authenticate_then_get_token (h l p : string) (w : world)
    (status_code : Z) (resp : list (string * value)) (id sk : value)
    (ed : string) (t now : Z) :
  requests_post (h ++ "/authenticate") (basic_authorization l p)
  = Response status_code (Some (VDict resp)) ->
  raise_for_status status_code = false ->
  Py.lookup resp "id" = Some id ->
  Py.lookup resp "secret_access_key" = Some sk ->
  Py.lookup resp "expiry_date" = Some (VStr ed) ->
  strptime (before_dot ed) = Ok t ->
  id <> VNone -> sk <> VNone -> now + hours 2 <= t ->
  exists w',
    authenticate requests_post strptime (VStr h) (VStr l) (VStr p) w
    = (Ok (VDict resp), w')
    /\ self w' = mkSession (VStr h) (VStr l) (VStr p) id sk (Some t)
    /\ get_token requests_post strptime now w' = (Ok (id, sk), w').
Proof.
  intros Hpost Hst Hid Hsk Hed Ht Hidn Hskn Hnow.
  eexists. split; [eapply authenticate_accepted; eassumption|].
  split; [reflexivity|].
  apply get_token_fresh. unfold must_refresh. cbn [self key secret expiry].
  destruct id; try contradiction; destruct sk; try contradiction;
    cbn [Py.is_none orb]; rewrite Z.gtb_ltb; apply Z.ltb_ge; exact Hnow.
Qed.

(** X7.  An accepted answer that lacks a field leaves the object half
    updated.  Without [id]: [KeyError], hostname, login and password are
    replaced, the old credential stays.  With [id] but without
    [secret_access_key]: [KeyError], and the new key now sits beside the
    old secret and expiry. *)
Theorem authenticate_incomplete_answer (h l p : string) (w : world)
    (status_code : Z) (resp : list (string * value)) :
  requests_post (h ++ "/authenticate") (basic_authorization l p)
  = Response status_code (Some (VDict resp)) ->
  raise_for_status status_code = false ->
  (Py.lookup resp "id" = None ->
   authenticate requests_post strptime (VStr h) (VStr l) (VStr p) w
   = (Raise KeyError,
      mkWorld
        (mkSession (VStr h) (VStr l) (VStr p) (key (self w))
           (secret (self w)) (expiry (self w)))
        (log w ++ [CallAuthenticate (VStr h) (VStr l) (VStr p);
                   HttpPost (h ++ "/authenticate")
                     (basic_authorization l p)])))
  /\ (forall id,
         Py.lookup resp "id" = Some id ->
         Py.lookup resp "secret_access_key" = None ->
         authenticate requests_post strptime (VStr h) (VStr l) (VStr p) w
         = (Raise KeyError,
            mkWorld
              (mkSession (VStr h) (VStr l) (VStr p) id
                 (secret (self w)) (expiry (self w)))
              (log w ++ [CallAuthenticate (VStr h) (VStr l) (VStr p);
                         HttpPost (h ++ "/authenticate")
                           (basic_authorization l p)]))).
Proof.
  intros Hpost Hst. split.
  - intros Hid. rewrite <- login_events.
    unfold authenticate. cbn [Py.str_add bind].
    fold (basic_authorization l p). rewrite Hpost, Hst.
    cbn [Py.getitem]. rewrite Hid. reflexivity.
  - intros id Hid Hsk. rewrite <- login_events.
    unfold authenticate. cbn [Py.str_add bind].
    fold (basic_authorization l p). rewrite Hpost, Hst.
    cbn [Py.getitem]. rewrite Hid, Hsk. reflexivity.
Qed.

(** A rejected login: [authenticate] returns [None] and only the log
    grows. *)
Lemma authenticate_rejected (h l p : string) (w : world) :
  login_rejected
    (requests_post (h ++ "/authenticate") (basic_authorization l p)) ->
  authenticate requests_post strptime (VStr h) (VStr l) (VStr p) w
  = (Ok VNone,
     mkWorld (self w)
       (log w ++ [CallAuthenticate (VStr h) (VStr l) (VStr p);
                  HttpPost (h ++ "/authenticate")
                    (basic_authorization l p)])).
Proof.
  intros Hrej. rewrite <- login_events.
  unfold authenticate. cbn [Py.str_add bind].
  fold (basic_authorization l p).
  destruct (requests_post (h ++ "/authenticate") (basic_authorization l p))
    as [|status_code content].
  - reflexivity.
  - cbn [login_rejected] in Hrej. destruct Hrej as [Hlo Hhi].
    unfold raise_for_status.
    replace (400 <=? status_code) with true
      by (symmetry; apply Z.leb_le; exact Hlo).
    replace (status_code <? 600) with true
      by (symmetry; apply Z.ltb_lt; exact Hhi).
    reflexivity.
Qed.

(** X8.  When the credential must be refreshed and the login is
    rejected, [__get_token] raises [TypeError] (it subscripts the [None]
    that [authenticate] returned) after exactly one login request, and
    the object is as before. *)
Theorem get_token_login_rejected (now : Z) (w : world) (h l p : string) :
  must_refresh now (self w) = true ->
  hostname (self w) = VStr h ->
  login (self w) = VStr l ->
  password (self w) = VStr p ->
  login_rejected
    (requests_post (h ++ "/authenticate") (basic_authorization l p)) ->
  get_token requests_post strptime now w
  = (Raise TypeError,
     mkWorld (self w)
       (log w ++ [CallAuthenticate (VStr h) (VStr l) (VStr p);
                  HttpPost (h ++ "/authenticate")
                    (basic_authorization l p)])).
Proof.
  intros Hm Hh Hl Hp Hrej.
  unfold get_token. rewrite Hm, Hh, Hl, Hp.
  rewrite (authenticate_rejected h l p w Hrej).
  reflexivity.
Qed.

(** X9.  After [reset()], [__get_token] raises [TypeError] before any
    request is sent: [authenticate] is entered with three [None]s and
    fails on [login + ':']. *)
Theorem get_token_after_reset (now : Z) (w : world) :
  get_token requests_post strptime now (reset w)
  = (Raise TypeError,
     mkWorld (mkSession VNone VNone VNone VNone VNone None)
       (log w ++ [CallAuthenticate VNone VNone VNone])).
Proof. reflexivity. Qed.

(** X10.  When the credential must be refreshed and the login is
    accepted, [__get_token] returns the key and the secret of the answer
    after exactly one login request, and the object holds the new
    credential. *)
Theorem get_token_refreshed (now : Z) (w : world) (h l p : string)
    (status_code : Z) (resp : list (string * value)) (id sk : value)
    (ed : string) (t : Z) :
  must_refresh now (self w) = true ->
  hostname (self w) = VStr h ->
  login (self w) = VStr l ->
  password (self w) = VStr p ->
  requests_post (h ++ "/authenticate") (basic_authorization l p)
  = Response status_code (Some (VDict resp)) ->
  raise_for_status status_code = false ->
  Py.lookup resp "id" = Some id ->
  Py.lookup resp "secret_access_key" = Some sk ->
  Py.lookup resp "expiry_date" = Some (VStr ed) ->
  strptime (before_dot ed) = Ok t ->
  get_token requests_post strptime now w
  = (Ok (id, sk),
     mkWorld (mkSession (VStr h) (VStr l) (VStr p) id sk (Some t))
       (log w ++ [CallAuthenticate (VStr h) (VStr l) (VStr p);
                  HttpPost (h ++ "/authenticate")
                    (basic_authorization l p)])).
Proof.
  intros Hm Hh Hl Hp Hpost Hst Hid Hsk Hed Ht.
  unfold get_token. rewrite Hm, Hh, Hl, Hp.
  rewrite (authenticate_accepted h l p w status_code resp id sk ed t
             Hpost Hst Hid Hsk Hed Ht).
  cbn [Py.getitem]. rewrite Hid, Hsk, Hed.
  cbn [bind split_dot_first]. rewrite Ht.
  reflexivity.
Qed.

End SessionProperties.

(** ** What the signature covers *)

Section SignatureProperties.

Import Signer.

Variable hmac_sha256 : list byte -> list byte -> list byte.

Lemma before_idempotent (c : ascii) (s : string) :
  before c (before c s) = before c s.
Proof.
  induction s as [|a s IH]; cbn [before]; [reflexivity|].
  destruct (Ascii.eqb a c) eqn:E; cbn [before]; [reflexivity|].
  rewrite E, IH. reflexivity.
Qed.

Lemma append_assoc (s t u : string) :
  ((s ++ t) ++ u = s ++ (t ++ u))%string.
Proof.
  induction s as [|c s IH]; cbn [String.append]; [reflexivity|].
  rewrite IH. reflexivity.
Qed.

Lemma upper_app (s t : string) :
  upper (s ++ t) = (upper s ++ upper t)%string.
Proof.
  induction s as [|c s IH]; cbn [upper String.append]; [reflexivity|].
  rewrite IH, append_assoc. reflexivity.
Qed.

Lemma upper_char_idempotent (c : ascii) :
  upper (upper_char c) = upper_char c.
Proof.
  destruct c as [[] [] [] [] [] [] [] []]; vm_compute; reflexivity.
Qed.

Lemma upper_idempotent (s : string) : upper (upper s) = upper s.
Proof.
  induction s as [|c s IH]; cbn [upper]; [reflexivity|].
  rewrite upper_app, upper_char_idempotent, IH. reflexivity.
Qed.

(** X11.  [__fn_sign] never returns a token for an empty secret: once
    the canonical string is built, the empty secret is a [ValueError]. *)
Theorem fn_sign_empty_secret (access_key_id url : string) (content : value)
    (http_method content_type dt_isoformat : string) :
  (forall token,
      fn_sign hmac_sha256 access_key_id "" url content http_method
        content_type dt_isoformat <> Ok token)
  /\ (forall raw,
         raw_string url content http_method content_type dt_isoformat
         = Ok raw ->
         fn_sign hmac_sha256 access_key_id "" url content http_method
           content_type dt_isoformat = Raise ValueError).
Proof.
  unfold fn_sign.
  destruct (raw_string url content http_method content_type dt_isoformat)
    as [raw|e]; cbn [bind String.length Nat.eqb].
  - split; [intros token; discriminate | intros raw' _; reflexivity].
  - split; [intros token; discriminate | intros raw' H; discriminate].
Qed.

(** X12.  The token depends on the URL only up to its first ['?'], on
    the timestamp only up to its first ['.'], and on the method only up
    to letter case: query string, fraction of a second and case are not
    signed. *)
Theorem fn_sign_ignores_query_fraction_case
    (access_key_id secret_access_key url : string) (content : value)
    (http_method content_type dt_isoformat : string) :
  fn_sign hmac_sha256 access_key_id secret_access_key url content
    http_method content_type dt_isoformat
  = fn_sign hmac_sha256 access_key_id secret_access_key
      (before "?"%char url) content (upper http_method) content_type
      (before "."%char dt_isoformat).
Proof.
  unfold fn_sign, raw_string.
  rewrite !before_idempotent, upper_idempotent. reflexivity.
Qed.

End SignatureProperties.

(** ** The request methods *)

Section RequestProperties.

Import Credential Requests.

Variable requests_login : string -> string -> http_outcome.
Variable strptime : string -> result Z.
Variable hmac_sha256 : list byte -> list byte -> list byte.
Variable requests_get : string -> headers -> http_outcome.
Variable requests_post : string -> headers -> string -> http_outcome.

(** On a str key and a str secret, the signing of [__get_headers] is
    [__fn_sign] as modelled on strings. *)
Lemma fn_sign_strings (k s url : string) (content : value)
    (method ct iso : string) :
  Requests.fn_sign hmac_sha256 (VStr k) (VStr s) url content method ct iso
  = Signer.fn_sign hmac_sha256 k s url content method ct iso.
Proof.
  unfold Requests.fn_sign, Signer.fn_sign.
  destruct (Signer.raw_string url content method ct iso) as [raw|e];
    cbn [bind len]; [|reflexivity].
  destruct (String.length s =? 0)%nat; reflexivity.
Qed.

(** With a usable credential [__get_headers] signs with it and leaves
    the object alone. *)
Lemma get_headers_usable (clk : clock) (w : world) (h k s : string)
    (content : value) (url method : string) :
  usable clk w h k s ->
  get_headers requests_login strptime hmac_sha256 content url method clk w
  = (headers_for hmac_sha256 k s url content method clk, w).
Proof.
  intros (Hfresh & _ & Hk & Hs & _).
  unfold get_headers, headers_for.
  rewrite (get_token_fresh requests_login strptime (now clk) w Hfresh).
  rewrite Hk, Hs, fn_sign_strings.
  destruct (Signer.fn_sign hmac_sha256 k s url content method
              "application/json" (dt_isoformat clk)); reflexivity.
Qed.

(** A request without content can always be signed with a non-empty
    secret. *)
Lemma headers_for_none (k s url method : string) (clk : clock) :
  s <> EmptyString ->
  exists hd, headers_for hmac_sha256 k s url VNone method clk = Ok hd.
Proof.
  intros Hs. unfold headers_for, Signer.fn_sign, Signer.raw_string,
    Signer.content_lines, Signer.content_md5.
  cbn [Py.truthy bind String.eqb negb].
  destruct s as [|c s]; [contradiction|].
  cbn [String.length Nat.eqb bind]. eexists. reflexivity.
Qed.

(** What a GET method does once its headers are signed. *)
Lemma fetch_usable (check_status : bool) (pick : option string)
    (url : string) (clk : clock) (w : world) (h k s : string)
    (hd : headers) :
  usable clk w h k s ->
  headers_for hmac_sha256 k s url VNone "GET" clk = Ok hd ->
  fetch requests_login strptime hmac_sha256 requests_get check_status pick
    url clk w
  = (match requests_get (h ++ url) hd with
     | RequestFailed => ThrowUnboundLocalError
     | Response status_code content =>
         if check_status && raise_for_status status_code then Return VNone
         else
           match content with
           | None => Throw ValueError
           | Some response =>
               match pick with
               | None => Return response
               | Some key =>
                   match Py.get response key with
                   | Ok v => Return v
                   | Raise e => Throw e
                   end
               end
           end
     end, w).
Proof.
  intros Hu Hhd. unfold fetch.
  rewrite (get_headers_usable clk w h k s VNone url "GET" Hu), Hhd.
  destruct Hu as (_ & Hh & _). rewrite Hh. cbn [Py.str_add].
  destruct (requests_get (h ++ url) hd) as [|status_code content];
    [reflexivity|].
  destruct (check_status && raise_for_status status_code); [reflexivity|].
  destruct content as [response|]; [|reflexivity].
  destruct pick as [key|]; [|reflexivity].
  destruct (Py.get response key); reflexivity.
Qed.

(** X13.  With a usable credential, [get_asset] sends one signed GET and
    changes nothing in the object.  A 4xx or 5xx answer gives [None]; a
    transport error does not: the handler reads the unbound [r] and
    [UnboundLocalError] escapes.  Any other answer is decoded and
    returned. *)
Theorem get_asset_outcomes (asset_id : Z) (clk : clock) (w : world)
    (h k s : string) :
  usable clk w h k s ->
  exists hd,
    headers_for hmac_sha256 k s ("/asset/" ++ fmt asset_id) VNone "GET" clk
    = Ok hd
    /\ (requests_get (h ++ "/asset/" ++ fmt asset_id) hd = RequestFailed ->
        get_asset requests_login strptime hmac_sha256 requests_get asset_id
          clk w = (ThrowUnboundLocalError, w))
    /\ (forall status_code content,
           requests_get (h ++ "/asset/" ++ fmt asset_id) hd
           = Response status_code content ->
           400 <= status_code < 600 ->
           get_asset requests_login strptime hmac_sha256 requests_get
             asset_id clk w = (Return VNone, w))
    /\ (forall status_code response,
           requests_get (h ++ "/asset/" ++ fmt asset_id) hd
           = Response status_code (Some response) ->
           ~ 400 <= status_code < 600 ->
           get_asset requests_login strptime hmac_sha256 requests_get
             asset_id clk w = (Return response, w)).
Proof.
  intros Hu.
  destruct (headers_for_none k s ("/asset/" ++ fmt asset_id) "GET" clk
              ltac:(apply Hu)) as (hd & Hhd).
  exists hd. split; [exact Hhd|].
  unfold get_asset.
  rewrite (fetch_usable true None _ clk w h k s hd Hu Hhd).
  split; [|split].
  - intros ->. reflexivity.
  - intros status_code content -> [Hlo Hhi]. unfold raise_for_status.
    replace (400 <=? status_code) with true
      by (symmetry; apply Z.leb_le; exact Hlo).
    replace (status_code <? 600) with true
      by (symmetry; apply Z.ltb_lt; exact Hhi).
    reflexivity.
  - intros status_code response -> Hst. unfold raise_for_status.
    destruct ((400 <=? status_code) && (status_code <? 600)) eqn:E;
      [|reflexivity].
    apply andb_prop in E. destruct E as [E1 E2].
    apply Z.leb_le in E1. apply Z.ltb_lt in E2. lia.
Qed.

(** X14.  With a usable credential, [get_chain] never turns an HTTP
    error into [None]: whatever the status code, the decoded body is
    returned as the job; a body that is not JSON is a [ValueError] and a
    transport error an [UnboundLocalError]. *)
Theorem get_chain_outcomes (chain_id : Z) (clk : clock) (w : world)
    (h k s : string) :
  usable clk w h k s ->
  exists hd,
    headers_for hmac_sha256 k s ("/chain/" ++ fmt chain_id) VNone "GET" clk
    = Ok hd
    /\ (requests_get (h ++ "/chain/" ++ fmt chain_id) hd = RequestFailed ->
        get_chain requests_login strptime hmac_sha256 requests_get chain_id
          clk w = (ThrowUnboundLocalError, w))
    /\ (forall status_code response,
           requests_get (h ++ "/chain/" ++ fmt chain_id) hd
           = Response status_code (Some response) ->
           get_chain requests_login strptime hmac_sha256 requests_get
             chain_id clk w = (Return response, w))
    /\ (forall status_code,
           requests_get (h ++ "/chain/" ++ fmt chain_id) hd
           = Response status_code None ->
           get_chain requests_login strptime hmac_sha256 requests_get
             chain_id clk w = (Throw ValueError, w)).
Proof.
  intros Hu.
  destruct (headers_for_none k s ("/chain/" ++ fmt chain_id) "GET" clk
              ltac:(apply Hu)) as (hd & Hhd).
  exists hd. split; [exact Hhd|].
  unfold get_chain.
  rewrite (fetch_usable false None _ clk w h k s hd Hu Hhd).
  split; [|split].
  - intros ->. reflexivity.
  - intros status_code response ->. reflexivity.
  - intros status_code ->. reflexivity.
Qed.

(** X15.  With a usable credential, [get_panels] reads the key [panels]
    of whatever JSON object the service answers, error documents
    included: an object without that key gives [None], a JSON value that
    is not an object an [AttributeError]. *)
Theorem get_panels_outcomes (show_id sequence_id rev_number : Z)
    (clk : clock) (w : world) (h k s : string) :
  usable clk w h k s ->
  let url :=
    ("/show/" ++ fmt show_id ++ "/sequence/" ++ fmt sequence_id
       ++ "/revision/" ++ fmt rev_number ++ "/panels")%string in
  exists hd,
    headers_for hmac_sha256 k s url VNone "GET" clk = Ok hd
    /\ (forall status_code d,
           requests_get (h ++ url) hd
           = Response status_code (Some (VDict d)) ->
           get_panels requests_login strptime hmac_sha256 requests_get
             show_id sequence_id rev_number clk w
           = (Return match Py.lookup d "panels" with
                     | Some v => v
                     | None => VNone
                     end, w))
    /\ (forall status_code l,
           requests_get (h ++ url) hd
           = Response status_code (Some (VList l)) ->
           get_panels requests_login strptime hmac_sha256 requests_get
             show_id sequence_id rev_number clk w
           = (Throw AttributeError, w)).
Proof.
  intros Hu url.
  destruct (headers_for_none k s url "GET" clk ltac:(apply Hu))
    as (hd & Hhd).
  exists hd. split; [exact Hhd|].
  unfold get_panels. fold url.
  rewrite (fetch_usable false (Some "panels") url clk w h k s hd Hu Hhd).
  split.
  - intros status_code d ->. reflexivity.
  - intros status_code l ->. reflexivity.
Qed.

(** X16.  Every request method asks [__get_token] first: when the
    credential must be refreshed and the login is rejected, a GET method
    and a POST method alike raise [TypeError] after the one login
    request, and the request itself is never sent (the answers of
    [requests_get] and [requests_post] play no part). *)
Theorem request_needs_token (clk : clock) (w : world) (h l p : string) :
  must_refresh (now clk) (self w) = true ->
  hostname (self w) = VStr h ->
  login (self w) = VStr l ->
  password (self w) = VStr p ->
  login_rejected
    (requests_login (h ++ "/authenticate") (basic_authorization l p)) ->
  let w' :=
    mkWorld (self w)
      (log w ++ [CallAuthenticate (VStr h) (VStr l) (VStr p);
                 HttpPost (h ++ "/authenticate")
                   (basic_authorization l p)]) in
  (forall check_status pick url,
      fetch requests_login strptime hmac_sha256 requests_get check_status
        pick url clk w = (Throw TypeError, w'))
  /\ (forall url content,
         submit requests_login strptime hmac_sha256 requests_post url
           content clk w = (Throw TypeError, w')).
Proof.
  intros Hm Hh Hl Hp Hrej w'.
  pose proof (authenticate_rejected requests_login strptime h l p w Hrej)
    as E.
  split.
  - intros check_status pick url. unfold fetch, get_headers, get_token.
    rewrite Hm, Hh, Hl, Hp, E. reflexivity.
  - intros url content. unfold submit, get_headers, get_token.
    rewrite Hm, Hh, Hl, Hp, E. reflexivity.
Qed.

(** X17.  With a usable credential and serializable panel revisions,
    [start_quicktime_export] posts [json.dumps(content)] as the body and
    signs a canonical string that holds the MD5 digest of exactly these
    bytes; it returns the decoded answer whatever the status code. *)
Theorem start_quicktime_export_signs_body
    (show_id sequence_id seq_rev_number : Z) (panel_revisions : list value)
    (episode_id : option Z) (include_dialogue : bool)
    (clk : clock) (w : world) (h k s data : string) :
  usable clk w h k s ->
  let url :=
    match episode_id with
    | None =>
        ("/show/" ++ fmt show_id ++ "/sequence/" ++ fmt sequence_id
           ++ "/revision/" ++ fmt seq_rev_number ++ "/export/quicktime")
    | Some e =>
        ("/show/" ++ fmt show_id ++ "/episode/" ++ fmt e ++ "/sequence/"
           ++ fmt sequence_id ++ "/revision/" ++ fmt seq_rev_number
           ++ "/export/quicktime")
    end%string in
  let content :=
    VDict [("include_dialogue", VBool include_dialogue);
           ("panel_revisions", VList panel_revisions)] in
  Json.dumps content = Ok data ->
  exists raw hd,
    Signer.raw_string url content "POST" "application/json"
      (dt_isoformat clk) = Ok raw
    /\ raw = ("POST" ++ Signer.nl
                ++ (Md5.hexdigest (Codec.encode_utf8 data) ++ Signer.nl
                      ++ "application/json" ++ Signer.nl)
                ++ Signer.before "."%char (dt_isoformat clk) ++ "Z"
                ++ Signer.nl ++ Signer.before "?"%char url)%string
    /\ authorization hd
       = ("FNAUTH " ++ k ++ ":"
            ++ Codec.decode_ascii
                 (Codec.b64encode
                    (hmac_sha256 (Codec.encode_utf8 s)
                                 (Codec.encode_utf8 raw))))%string
    /\ start_quicktime_export requests_login strptime hmac_sha256
         requests_post show_id sequence_id seq_rev_number panel_revisions
         episode_id include_dialogue clk w
       = (match requests_post (h ++ url) hd data with
          | RequestFailed => ThrowUnboundLocalError
          | Response _ (Some response) => Return response
          | Response _ None => Throw ValueError
          end, w).
Proof.
  intros Hu url content Hdata.
  assert (Hraw : Signer.raw_string url content "POST" "application/json"
                   (dt_isoformat clk)
                 = Ok ("POST" ++ Signer.nl
                         ++ (Md5.hexdigest (Codec.encode_utf8 data)
                               ++ Signer.nl ++ "application/json"
                               ++ Signer.nl)
                         ++ Signer.before "."%char (dt_isoformat clk)
                         ++ "Z" ++ Signer.nl
                         ++ Signer.before "?"%char url)%string).
  { unfold Signer.raw_string, Signer.content_lines, Signer.content_md5.
    unfold content at 1 2. cbn [Py.truthy]. fold content. rewrite Hdata.
    cbn [bind]. rewrite hexdigest_eqb. reflexivity. }
  eexists.
  exists (mkHeaders
            ("FNAUTH " ++ k ++ ":"
               ++ Codec.decode_ascii
                    (Codec.b64encode
                       (hmac_sha256 (Codec.encode_utf8 s)
                          (Codec.encode_utf8
                             ("POST" ++ Signer.nl
                                ++ (Md5.hexdigest (Codec.encode_utf8 data)
                                      ++ Signer.nl ++ "application/json"
                                      ++ Signer.nl)
                                ++ Signer.before "."%char (dt_isoformat clk)
                                ++ "Z" ++ Signer.nl
                                ++ Signer.before "?"%char url)))))%string
            "application/json" (dt_date clk)).
  split; [exact Hraw|]. split; [reflexivity|]. split; [reflexivity|].
  unfold start_quicktime_export. fold url. fold content.
  unfold submit.
  rewrite (get_headers_usable clk w h k s content url "POST" Hu).
  unfold headers_for, Signer.fn_sign. rewrite Hraw.
  destruct Hu as (_ & Hh & _ & _ & Hne).
  destruct s as [|c s']; [contradiction|].
  cbn [bind String.length Nat.eqb].
  rewrite Hh. cbn [Py.str_add]. rewrite Hdata.
  destruct (requests_post _ _ data) as [|status_code [response|]];
    reflexivity.
Qed.

End RequestProperties.

(** ** The properties above on sample inputs *)

(** X4 on one shot of one panel and one empty shot. *)
Lemma mo_per_shots_resolved_witness :
  Orchestrator.mo_per_shots Orchestrator.sample_assets
    (map Shots.group_of Samples.resolved_shots)
    (VInt 1) (VInt 2) (VInt 3) VNone
  = Ok (Some (map Shots.entry_of Samples.resolved_shots), true).
Proof.
  apply (mo_per_shots_resolved Orchestrator.sample_assets
           Samples.resolved_shots (VInt 1) (VInt 2) (VInt 3) VNone).
  - cbn. repeat constructor; cbn; intuition discriminate.
  - repeat constructor.
    apply (Shots.resolves_intro Orchestrator.sample_assets
             Samples.panel_fields [("asset_id", VInt 1)]
             [("media_objects",
               VDict [("artwork", VList [VDict Samples.artwork_fields]);
                      ("thumbnail",
                       VList [VDict Samples.thumbnail_fields])])]
             [("artwork", VList [VDict Samples.artwork_fields]);
              ("thumbnail", VList [VDict Samples.thumbnail_fields])]
             Samples.artwork_fields Samples.thumbnail_fields [] []);
      reflexivity.
Defined.

(** X6 on a first login. *)
Lemma authenticate_then_get_token_witness :
  exists w',
    Credential.authenticate (Credential.answers 200)
      (fun _ => Ok (Credential.hours 48)) (VStr "https://flix")
      (VStr "artist") (VStr "pw")
      (Credential.reset (Credential.logged_in 0))
    = (Ok (VDict [("id", VStr "key-2");
                  ("secret_access_key", VStr "secret-2");
                  ("expiry_date", VStr "2030-01-01T00:00:00.000Z")]), w')
    /\ Credential.self w'
       = Credential.mkSession (VStr "https://flix") (VStr "artist")
           (VStr "pw") (VStr "key-2") (VStr "secret-2")
           (Some (Credential.hours 48))
    /\ Credential.get_token (Credential.answers 200)
         (fun _ => Ok (Credential.hours 48)) 1000 w'
       = (Ok (VStr "key-2", VStr "secret-2"), w').
Proof.
  apply (authenticate_then_get_token (Credential.answers 200)
           (fun _ => Ok (Credential.hours 48)) "https://flix" "artist" "pw"
           (Credential.reset (Credential.logged_in 0)) 200
           [("id", VStr "key-2"); ("secret_access_key", VStr "secret-2");
            ("expiry_date", VStr "2030-01-01T00:00:00.000Z")]
           (VStr "key-2") (VStr "secret-2") "2030-01-01T00:00:00.000Z"
           (Credential.hours 48) 1000);
    try reflexivity; try discriminate.
Defined.

(** X7 on an answer without [id] and on one with [id] only. *)
Lemma authenticate_incomplete_answer_witness :
  Credential.authenticate Samples.key_only_answer (fun _ => Ok 0)
    (VStr "https://other") (VStr "guest") (VStr "pw2")
    (Credential.logged_in 0)
  = (Raise KeyError,
     Credential.mkWorld
       (Credential.mkSession (VStr "https://other") (VStr "guest")
          (VStr "pw2") (VStr "key-2") (VStr "secret-1") (Some 0))
       ([] ++ [Credential.CallAuthenticate (VStr "https://other")
                 (VStr "guest") (VStr "pw2");
               Credential.HttpPost ("https://other" ++ "/authenticate")
                 (Credential.basic_authorization "guest" "pw2")])).
Proof.
  apply (proj2 (authenticate_incomplete_answer Samples.key_only_answer
                  (fun _ => Ok 0) "https://other" "guest" "pw2"
                  (Credential.logged_in 0) 200 [("id", VStr "key-2")]
                  eq_refl eq_refl) (VStr "key-2"));
    reflexivity.
Defined.

(** X8 on a credential that expires in one hour, the service answering
    401. *)
Lemma get_token_login_rejected_witness :
  Credential.get_token (Credential.answers 401) (fun _ => Ok 0) 1000
    (Credential.logged_in (1000 + Credential.hours 1))
  = (Raise TypeError,
     Credential.mkWorld
       (Credential.self (Credential.logged_in (1000 + Credential.hours 1)))
       (Credential.log (Credential.logged_in (1000 + Credential.hours 1))
          ++ [Credential.CallAuthenticate (VStr "https://flix")
                (VStr "artist") (VStr "pw");
              Credential.HttpPost ("https://flix" ++ "/authenticate")
                (Credential.basic_authorization "artist" "pw")])).
Proof.
  apply (get_token_login_rejected (Credential.answers 401) (fun _ => Ok 0)
           1000 (Credential.logged_in (1000 + Credential.hours 1))
           "https://flix" "artist" "pw"); try reflexivity.
  cbn. lia.
Defined.

(** X10 on a credential that expires in one hour, the service answering
    with a new one. *)
Lemma get_token_refreshed_witness :
  Credential.get_token (Credential.answers 200)
    (fun _ => Ok (Credential.hours 48)) 1000
    (Credential.logged_in (1000 + Credential.hours 1))
  = (Ok (VStr "key-2", VStr "secret-2"),
     Credential.mkWorld
       (Credential.mkSession (VStr "https://flix") (VStr "artist")
          (VStr "pw") (VStr "key-2") (VStr "secret-2")
          (Some (Credential.hours 48)))
       (Credential.log (Credential.logged_in (1000 + Credential.hours 1))
          ++ [Credential.CallAuthenticate (VStr "https://flix")
                (VStr "artist") (VStr "pw");
              Credential.HttpPost ("https://flix" ++ "/authenticate")
                (Credential.basic_authorization "artist" "pw")])).
Proof.
  apply (get_token_refreshed (Credential.answers 200)
           (fun _ => Ok (Credential.hours 48)) 1000
           (Credential.logged_in (1000 + Credential.hours 1))
           "https://flix" "artist" "pw" 200
           [("id", VStr "key-2"); ("secret_access_key", VStr "secret-2");
            ("expiry_date", VStr "2030-01-01T00:00:00.000Z")]
           (VStr "key-2") (VStr "secret-2") "2030-01-01T00:00:00.000Z"
           (Credential.hours 48)); reflexivity.
Defined.

(** X13: a 503 answer to [get_asset] gives [None]. *)
Lemma get_asset_outcomes_witness :
  Requests.get_asset (Credential.answers 200) (fun _ => Ok 0)
    Samples.toy_mac Samples.unavailable 42 Samples.noon
    (Credential.logged_in (1000 + Credential.hours 3))
  = (Requests.Return VNone,
     Credential.logged_in (1000 + Credential.hours 3)).
Proof.
  destruct (get_asset_outcomes (Credential.answers 200) (fun _ => Ok 0)
              Samples.toy_mac Samples.unavailable 42 Samples.noon
              (Credential.logged_in (1000 + Credential.hours 3))
              "https://flix" "key-1" "secret-1")
    as (hd & _ & _ & H & _).
  - repeat split; discriminate.
  - apply (H 503 (Some (VDict [("message", VStr "busy")]))).
    + reflexivity.
    + lia.
Defined.

(** X14: the same 503 answer to [get_chain] comes back as the job. *)
Lemma get_chain_outcomes_witness :
  Requests.get_chain (Credential.answers 200) (fun _ => Ok 0)
    Samples.toy_mac Samples.unavailable 7 Samples.noon
    (Credential.logged_in (1000 + Credential.hours 3))
  = (Requests.Return (VDict [("message", VStr "busy")]),
     Credential.logged_in (1000 + Credential.hours 3)).
Proof.
  destruct (get_chain_outcomes (Credential.answers 200) (fun _ => Ok 0)
              Samples.toy_mac Samples.unavailable 7 Samples.noon
              (Credential.logged_in (1000 + Credential.hours 3))
              "https://flix" "key-1" "secret-1")
    as (hd & _ & _ & H & _).
  - repeat split; discriminate.
  - apply (H 503). reflexivity.
Defined.

(** X15: the same 503 answer to [get_panels] gives [None]. *)
Lemma get_panels_outcomes_witness :
  Requests.get_panels (Credential.answers 200) (fun _ => Ok 0)
    Samples.toy_mac Samples.unavailable 1 2 3 Samples.noon
    (Credential.logged_in (1000 + Credential.hours 3))
  = (Requests.Return VNone,
     Credential.logged_in (1000 + Credential.hours 3)).
Proof.
  destruct (get_panels_outcomes (Credential.answers 200) (fun _ => Ok 0)
              Samples.toy_mac Samples.unavailable 1 2 3 Samples.noon
              (Credential.logged_in (1000 + Credential.hours 3))
              "https://flix" "key-1" "secret-1")
    as (hd & _ & H & _).
  - repeat split; discriminate.
  - apply (H 503 [("message", VStr "busy")]). reflexivity.
Defined.

(** X16: [get_shows] with a credential that expires in one hour and a
    login answered by 401. *)
Lemma request_needs_token_witness :
  Requests.get_shows (Credential.answers 401) (fun _ => Ok 0)
    Samples.toy_mac Samples.unavailable Samples.noon
    (Credential.logged_in (1000 + Credential.hours 1))
  = (Requests.Throw TypeError,
     Credential.mkWorld
       (Credential.self (Credential.logged_in (1000 + Credential.hours 1)))
       (Credential.log (Credential.logged_in (1000 + Credential.hours 1))
          ++ [Credential.CallAuthenticate (VStr "https://flix")
                (VStr "artist") (VStr "pw");
              Credential.HttpPost ("https://flix" ++ "/authenticate")
                (Credential.basic_authorization "artist" "pw")])).
Proof.
  apply (proj1 (request_needs_token (Credential.answers 401)
                  (fun _ => Ok 0) Samples.toy_mac Samples.unavailable
                  Samples.accepts Samples.noon
                  (Credential.logged_in (1000 + Credential.hours 1))
                  "https://flix" "artist" "pw"
                  eq_refl eq_refl eq_refl eq_refl
                  ltac:(cbn; lia))).
Defined.

(** X17: an export of no panel, accepted by the service. *)
Lemma start_quicktime_export_signs_body_witness :
  Requests.start_quicktime_export (Credential.answers 200) (fun _ => Ok 0)
    Samples.toy_mac Samples.accepts 1 2 3 [] None false Samples.noon
    (Credential.logged_in (1000 + Credential.hours 3))
  = (Requests.Return (VDict [("id", VInt 7);
                             ("status", VStr "in progress")]),
     Credential.logged_in (1000 + Credential.hours 3)).
Proof.
  destruct (start_quicktime_export_signs_body (Credential.answers 200)
              (fun _ => Ok 0) Samples.toy_mac Samples.accepts 1 2 3 []
              None false Samples.noon
              (Credential.logged_in (1000 + Credential.hours 3))
              "https://flix" "key-1" "secret-1"
              ("{" ++ Json.quote ++ "include_dialogue" ++ Json.quote
                 ++ ": false, " ++ Json.quote ++ "panel_revisions"
                 ++ Json.quote ++ ": []}")%string)
    as (raw & hd & _ & _ & _ & H).
  - repeat split; discriminate.
  - reflexivity.
  - exact H.
Defined.

(** ** More on the loops *)

Section LoopProperties.

Import Timeline Markers Segments Orchestrator Waiting.

Lemma lookup_store_some {A} (d : list (string * A)) (k k' : string)
    (v l : A) :
  Py.lookup d k' = Some l -> exists l', Py.lookup (Py.store d k v) k' = Some l'.
Proof.
  induction d as [|[k0 v0] d IH]; cbn [Py.lookup Py.store]; [discriminate|].
  destruct (String.eqb k0 k) eqn:Ek; cbn [Py.lookup];
    destruct (String.eqb k0 k') eqn:Ek'; eauto.
Qed.

Lemma step_keeps_invariant (markers : markers_t) (i : Z)
    (d : list (string * value)) (st : loop_state) :
  loop_invariant markers st ->
  timed d ->
  exists st',
    step markers (map fst markers) i (VDict d) st = Ok st'
    /\ loop_invariant markers st'.
Proof.
  destruct st as [ppm pin mi].
  intros (Hpin & (j & k0 & Hmi & Hj & Hk0 & Hle) & Hprev) (n & Hn & Hd).
  cbn [panel_in marker_i panels_per_markers] in *. subst mi.
  destruct (nth_error (map fst markers) j) as [k|] eqn:Ek.
  2:{ apply nth_error_None in Ek. rewrite length_map in Ek. lia. }
  pose proof (index_nat _ _ _ Ek) as Hk.
  destruct (markers_getitem_key markers k (nth_error_In _ _ Ek))
    as (name & Hname).
  assert (Hlen : List.length (map fst markers) = List.length markers)
    by apply length_map.
  destruct (Z.compare_spec k pin) as [Heq | Hlt | Hgt].
  - (* line 606 *)
    subst k.
    rewrite (step_at_marker markers (map fst markers) i d n ppm pin
               (Z.of_nat j) name Hk Hname Hd).
    eexists. split; [reflexivity|].
    split; [cbn [panel_in]; lia|]. cbn [marker_i panels_per_markers].
    destruct (Z.of_nat (List.length (map fst markers)) >? Z.of_nat j + 1)
      eqn:Emore.
    + apply Z.gtb_lt in Emore. split.
      * exists (S j), k0. repeat split; try assumption; lia.
      * intros _. exists pin, name, [format_dict d i].
        replace (Z.of_nat j + 1 - 1) with (Z.of_nat j) by lia.
        repeat split; try assumption. apply lookup_store_same.
    + split.
      * exists j, k0. repeat split; assumption.
      * intros Hpos. destruct (Hprev Hpos) as (kp & np & l & H1 & H2 & H3).
        destruct (lookup_store_some ppm name np [format_dict d i] l H3)
          as (l' & Hl').
        exists kp, np, l'. repeat split; assumption.
  - (* lines 615: after the marker *)
    destruct (Z.eq_dec (Z.of_nat (List.length (map fst markers)) - 1)
                (Z.of_nat j)) as [Hlast | Hnot].
    + rewrite (step_after_last markers (map fst markers) i d n ppm pin
                 (Z.of_nat j) k name Hk Hlt Hlast Hname Hd).
      eexists. split; [reflexivity|].
      split; [cbn [panel_in]; lia|]. cbn [marker_i panels_per_markers].
      split.
      * exists j, k0. repeat split; assumption.
      * intros Hpos. destruct (Hprev Hpos) as (kp & np & l & H1 & H2 & H3).
        destruct (lookup_store_some ppm name np
                    (match Py.lookup ppm name with
                     | Some l0 => l0
                     | None => []
                     end ++ [format_dict d i]) l H3) as (l' & Hl').
        exists kp, np, l'. repeat split; assumption.
    + rewrite (step_skipped markers (map fst markers) i d n ppm pin
                 (Z.of_nat j) k Hk Hlt Hnot Hd).
      eexists. split; [reflexivity|].
      split; [cbn [panel_in]; lia|]. cbn [marker_i panels_per_markers].
      split; [exists j, k0; repeat split; assumption | exact Hprev].
  - (* line 612: before the marker *)
    assert (Hj0 : (0 < j)%nat).
    { destruct j as [|j']; [|lia]. rewrite Hk0 in Ek.
      assert (k = k0) by congruence. lia. }
    destruct (Hprev ltac:(lia)) as (kp & np & l & H1 & H2 & H3).
    rewrite (step_before_marker markers (map fst markers) i d n ppm pin
               (Z.of_nat j) k kp np l Hk Hgt H1 H2 H3 Hd).
    eexists. split; [reflexivity|].
    split; [cbn [panel_in]; lia|]. cbn [marker_i panels_per_markers].
    split.
    + exists j, k0. repeat split; assumption.
    + intros _. exists kp, np, (l ++ [format_dict d i]).
      repeat split; try assumption. apply lookup_store_same.
Qed.

Lemma loop_keeps_invariant (markers : markers_t)
    (ds : list (list (string * value))) :
  Forall timed ds ->
  forall i st,
    loop_invariant markers st ->
    exists st', loop markers (map fst markers) i (map VDict ds) st = Ok st'.
Proof.
  induction 1 as [|d ds Hd _ IH]; intros i st Hinv; cbn [map loop].
  - eauto.
  - destruct (step_keeps_invariant markers i d st Hinv Hd)
      as (st1 & E & Hinv1).
    rewrite E. cbn [bind]. apply IH. exact Hinv1.
Qed.

(** X18.  When the first marker starts at 0 (or before) and every panel
    is an object with an int duration that is not negative,
    [get_markers_per_panels] returns a mapping: no lookup of the loop
    fails, however the other markers lie. *)
Theorem get_markers_per_panels_returns (start : Z) (name : string)
    (rest : markers_t) (ds : list (list (string * value))) :
  start <= 0 ->
  Forall timed ds ->
  exists groups,
    get_markers_per_panels ((start, name) :: rest) (map VDict ds)
    = Ok groups.
Proof.
  intros Hstart Hds. unfold get_markers_per_panels.
  assert (Hinv : loop_invariant ((start, name) :: rest) (mkLoop [] 0 0)).
  { split; [cbn [panel_in]; lia|]. split.
    - exists O, start. cbn [marker_i List.length map fst nth_error].
      repeat split; try reflexivity; try lia.
    - cbn [marker_i]. lia. }
  destruct (loop_keeps_invariant ((start, name) :: rest) ds Hds 0
              (mkLoop [] 0 0) Hinv) as (st & E).
  cbn [map fst] in E |- *. rewrite E. cbn [bind].
  eexists. reflexivity.
Qed.

Variable get_asset : value -> result value.

(** X19.  While the job shows a status the loop does not know (a queued
    job), the loop polls again at once: no [on_retry], no sleep between
    two requests, and no end as long as such replies come. *)
Theorem poll_unknown_status_spins (chain_id : value)
    (replies : list (result value)) (retry : Z) :
  Forall unknown_status replies ->
  poll get_asset chain_id replies retry
  = (Pending, repeat (EGetChain chain_id) (List.length replies)).
Proof.
  induction 1 as [|reply rest (res & st & -> & Hst & He & Ht & Hi & Hc) _ IH].
  - reflexivity.
  - cbn [poll List.length repeat].
    rewrite (get_not_none _ _ _ Hst), Hst, He, Ht, Hi, Hc, IH.
    reflexivity.
Qed.

(** X20.  A body that is neither str, bytes nor dict (a JSON list, a
    number) is not hashed: the canonical string is the one of a request
    without content, so the signature does not cover it. *)
Theorem raw_string_unhashed_content (url : string) (content : value)
    (http_method content_type dt_isoformat : string) :
  unhashed content ->
  Signer.raw_string url content http_method content_type dt_isoformat
  = Signer.raw_string url VNone http_method content_type dt_isoformat.
Proof.
  unfold Signer.raw_string, Signer.content_lines, Signer.content_md5.
  destruct content as [|b|n|s|bs|l|d]; cbn [unhashed]; intros H;
    try contradiction; try reflexivity.
  - destruct (Py.truthy (VBool b)); reflexivity.
  - destruct (Py.truthy (VInt n)); reflexivity.
  - destruct (Py.truthy (VList l)); reflexivity.
Qed.

End LoopProperties.

(** X18 on markers at 0, 3 and 5 over panels of duration 2. *)
Lemma get_markers_per_panels_returns_witness :
  exists groups,
    Timeline.get_markers_per_panels [(0, "A"); (3, "B"); (5, "C")]
      (map VDict [[("panel_id", VInt 1); ("duration", VInt 2)];
                  [("panel_id", VInt 2); ("duration", VInt 2)];
                  [("panel_id", VInt 3); ("duration", VInt 0)]])
    = Ok groups.
Proof.
  apply (get_markers_per_panels_returns 0 "A" [(3, "B"); (5, "C")]).
  - lia.
  - repeat constructor; eexists; (split; [|reflexivity]); lia.
Defined.

(** X19 on three replies of a queued job. *)
Lemma poll_unknown_status_spins_witness :
  Orchestrator.poll Orchestrator.sample_assets (VInt 7)
    [Ok (VDict [("status", VStr "queued")]);
     Ok (VDict [("status", VStr "queued")]);
     Ok (VDict [("status", VStr "queued")])] 0
  = (Orchestrator.Pending,
     repeat (Orchestrator.EGetChain (VInt 7)) 3).
Proof.
  apply (poll_unknown_status_spins Orchestrator.sample_assets (VInt 7)
           [Ok (VDict [("status", VStr "queued")]);
            Ok (VDict [("status", VStr "queued")]);
            Ok (VDict [("status", VStr "queued")])] 0).
  repeat constructor;
    exists (VDict [("status", VStr "queued")]), (VStr "queued");
    repeat split; reflexivity.
Defined.

(** X20 on a list sent as the body. *)
Lemma raw_string_unhashed_content_witness :
  Signer.raw_string "/show/1" (VList [VInt 1; VInt 2]) "POST"
    "application/json" "2020-01-02T03:04:05"
  = Signer.raw_string "/show/1" VNone "POST" "application/json"
      "2020-01-02T03:04:05".
Proof.
  apply (raw_string_unhashed_content "/show/1" (VList [VInt 1; VInt 2])
           "POST" "application/json" "2020-01-02T03:04:05").
  exact I.
Defined.
